(** * Excel template generator: the mapping-and-generation engine

    A shallow embedding of [src/utils/excel_ops.py] (class [ExcelHandler])
    and of the batch loop of [src/main.py] that drives it, together with
    the properties of fund-code extraction, cross-file analysis, template
    generation and the report cache.

    The Python code talks to three outside parties: the file system
    ([shutil], [pathlib]), pandas ([pd.read_excel], [pd.ExcelFile]) and the
    spreadsheet engine driven through xlwings.  They are modelled by a
    [world]: a finite map from paths to workbooks, a flag telling whether the
    spreadsheet engine can be started, and a chronological trace of the
    parses and pastes that were performed.  Python exceptions are values of
    type [exn]; code that may raise lives in a small state-and-error monad. *)

From Stdlib Require Import ZArith String Ascii DecimalString.
From Stdlib Require DecimalPos DecimalFacts.
From stdpp Require Import gmap strings list sorting.

Local Open Scope string_scope.

(** ** Python builtins on strings *)

Module Py.

(** A character is a code point below 256, held in an [ascii]. *)
Definition ord (a : ascii) : nat := nat_of_ascii a.

(** [str.isspace] on one character: the code points below 256 that Python
    classifies as whitespace. *)
Definition isspace (a : ascii) : bool :=
  let n := ord a in
  (((9 <=? n) && (n <=? 13)) || ((28 <=? n) && (n <=? 32))
   || (n =? 133) || (n =? 160))%nat.

Fixpoint lstrip (s : string) : string :=
  match s with
  | EmptyString => EmptyString
  | String a t => if isspace a then lstrip t else s
  end.

Fixpoint rstrip (s : string) : string :=
  match s with
  | EmptyString => EmptyString
  | String a t =>
      match rstrip t with
      | EmptyString => if isspace a then EmptyString else String a EmptyString
      | t' => String a t'
      end
  end.

(** [s.strip()] *)
Definition strip (s : string) : string := rstrip (lstrip s).

Definition lower_char (a : ascii) : ascii :=
  let n := ord a in
  if (((65 <=? n) && (n <=? 90))
      || ((192 <=? n) && (n <=? 222) && negb (n =? 215)))%nat
  then ascii_of_nat (n + 32) else a.

(** [s.lower()] *)
Fixpoint lower (s : string) : string :=
  match s with
  | EmptyString => EmptyString
  | String a t => String (lower_char a) (lower t)
  end.

(** [str(n)] for an integer [n]: its decimal numeral, with a leading
    minus sign when negative. *)
Definition str_int (z : Z) : string := NilZero.string_of_int (Z.to_int z).

(** [s.split(sep)] for a one-character separator: always at least one
    piece. *)
Fixpoint split (sep : ascii) (s : string) : list string :=
  match s with
  | EmptyString => [EmptyString]
  | String a t =>
      if Ascii.eqb a sep then EmptyString :: split sep t
      else match split sep t with
           | p :: ps => String a p :: ps
           | [] => [String a EmptyString]
           end
  end.

(** The order [sorted] uses on strings: lexicographic on code points. *)
Definition str_le (s1 s2 : string) : Prop := String.leb s1 s2 = true.

#[global] Instance str_le_dec : RelDecision str_le.
Proof. intros s1 s2. unfold str_le. apply _. Defined.

End Py.

(** ** Cells, sheets and data frames *)

(** The value of a spreadsheet cell as pandas hands it to Python: missing
    ([NaN], an empty cell), text, or an integer.  Other values (floating
    point numbers, among them the integers of a column that also has
    blanks, dates, booleans) are outside the model.

    The sheets of the model hold their values in this form.  What the
    reader of pandas does to a stored file on the way (text such as "NA"
    read as missing, a column of numeric-looking text read as numbers,
    trailing empty cells and rows dropped, repeated or blank headers
    renamed) is not part of the program and is not modelled: a sheet
    stands for the table as read, and the properties speak of the values
    as read. *)
Inductive cell : Type :=
| NaN
| Str (s : string)
| Int (z : Z).

#[global] Instance cell_eq_dec : EqDecision cell.
Proof. solve_decision. Defined.

(** A sheet is the ordered sequence of its rows, each an ordered sequence of
    cells; row 0 of a report is its header.  A workbook is the ordered
    sequence of its named sheets. *)
Abbreviation sheet := (list (list cell)) (only parsing).
Abbreviation workbook := (list (string * list (list cell))) (only parsing).

Record DataFrame : Type := mkDataFrame {
  columns : list cell;         (* the header row, turned into column labels *)
  values : list (list cell)    (* the data rows *)
}.

Module Pd.

(** [pd.notna(x)] *)
Definition notna (c : cell) : bool :=
  match c with NaN => false | _ => true end.

(** [str(x)] on a cell value. *)
Definition str (c : cell) : string :=
  match c with
  | NaN => "nan"
  | Str s => s
  | Int z => Py.str_int z
  end.

(** pandas pads every row of the sheet to the width of the widest one. *)
Definition width (sh : sheet) : nat := foldr (λ r n, max (length r) n) 0 sh.

Definition pad (n : nat) (r : list cell) : list cell :=
  (r ++ replicate (n - length r) NaN)%list.

(** The frame pandas builds from a sheet with the default [header=0]: the
    first row becomes the column labels, the remaining rows the data.  The
    sheet is the table as read (see the cells above); pandas' conversion of
    the stored values is not repeated here. *)
Definition frame_of_sheet (sh : sheet) : DataFrame :=
  match pad (width sh) <$> sh with
  | [] => mkDataFrame [] []
  | h :: t => mkDataFrame h t
  end.

(** [df.empty]: one of the two axes has length 0. *)
Definition empty (df : DataFrame) : bool :=
  bool_decide (values df = []) || bool_decide (columns df = []).

(** The element of column 0 in a data row. *)
Definition col0 (r : list cell) : cell := default NaN (head r).

(** [series == fund_code] on one element, for a string [fund_code]: only
    a text cell holding exactly that string compares equal. *)
Definition eq_str (c : cell) (fund_code : string) : bool :=
  match c with
  | Str s => String.eqb s fund_code
  | _ => false
  end.

End Pd.

(** ** Exceptions and the state-and-error monad *)

(** The exceptions the code can meet.  The first five are raised by the
    outside parties; [Exception msg e] is the code's own
    [Exception(f"<msg>{str(e)}")], which keeps the message of [e] after
    the prefix [msg]. *)
Inductive exn : Type :=
| CannotOpen (path : string)       (* file missing or not a readable workbook *)
| SameFile (path : string)         (* shutil: source and target are one file *)
| SheetNotFound (name : string)    (* no sheet of that name in the workbook *)
| IndexError                       (* position out of range *)
| ValueError                       (* wrong number of values to unpack *)
| BadReference (cell_ref : string) (* not a cell address *)
| EngineError                      (* the spreadsheet engine did not start *)
| Exception (msg : string) (e : exn).

Inductive result (A : Type) : Type :=
| Ok (a : A)
| Raise (e : exn).
Arguments Ok {A} a.
Arguments Raise {A} e.

Definition M (S A : Type) : Type := S → S * result A.

Definition ret {S A} (a : A) : M S A := λ s, (s, Ok a).

Definition throw {S A} (e : exn) : M S A := λ s, (s, Raise e).

Definition bind {S A B} (m : M S A) (k : A → M S B) : M S B :=
  λ s, match m s with
       | (s', Ok a) => k a s'
       | (s', Raise e) => (s', Raise e)
       end.

(** [try: m except Exception as e: h e] *)
Definition try_except {S A} (m : M S A) (h : exn → M S A) : M S A :=
  λ s, match m s with
       | (s', Raise e) => h e s'
       | r => r
       end.

Declare Scope py_scope.
Delimit Scope py_scope with py.
Notation "'let*' x := m 'in' k" := (bind m (λ x, k))
  (at level 10, x pattern, m at level 100, k at level 200) : py_scope.
Notation "m ;;; k" := (bind m (λ _, k))
  (at level 100, right associativity) : py_scope.

(** [for x in l: body x] *)
Fixpoint for_each {S A} (l : list A) (body : A → M S unit) : M S unit :=
  match l with
  | [] => ret tt
  | x :: l' => (body x ;;; for_each l' body)%py
  end.

(** ** The outside world *)

Inductive event : Type :=
| Parsed (path : string)
    (* pandas opened the file at [path] and parsed it *)
| Pasted (sheet_name cell_ref : string) (block : list (list cell)).
    (* a block of values was assigned to the range anchored at [cell_ref] *)

#[global] Instance event_eq_dec : EqDecision event.
Proof. solve_decision. Defined.

Record world : Type := mkWorld {
  files : gmap string workbook;   (* the readable workbooks on disk *)
  engine_ok : bool;               (* can the spreadsheet engine be started *)
  trace : list event              (* what was done so far, oldest first *)
}.

Definition log (ev : event) (w : world) : world :=
  mkWorld (files w) (engine_ok w) (trace w ++ [ev])%list.

Definition set_files (fs : gmap string workbook) (w : world) : world :=
  mkWorld fs (engine_ok w) (trace w).

Module PdIO.

(** [pd.ExcelFile(path)]: open the file and parse the workbook.  A
    workbook has at least one sheet; a file without one does not parse. *)
Definition ExcelFile (path : string) : M world workbook :=
  λ w, match files w !! path with
       | Some (sh :: shs) => (log (Parsed path) w, Ok (sh :: shs))
       | _ => (w, Raise (CannotOpen path))
       end.

(** [xl.sheet_names] *)
Definition sheet_names (xl : workbook) : list string := fst <$> xl.

(** [pd.read_excel(path)] ([sheet_name] absent: the sheet at position 0)
    and [pd.read_excel(path, sheet_name=name)]. *)
Definition read_excel (path : string) (sheet_name : option string)
  : M world DataFrame :=
  (let* xl := ExcelFile path in
   match sheet_name with
   | None =>
       match xl with
       | (_, sh) :: _ => ret (Pd.frame_of_sheet sh)
       | [] => throw IndexError
       end
   | Some name =>
       match list_find (λ ns, ns.1 = name) xl with
       | Some (_, (_, sh)) => ret (Pd.frame_of_sheet sh)
       | None => throw (SheetNotFound name)
       end
   end)%py.

End PdIO.

(** ** ExcelHandler: reading and fund-code extraction *)

(** [ExcelHandler.read_excel] *)
Definition read_excel (file_path : string) (sheet_name : option string)
  : M world DataFrame :=
  try_except
    (let* sheet_name :=
       match sheet_name with
       | None =>
           (let* xl := PdIO.ExcelFile file_path in
            match PdIO.sheet_names xl with
            | name :: _ => ret name
            | [] => throw IndexError
            end)
       | Some name => ret name
       end in
     PdIO.read_excel file_path (Some sheet_name))%py
    (λ e, throw (Exception "Error reading Excel file: " e)).

(** [ExcelHandler.get_sheet_names] *)
Definition get_sheet_names (file_path : string) : M world (list string) :=
  try_except
    (let* xl := PdIO.ExcelFile file_path in ret (PdIO.sheet_names xl))%py
    (λ e, throw (Exception "Error getting sheet names: " e)).

(** The body of the cleaning loop of [get_fund_codes] for one value
    [code]: the string appended to [fund_codes], if any. *)
Definition clean_code (code : cell) : option string :=
  if Pd.notna code then
    let str_code := Py.strip (Pd.str code) in
    if negb (String.eqb str_code "")
       && negb (String.eqb (Py.lower str_code) "nan")
    then Some str_code else None
  else None.

(** [ExcelHandler.get_fund_codes]; the parameter [sheet_name] is not
    used by the code. *)
Definition get_fund_codes (file_path : string) (sheet_name : option string)
  : M world (list string) :=
  try_except
    (let* df := PdIO.read_excel file_path None in
     if Pd.empty df then ret []
     else
       (* df.iloc[1:, 0] *)
       let first_col := Pd.col0 <$> drop 1 (values df) in
       let fund_codes := omap clean_code first_col in
       let unique_codes := remove_dups fund_codes in
       ret (merge_sort Py.str_le unique_codes))%py
    (λ e, throw (Exception "Error extracting fund codes: " e)).

(** [dict(Counter(l))] *)
Definition Counter (l : list string) : gmap string nat :=
  foldl (λ m x, <[x := S (default 0 (m !! x))]> m) ∅ l.

(** The loop of [analyze_fund_codes], started with the codes collected so
    far. *)
Fixpoint analyze_loop (files : list string) (all_fund_codes : list string)
  : M world (list string) :=
  match files with
  | [] => ret all_fund_codes
  | file :: rest =>
      (let* all_fund_codes :=
         try_except
           (let* fund_codes := get_fund_codes file None in
            match fund_codes with
            | [] => ret all_fund_codes
            | _ => ret (all_fund_codes ++ fund_codes)%list
            end)
           (λ _, ret all_fund_codes) in
       analyze_loop rest all_fund_codes)%py
  end.

(** [ExcelHandler.analyze_fund_codes] *)
Definition analyze_fund_codes (files : list string) (sheet_name : option string)
  : M world (gmap string nat) :=
  (let* all_fund_codes := analyze_loop files [] in
   ret (Counter all_fund_codes))%py.

(** ** The spreadsheet engine (xlwings) *)

Module Xw.

(** A rectangular range of a sheet; rows and columns are counted from 0,
    so that ["A1"] is row 0, column 0. *)
Record range : Type := mkRange {
  top : nat; left : nat; nrows : nat; ncols : nat
}.

Definition is_upper (a : ascii) : bool :=
  ((65 <=? Py.ord a) && (Py.ord a <=? 90))%nat.
Definition is_digit (a : ascii) : bool :=
  ((48 <=? Py.ord a) && (Py.ord a <=? 57))%nat.

(** The leading capital letters of an address, as numbers 1..26, and what
    follows them. *)
Fixpoint letters (s : string) : list nat * string :=
  match s with
  | String a t =>
      if is_upper a then
        let '(ls, rest) := letters t in ((Py.ord a - 64)%nat :: ls, rest)
      else ([], s)
  | EmptyString => ([], s)
  end.

Fixpoint digits (s : string) : option (list nat) :=
  match s with
  | EmptyString => Some []
  | String a t =>
      if is_digit a then (λ ds, (Py.ord a - 48)%nat :: ds) <$> digits t
      else None
  end.

Definition number (base : nat) (ds : list nat) : nat :=
  foldl (λ acc d, acc * base + d)%nat 0%nat ds.

(** An address of the form [[A-Z]+[1-9][0-9]*], the form the mapping
    interface produces: the row and column it names.  Other forms of
    address are treated as invalid; the forms the engine resolves besides
    (absolute markers, ranges, lower case, defined names) and the limits
    of the grid are outside the model, and what is proved about a resolved
    address is proved for addresses of this form. *)
Definition parse_ref (cell_ref : string) : option (nat * nat) :=
  match letters cell_ref with
  | ([], _) => None
  | (ls, rest) =>
      match digits rest with
      | Some (S d :: ds) =>
          Some ((number 10 (S d :: ds) - 1)%nat, (number 26 ls - 1)%nat)
      | _ => None
      end
  end.

(** [rng.resize(n, m)] *)
Definition resize (rng : range) (n m : nat) : range :=
  mkRange (top rng) (left rng) n m.

(** The value of the cell at row [r], column [c]; a cell beyond the
    stored rows is empty. *)
Definition cell_at (sh : sheet) (r c : nat) : cell :=
  default NaN (sh !! r ≫= (.!! c)).

Definition set_cell (sh : sheet) (r c : nat) (v : cell) : sheet :=
  let sh' := (sh ++ replicate (S r - length sh) [])%list in
  let row := default [] (sh' !! r) in
  <[r := <[c := v]> (row ++ replicate (S c - length row) NaN)%list]> sh'.

Definition clear_cell (sh : sheet) (r c : nat) : sheet :=
  <[r := <[c := NaN]> (default [] (sh !! r))]> sh.

Definition cells (rng : range) : list (nat * nat) :=
  r ← seq (top rng) (nrows rng); c ← seq (left rng) (ncols rng); [(r, c)].

(** [rng.clear_contents()]: values only. *)
Definition clear_contents (sh : sheet) (rng : range) : sheet :=
  foldl (λ sh rc, clear_cell sh rc.1 rc.2) sh (cells rng).

(** Is the cell at row [r], column [c] inside the range? *)
Definition inside (rng : range) (r c : nat) : bool :=
  bool_decide (top rng ≤ r < top rng + nrows rng
               ∧ left rng ≤ c < left rng + ncols rng).

Fixpoint write_row (sh : sheet) (r c : nat) (vals : list cell) : sheet :=
  match vals with
  | [] => sh
  | v :: vals' => write_row (set_cell sh r c v) r (S c) vals'
  end.

Fixpoint write_rows (sh : sheet) (r c : nat) (rows : list (list cell))
  : sheet :=
  match rows with
  | [] => sh
  | row :: rows' => write_rows (write_row sh r c row) (S r) c rows'
  end.

(** [rng.value = values] for a list of rows: the rows are laid out from
    the top-left cell of [rng], one sheet row per list row. *)
Definition set_value (sh : sheet) (rng : range) (values : list (list cell))
  : sheet :=
  write_rows sh (top rng) (left rng) values.

End Xw.

(** ** ExcelHandler: template generation *)

(** One entry of [report_mappings]: the key is ["<sheet>!<cell>"]. *)
Record mapping_info : Type := mkMapping {
  report : string;
  insert_position : string
}.

(** A Python dictionary that is iterated over is modelled by the list of
    its items, in insertion order. *)
Abbreviation dict V := (list (string * V)) (only parsing).

(** [if k not in d: d[k] = []] followed by [d[k].append(v)] *)
Fixpoint group_append {V} (k : string) (v : V) (d : dict (list V))
  : dict (list V) :=
  match d with
  | [] => [(k, [v])]
  | (k', vs) :: d' =>
      if String.eqb k' k then (k', (vs ++ [v])%list) :: d'
      else (k', vs) :: group_append k v d'
  end.

(** Lines 188-193: group the mappings by report. *)
Definition group_by_report (report_mappings : dict mapping_info)
  : dict (list (string * mapping_info)) :=
  foldl (λ report_to_mappings km, group_append (report km.2) km report_to_mappings)
        [] report_mappings.

(** Lines 217-222: group the mappings of one report by sheet, pairing each
    cell with the values of the report. *)
Fixpoint group_by_sheet (mappings : list (string * mapping_info))
    (values : list (list cell))
    (sheet_mappings : dict (list (string * list (list cell))))
  : result (dict (list (string * list (list cell)))) :=
  match mappings with
  | [] => Ok sheet_mappings
  | (mapping_key, _) :: rest =>
      match Py.split "!" mapping_key with
      | [sheet_name; cell_ref] =>
          group_by_sheet rest values
            (group_append sheet_name (cell_ref, values) sheet_mappings)
      | _ => Raise ValueError
      end
  end.

(** What the body of [with xw.App(...)] works on: the world, the cache
    dictionary and the open workbook [wb]. *)
Record session : Type := mkSession {
  s_world : world;
  s_cache : gmap string DataFrame;
  s_book : workbook
}.

Definition lift_result {S A} (r : result A) : M S A := λ s, (s, r).

(** Lines 203-207: the table of a report, from the cache when it is there,
    otherwise read from disk and stored in the cache. *)
Definition load_report (report_path : string) : M session DataFrame :=
  λ s, match s_cache s !! report_path with
       | Some report_df => (s, Ok report_df)
       | None =>
           match PdIO.read_excel report_path None (s_world s) with
           | (w, Ok report_df) =>
               (mkSession w (<[report_path := report_df]> (s_cache s)) (s_book s),
                Ok report_df)
           | (w, Raise e) => (mkSession w (s_cache s) (s_book s), Raise e)
           end
       end.

(** [report_df[report_df.iloc[:, 0] == fund_code]]: the rows whose column 0
    equals [fund_code]; a frame without columns has no column 0. *)
Definition filter_rows (report_df : DataFrame) (fund_code : string)
  : result DataFrame :=
  match columns report_df with
  | [] => Raise IndexError
  | _ =>
      Ok (mkDataFrame (columns report_df)
            (filter (λ r, Pd.eq_str (Pd.col0 r) fund_code = true)
                    (values report_df)))
  end.

(** [sheet = wb.sheets[sheet_name]] *)
Definition get_sheet (sheet_name : string) : M session sheet :=
  λ s, match list_find (λ ns, ns.1 = sheet_name) (s_book s) with
       | Some (_, (_, sh)) => (s, Ok sh)
       | None => (s, Raise (SheetNotFound sheet_name))
       end.

(** An update of the sheet called [sheet_name] of the open workbook. *)
Definition update_sheet (sheet_name : string) (f : sheet → sheet)
    (wb : workbook) : workbook :=
  match list_find (λ ns, ns.1 = sheet_name) wb with
  | Some (i, (n, sh)) => <[i := (n, f sh)]> wb
  | None => wb
  end.

(** Lines 230-232 on a sheet: resolve the range, clear it, assign the
    values. *)
Definition write_block (sh : sheet) (cell_ref : string)
    (values : list (list cell)) : result sheet :=
  match Xw.parse_ref cell_ref with
  | None => Raise (BadReference cell_ref)
  | Some (r, c) =>
      match values with
      | [] => Raise IndexError
      | row0 :: _ =>
          let paste_range :=
            Xw.resize (Xw.mkRange r c 1 1) (length values) (length row0) in
          let cleared := Xw.clear_contents sh paste_range in
          Ok (Xw.set_value cleared paste_range values)
      end
  end.

(** Lines 230-232 in the open workbook. *)
Definition paste (sheet_name : string) (cv : string * list (list cell))
  : M session unit :=
  (let* sh := get_sheet sheet_name in
   let* sh' := lift_result (write_block sh cv.1 cv.2) in
   λ s, (mkSession (log (Pasted sheet_name cv.1 cv.2) (s_world s)) (s_cache s)
           (update_sheet sheet_name (λ _, sh') (s_book s)),
         Ok tt))%py.

(** Lines 201-235: the body of the loop over the reports. *)
Definition process_report (fund_code : string)
    (item : string * list (string * mapping_info)) : M session unit :=
  let '(report_path, mappings) := item in
  try_except
    (let* report_df := load_report report_path in
     let* filtered_df := lift_result (filter_rows report_df fund_code) in
     if Pd.empty filtered_df then ret tt
     else
       let values := values filtered_df in
       let* sheet_mappings := lift_result (group_by_sheet mappings values []) in
       for_each sheet_mappings (λ sm,
         let* _ := get_sheet sm.1 in
         for_each sm.2 (paste sm.1)))%py
    (λ e, throw (Exception ("Error processing report " ++ report_path ++ ": ") e)).

(** [shutil.copy2(src, dst)] *)
Definition copy2 (src dst : string) : M world unit :=
  λ w, match files w !! src with
       | None => (w, Raise (CannotOpen src))
       | Some wb =>
           if decide (src = dst) then (w, Raise (SameFile src))
           else (set_files (<[dst := wb]> (files w)) w, Ok tt)
       end.

(** Lines 196-239: start the engine, open the copy, process the reports,
    save.  The state outside the [with] block is the world and the cache
    dictionary. *)
Definition with_app (output_path : string) (body : M session unit)
  : M (world * gmap string DataFrame) unit :=
  λ wc,
    if engine_ok wc.1 then
      match files wc.1 !! output_path with
      | None => (wc, Raise (CannotOpen output_path))
      | Some wb =>
          match body (mkSession wc.1 wc.2 wb) with
          | (s, Ok _) =>
              (* wb.save() *)
              ((set_files (<[output_path := s_book s]> (files (s_world s)))
                          (s_world s),
                s_cache s), Ok tt)
          | (s, Raise e) => ((s_world s, s_cache s), Raise e)
          end
      end
    else (wc, Raise EngineError).

(** How a call of [generate_populated_template] ends. *)
Inductive outcome : Type :=
| Returned (report_cache : gmap string DataFrame)
| Raised (e : exn).

(** [Path(output_path).unlink()] when the file exists. *)
Definition unlink (output_path : string) (w : world) : world :=
  set_files (delete output_path (files w)) w.

(** [ExcelHandler.generate_populated_template].  Besides the world and the
    outcome, the result holds the cache dictionary in the state in which
    the call leaves it: the dictionary that was passed in is updated in
    place, also when the call raises. *)
Definition generate_populated_template
    (template_path output_path : string)
    (report_mappings : dict mapping_info)
    (fund_code : string)
    (report_cache : option (gmap string DataFrame))
    (w : world) : world * gmap string DataFrame * outcome :=
  match copy2 template_path output_path w with
  | (w, Raise e) => (w, default ∅ report_cache, Raised e)
  | (w, Ok _) =>
      let report_cache := default ∅ report_cache in
      let report_to_mappings := group_by_report report_mappings in
      match with_app output_path
              (for_each report_to_mappings (process_report fund_code))
              (w, report_cache) with
      | ((w, report_cache), Ok _) => (w, report_cache, Returned report_cache)
      | ((w, report_cache), Raise e) =>
          (unlink output_path w, report_cache,
           Raised (Exception "Error generating populated template: " e))
      end
  end.

(** [ExcelHandler.filter_report_by_fund] *)
Definition filter_report_by_fund (report_path fund_code : string)
  : M world DataFrame :=
  try_except
    (let* df := PdIO.read_excel report_path None in
     lift_result (filter_rows df fund_code))%py
    (λ e, throw (Exception "Error filtering report: " e)).

(** ** The batch loop of the Generate Files page *)

Record call : Type := mkCall {
  c_template : string;
  c_output : string;
  c_mappings : dict mapping_info;
  c_fund : string
}.

(** [report_cache = generate_populated_template(..., report_cache)] inside
    [try]/[except], once per call.  When a call raises, the variable keeps
    the dictionary it held, which is the one the call updated. *)
Fixpoint generate_all (calls : list call) (report_cache : gmap string DataFrame)
    (w : world) : world * gmap string DataFrame * list outcome :=
  match calls with
  | [] => (w, report_cache, [])
  | c :: rest =>
      let '(w, report_cache, o) :=
        generate_populated_template (c_template c) (c_output c)
          (c_mappings c) (c_fund c) (Some report_cache) w in
      let '(w, report_cache, os) := generate_all rest report_cache w in
      (w, report_cache, o :: os)
  end.

(** * Specification vocabulary

    Functions used to state the properties: what is on disk, what a call
    of the code yields for a file, what a trace contains. *)

(** The frame [pd.read_excel(path)] yields for the files [fs]: the first
    sheet of the workbook at [path], when there is such a workbook. *)
Definition disk_table (fs : gmap string workbook) (path : string)
  : option DataFrame :=
  match fs !! path with
  | Some ((_, sh) :: _) => Some (Pd.frame_of_sheet sh)
  | _ => None
  end.

(** The codes [get_fund_codes] computes from the frame it read. *)
Definition codes_of_frame (df : DataFrame) : list string :=
  if Pd.empty df then []
  else merge_sort Py.str_le
         (remove_dups (omap clean_code (Pd.col0 <$> drop 1 (values df)))).

(** The codes extracted from a file, none when extraction raises. *)
Definition extracted (w : world) (file : string) : list string :=
  match (get_fund_codes file None w).2 with
  | Ok codes => codes
  | Raise _ => []
  end.

(** Does the extraction from [file] yield [code]? *)
Definition reports_code (w : world) (code file : string) : bool :=
  match (get_fund_codes file None w).2 with
  | Ok codes => bool_decide (code ∈ codes)
  | Raise _ => false
  end.

(** Does the extraction from [file] return? *)
Definition extraction_succeeds (w : world) (file : string) : bool :=
  match (get_fund_codes file None w).2 with
  | Ok _ => true
  | Raise _ => false
  end.

(** The table generation works with for a report: the cached one when the
    cache has it, otherwise the one on disk. *)
Definition table_of (fs : gmap string workbook) (cache : gmap string DataFrame)
    (path : string) : option DataFrame :=
  match cache !! path with
  | Some df => Some df
  | None => disk_table fs path
  end.

(** The rows of a report whose column 0 equals the fund code. *)
Definition block_of (fs : gmap string workbook) (cache : gmap string DataFrame)
    (fund_code path : string) : list (list cell) :=
  match table_of fs cache path with
  | Some df =>
      filter (λ r, Pd.eq_str (Pd.col0 r) fund_code = true) (values df)
  | None => []
  end.

(** The two parts of a mapping key ["<sheet>!<cell>"]. *)
Definition key_parts (mapping_key : string) : option (string * string) :=
  match Py.split "!" mapping_key with
  | [sheet_name; cell_ref] => Some (sheet_name, cell_ref)
  | _ => None
  end.

(** The write planned for one mapping of the report at [path]: none when
    no row of the report matches the fund code, otherwise one paste of the
    matching rows at the mapped cell. *)
Definition writes_for (fs : gmap string workbook) (cache : gmap string DataFrame)
    (fund_code path : string) (km : string * mapping_info) : list event :=
  match block_of fs cache fund_code path, key_parts km.1 with
  | b :: bs, Some (sheet_name, cell_ref) =>
      [Pasted sheet_name cell_ref (b :: bs)]
  | _, _ => []
  end.

Definition planned_writes (fs : gmap string workbook)
    (cache : gmap string DataFrame) (fund_code : string)
    (km : string * mapping_info) : list event :=
  writes_for fs cache fund_code (report km.2) km.

(** The files parsed and the pastes made in a stretch of trace. *)
Definition parsed (evs : list event) : list string :=
  omap (λ ev, match ev with Parsed p => Some p | _ => None end) evs.

Definition pasted (evs : list event) : list event :=
  omap (λ ev, match ev with Pasted _ _ _ => Some ev | _ => None end) evs.

(** The files after [shutil.copy2(template_path, output_path)]. *)
Definition copied (fs : gmap string workbook) (template_path output_path : string)
  : gmap string workbook :=
  match fs !! template_path with
  | Some wb => <[output_path := wb]> fs
  | None => fs
  end.

(** How the cache may change while the events [evs] happen, the files being
    [fs]: entries stay, a file is parsed only when the cache lacks it, at
    most once, and its table is then in the cache. *)
Definition cache_step (fs : gmap string workbook) (c : gmap string DataFrame)
    (evs : list event) (c' : gmap string DataFrame) : Prop :=
  c ⊆ c' ∧ NoDup (parsed evs) ∧
  (∀ p, p ∈ parsed evs →
        c !! p = None ∧ is_Some (c' !! p) ∧ c' !! p = disk_table fs p) ∧
  (∀ p, table_of fs c' p = table_of fs c p).

(** The same without reference to the files. *)
Definition cache_grows (c : gmap string DataFrame) (evs : list event)
    (c' : gmap string DataFrame) : Prop :=
  c ⊆ c' ∧ NoDup (parsed evs) ∧
  (∀ p, p ∈ parsed evs → c !! p = None ∧ is_Some (c' !! p)).

(** A step of a session that leaves the files alone. *)
Definition extends (s s' : session) (evs : list event) : Prop :=
  files (s_world s') = files (s_world s) ∧
  engine_ok (s_world s') = engine_ok (s_world s) ∧
  trace (s_world s') = (trace (s_world s) ++ evs)%list.

(** The items of a dictionary of lists, flattened: each value with its
    key. *)
Definition flat {V} (d : dict (list V)) : list (string * V) :=
  d ≫= (λ kv, pair kv.1 <$> kv.2).

(** The entry a mapping contributes to the grouping by sheet. *)
Definition sheet_entry (values : list (list cell)) (km : string * mapping_info)
  : list (string * (string * list (list cell))) :=
  match key_parts km.1 with
  | Some (sheet_name, cell_ref) => [(sheet_name, (cell_ref, values))]
  | None => []
  end.

(** The pastes of the loops over the sheets and cells of one report. *)
Definition sheet_pastes (sm : string * list (string * list (list cell)))
  : list event :=
  (λ cv, Pasted sm.1 cv.1 cv.2) <$> sm.2.

(** What a step that only pastes does: the cache stays, the trace grows by
    pastes, which are the [expected] ones when the step returns. *)
Definition writes (s s' : session) (r : result unit) (expected : list event)
  : Prop :=
  s_cache s' = s_cache s ∧
  ∃ evs, extends s s' evs ∧ parsed evs = [] ∧ pasted evs = evs ∧
         (∀ u, r = Ok u → evs = expected).

(** What holds of a report once its loop body has returned: generation
    had a table with a column 0 for it, and when rows of the table match
    the fund code, every mapping key of the report has its two parts. *)
Definition report_done (fs : gmap string workbook) (c : gmap string DataFrame)
    (F p : string) (ms : list (string * mapping_info)) : Prop :=
  (∃ df, table_of fs c p = Some df ∧ columns df ≠ []) ∧
  (block_of fs c F p ≠ [] → Forall (λ km, is_Some (key_parts km.1)) ms).

(** No row of the table generation uses for the report at [p] has the fund
    code [F] in column 0. *)
Definition no_match (fs : gmap string workbook) (c : gmap string DataFrame)
    (F p : string) : Prop :=
  ∃ df, table_of fs c p = Some df ∧ columns df ≠ [] ∧
        ∀ r, r ∈ values df → Pd.eq_str (Pd.col0 r) F = false.

(** A cell that is not a plain string: a value that is not text, or text
    with whitespace around it. *)
Definition not_plain (c : cell) : Prop :=
  match c with
  | Str s => Py.strip s ≠ s
  | _ => True
  end.

(** ** A worked example

    The template has a sheet "Summary"; the report R1 has a header and the
    rows FundA/10, FundB/20, FundA/30; the report R2 holds a number and a
    string with blanks around it in column 0. *)

Definition example_report : workbook :=
  [("Sheet1", [[Str "Fund"; Str "Value"];
               [Str "FundA"; Int 10];
               [Str "FundB"; Int 20];
               [Str "FundA"; Int 30]])].

Definition example_report2 : workbook :=
  [("Sheet1", [[Str "Fund"; Str "Value"];
               [Str "FundB"; Int 1];
               [Int 10; Int 2];
               [Str " FundA "; Int 3]])].

Definition example_template : workbook :=
  [("Summary", [[Str "Title"]])].

Definition example_world : world :=
  mkWorld {[ "R1.xlsx" := example_report;
             "R2.xlsx" := example_report2;
             "template.xlsx" := example_template ]} true [].

Definition example_mappings : dict mapping_info :=
  [("Summary!A5", mkMapping "R1.xlsx" "A5");
   ("Summary!D1", mkMapping "R1.xlsx" "D1")].

Definition example_mappings2 : dict mapping_info :=
  [("Summary!A5", mkMapping "R2.xlsx" "A5")].

Definition example_bad_mappings : dict mapping_info :=
  [("Missing!A1", mkMapping "R1.xlsx" "A1")].

Definition example_block : list (list cell) :=
  [[Str "FundA"; Int 10]; [Str "FundA"; Int 30]].

(** * Further functions of the program *)

(** ** Column names *)

(** [chr(n)] for a code point below 256. *)
Definition chr (n : Z) : ascii := ascii_of_nat (Z.to_nat n).

(** The [while n > 0] loop of [_get_excel_col_name], run for at most
    [fuel] rounds. *)
Fixpoint col_name_loop (fuel : nat) (n : Z) (result : string) : string :=
  match fuel with
  | O => result
  | S fuel =>
      if (0 <? n)%Z then
        let remainder := ((n - 1) mod 26)%Z in
        let n := ((n - 1) / 26)%Z in
        col_name_loop fuel n (String (chr (65 + remainder)) result)
      else result
  end.

(** [ExcelHandler._get_excel_col_name]: [n] rounds are enough, since each
    round makes [n] smaller. *)
Definition _get_excel_col_name (n : Z) : string :=
  col_name_loop (Z.to_nat n) n "".

(** The [while column_index >= 0] loop of [get_excel_cell_reference]. *)
Fixpoint cell_ref_loop (fuel : nat) (column_index : Z) (excel_column : string)
  : string :=
  match fuel with
  | O => excel_column
  | S fuel =>
      if (0 <=? column_index)%Z then
        let excel_column :=
          String (chr (65 + column_index mod 26)) excel_column in
        let column_index := (column_index / 26 - 1)%Z in
        cell_ref_loop fuel column_index excel_column
      else excel_column
  end.

(** [c in s] for a character. *)
Fixpoint has_char (c : ascii) (s : string) : bool :=
  match s with
  | String a t => Ascii.eqb a c || has_char c t
  | EmptyString => false
  end.

(** The key main.py stores a mapping under:
    [f"{st.session_state.current_sheet}!{cell_ref}"]. *)
Definition mapping_key (current_sheet cell_ref : string) : string :=
  current_sheet ++ "!" ++ cell_ref.

(** [l.index(x)]: the position of the first occurrence, [ValueError] when
    there is none. *)
Definition list_index (l : list string) (x : string) : result Z :=
  match list_find (λ y, y = x) l with
  | Some (i, _) => Ok (Z.of_nat i)
  | None => Raise ValueError
  end.

(** [get_excel_cell_reference] of main.py.  The labels
    [df.columns.tolist()] of the frame are the parameter [column_names];
    the messages shown in the page when the lookup fails are left out. *)
Definition get_excel_cell_reference (row_index : Z) (col_name : string)
    (column_names : list string) : string :=
  match list_index column_names col_name with
  | Ok column_index =>
      let excel_column :=
        cell_ref_loop (S (Z.to_nat column_index)) column_index "" in
      excel_column ++ Py.str_int (row_index + 1)
  | Raise _ => "A1"
  end.

(** ** Template preview and dimensions *)

(** [ExcelHandler.get_template_dimensions] *)
Definition get_template_dimensions (template_path : string)
    (sheet_name : option string) : M world (nat * nat) :=
  try_except
    (let* df := read_excel template_path sheet_name in
     ret (length (values df), length (columns df)))%py
    (λ e, throw (Exception "Error getting template dimensions: " e)).

(** [pd.DataFrame(v, index=range(n), columns=cols)]: a frame of [n] rows
    filled with the value [v]. *)
Definition full_frame (v : cell) (n : nat) (cols : list string) : DataFrame :=
  mkDataFrame (Str <$> cols) (replicate n (replicate (length cols) v)).

(** [result.iloc[:n, :m] = src] for a frame [src] of [n] rows of [m]
    cells: the top-left block of [result] takes the values of [src]. *)
Definition iloc_assign (result : DataFrame) (n m : nat) (src : DataFrame)
  : DataFrame :=
  mkDataFrame (columns result)
    (imap (λ i row,
             if decide (i < n)%nat then
               (take m (default [] (values src !! i)) ++ drop m row)%list
             else row)
          (values result)).

(** [ExcelHandler.get_template_preview]; [extra_space] is not negative. *)
Definition get_template_preview (template_path : string)
    (sheet_name : option string) (extra_space : nat) : M world DataFrame :=
  try_except
    (let* df := read_excel template_path sheet_name in
     if Pd.empty df then ret (mkDataFrame [] [])
     else
       let num_cols := length (columns df) in
       let num_rows := length (values df) in
       let all_cols :=
         (((λ i, _get_excel_col_name (Z.of_nat i + 1)) <$> seq 0 num_cols)
          ++ ((λ i, _get_excel_col_name (Z.of_nat num_cols + Z.of_nat i + 1))
                <$> seq 0 extra_space))%list in
       let total_rows := (num_rows + extra_space)%nat in
       let result := full_frame (Str "") total_rows all_cols in
       let original_data :=
         mkDataFrame (Str <$> take num_cols all_cols) (values df) in
       ret (iloc_assign result num_rows num_cols original_data))%py
    (λ e, throw (Exception "Error creating template preview: " e)).

(** ** The fund codes of all reports *)

(** The loop of [get_all_fund_codes] of main.py over the report files, the
    set built so far being [all_fund_codes]; the messages shown in the
    page are left out. *)
Fixpoint all_codes_loop (report_files : list string)
    (all_fund_codes : gset string) : M world (gset string) :=
  match report_files with
  | [] => ret all_fund_codes
  | report_path :: rest =>
      (let* all_fund_codes :=
         try_except
           (let* codes := get_fund_codes report_path None in
            match codes with
            | [] => ret all_fund_codes
            | _ => ret (all_fund_codes ∪ list_to_set codes)
            end)
           (λ _, ret all_fund_codes) in
       all_codes_loop rest all_fund_codes)%py
  end.

(** [get_all_fund_codes] of main.py, the report files of the session being
    the parameter: [sorted(list(all_fund_codes))]. *)
Definition get_all_fund_codes (report_files : list string)
  : M world (list string) :=
  (let* all_fund_codes := all_codes_loop report_files ∅ in
   ret (merge_sort Py.str_le (elements all_fund_codes)))%py.

(** ** Vocabulary for the further properties *)

(** The digits of a decimal numeral, most significant first. *)
Fixpoint uint_digits (d : Decimal.uint) : list nat :=
  match d with
  | Decimal.Nil => []
  | Decimal.D0 d => 0 :: uint_digits d
  | Decimal.D1 d => 1 :: uint_digits d
  | Decimal.D2 d => 2 :: uint_digits d
  | Decimal.D3 d => 3 :: uint_digits d
  | Decimal.D4 d => 4 :: uint_digits d
  | Decimal.D5 d => 5 :: uint_digits d
  | Decimal.D6 d => 6 :: uint_digits d
  | Decimal.D7 d => 7 :: uint_digits d
  | Decimal.D8 d => 8 :: uint_digits d
  | Decimal.D9 d => 9 :: uint_digits d
  end%nat.

(** The sheets pasted into in a stretch of trace. *)
Definition pasted_sheets (evs : list event) : list string :=
  omap (λ ev, match ev with Pasted sn _ _ => Some sn | _ => None end) evs.

(** What the steps of a session do to the open workbook: the list of
    sheet names stays; a sheet changes only if it is pasted into; every
    paste goes to a sheet of the workbook, at a valid address, with a block
    that has rows. *)
Definition touches (s s' : session) : Prop :=
  fst <$> s_book s' = fst <$> s_book s ∧
  ∃ evs, trace (s_world s') = (trace (s_world s) ++ evs)%list ∧
    (∀ i n sh, s_book s !! i = Some (n, sh) → n ∉ pasted_sheets evs →
               s_book s' !! i = Some (n, sh)) ∧
    (∀ sn cr b, Pasted sn cr b ∈ evs →
                sn ∈ fst <$> s_book s ∧ is_Some (Xw.parse_ref cr) ∧ b ≠ []).

(** A computation keeps the relation [R] between the state before and the
    state after. *)
Definition keeps {S A} (R : relation S) (m : M S A) : Prop :=
  ∀ s s' r, m s = (s', r) → R s s'.

(** Two caches give generation the same tables for the files [fs]. *)
Definition same_tables (fs : gmap string workbook)
    (c1 c2 : gmap string DataFrame) : Prop :=
  ∀ p, table_of fs c1 p = table_of fs c2 p.

(** Two sessions that differ at most in their traces and in caches that
    give the same tables. *)
Definition alike (s1 s2 : session) : Prop :=
  files (s_world s1) = files (s_world s2) ∧
  engine_ok (s_world s1) = engine_ok (s_world s2) ∧
  s_book s1 = s_book s2 ∧
  same_tables (files (s_world s1)) (s_cache s1) (s_cache s2).

(** A computation that takes related states to related states and to the
    same result. *)
Definition respects {S A} (R : relation S) (m : M S A) : Prop :=
  ∀ s1 s2, R s1 s2 → R (m s1).1 (m s2).1 ∧ (m s1).2 = (m s2).2.

(** Two calls end the same way: both return, or both raise the same
    exception. *)
Definition same_outcome (o1 o2 : outcome) : Prop :=
  match o1, o2 with
  | Returned _, Returned _ => True
  | Raised e1, Raised e2 => e1 = e2
  | _, _ => False
  end.

(** A batch of two calls on the example files: the first returns, the
    second names a sheet the template does not have. *)
Definition example_calls : list call :=
  [mkCall "template.xlsx" "outA.xlsx" example_mappings "FundA";
   mkCall "template.xlsx" "outB.xlsx" example_bad_mappings "FundA"].

(** Every row of the frame has one cell for each label, as in every frame
    pandas builds. *)
Definition rectangular (df : DataFrame) : Prop :=
  Forall (λ row, length row = length (columns df)) (values df).

(** ** Vocabulary for failures and for the cells of the output *)

(** Lines 202-232: what the loop over the reports does for one report
    inside its [try]. *)
Definition report_body (fund_code report_path : string)
    (mappings : list (string * mapping_info)) : M session unit :=
  (let* report_df := load_report report_path in
   let* filtered_df := lift_result (filter_rows report_df fund_code) in
   if Pd.empty filtered_df then ret tt
   else
     let values := values filtered_df in
     let* sheet_mappings := lift_result (group_by_sheet mappings values []) in
     for_each sheet_mappings (λ sm,
       let* _ := get_sheet sm.1 in
       for_each sm.2 (paste sm.1)))%py.

(** Lines 180-247 with the [with xw.App(...)] block left open: the copy,
    the block inside the [try], and the [except] clause that removes the
    output file and raises the function's own exception. *)
Definition generate_with (template_path output_path : string)
    (report_cache : option (gmap string DataFrame))
    (block : M (world * gmap string DataFrame) unit)
    (w : world) : world * gmap string DataFrame * outcome :=
  match copy2 template_path output_path w with
  | (w, Raise e) => (w, default ∅ report_cache, Raised e)
  | (w, Ok _) =>
      match block (w, default ∅ report_cache) with
      | ((w, report_cache), Ok _) => (w, report_cache, Returned report_cache)
      | ((w, report_cache), Raise e) =>
          (unlink output_path w, report_cache,
           Raised (Exception "Error generating populated template: " e))
      end
  end.

(** [wb.sheets[sheet_name]] *)
Definition sheet_named (wb : workbook) (sheet_name : string) : option sheet :=
  (λ found, found.2.2) <$> list_find (λ ns, ns.1 = sheet_name) wb.

(** [values[i][j]]; the empty value when there is no such entry. *)
Definition block_cell (values : list (list cell)) (i j : nat) : cell :=
  default NaN (values !! i ≫= (.!! j)).

(** [sheet.range(cell_ref).resize(len(values), len(values[0]))] for an
    address that names one cell. *)
Definition paste_range (cell_ref : string) (values : list (list cell))
  : option Xw.range :=
  match Xw.parse_ref cell_ref, values with
  | Some (r, c), row0 :: _ =>
      Some (Xw.resize (Xw.mkRange r c 1 1) (length values) (length row0))
  | _, _ => None
  end.

(** What a paste recorded in the trace does to a workbook: on the sheet it
    names, the range is cleared and the values are assigned. *)
Definition apply_paste (ev : event) (wb : workbook) : workbook :=
  match ev with
  | Pasted sheet_name cell_ref values =>
      match paste_range cell_ref values with
      | Some rng =>
          update_sheet sheet_name
            (λ sh, Xw.set_value (Xw.clear_contents sh rng) rng values) wb
      | None => wb
      end
  | Parsed _ => wb
  end.

(** The pastes of a trace made on a workbook, oldest first. *)
Definition replay (evs : list event) (wb : workbook) : workbook :=
  foldl (λ wb ev, apply_paste ev wb) wb evs.

(** The value of the cell at row [r], column [c] of the sheet
    [sheet_name] after a paste, [old] being its value before: the entry of
    the block that falls on the cell when the paste is on this sheet and
    the cell is inside the range. *)
Definition paste_cell (ev : event) (sheet_name : string) (r c : nat)
    (old : cell) : cell :=
  match ev with
  | Pasted sn cell_ref values =>
      match paste_range cell_ref values with
      | Some rng =>
          if decide (sn = sheet_name) then
            if Xw.inside rng r c
            then block_cell values (r - Xw.top rng) (c - Xw.left rng)
            else old
          else old
      | None => old
      end
  | Parsed _ => old
  end.

(** The value of a cell after the pastes of a trace, the last paste that
    covers the cell deciding. *)
Definition final_cell (evs : list event) (sheet_name : string) (r c : nat)
    (init : cell) : cell :=
  foldl (λ v ev, paste_cell ev sheet_name r c v) init evs.

(** The open workbook of the later session is the one of the earlier
    session with the pastes logged in between made on it. *)
Definition replays (s s' : session) : Prop :=
  ∃ evs, trace (s_world s') = (trace (s_world s) ++ evs)%list ∧
         s_book s' = replay (pasted evs) (s_book s).

(** * Properties *)

Local Open Scope nat_scope.

#[global] Instance str_le_total : Total Py.str_le.
Proof. intros s1 s2. apply String.leb_total. Qed.


(** ** What pandas finds on disk *)
Lemma pd_read_first path w :
  PdIO.read_excel path None w =
  match disk_table (files w) path with
  | Some df => (log (Parsed path) w, Ok df)
  | None => (w, Raise (CannotOpen path))
  end.
Proof.
  unfold PdIO.read_excel, PdIO.ExcelFile, bind, disk_table.
  destruct (files w !! path) as [[|[n sh] wb]|]; reflexivity.
Qed.

Lemma get_fund_codes_eq path sheet_name w :
  get_fund_codes path sheet_name w =
  match disk_table (files w) path with
  | Some df => (log (Parsed path) w, Ok (codes_of_frame df))
  | None => (w, Raise (Exception "Error extracting fund codes: " (CannotOpen path)))
  end.
Proof.
  unfold get_fund_codes, try_except, bind. rewrite pd_read_first.
  unfold codes_of_frame.
  destruct (disk_table (files w) path) as [df|]; [|reflexivity].
  destruct (Pd.empty df); reflexivity.
Qed.

Lemma codes_of_frame_NoDup df : NoDup (codes_of_frame df).
Proof.
  unfold codes_of_frame. destruct (Pd.empty df); [constructor|].
  rewrite merge_sort_Permutation. apply NoDup_remove_dups.
Qed.

Lemma codes_of_frame_Sorted df : Sorted Py.str_le (codes_of_frame df).
Proof.
  unfold codes_of_frame. destruct (Pd.empty df); [constructor|].
  apply (Sorted_merge_sort Py.str_le).
Qed.

Lemma elem_of_codes_of_frame df code :
  code ∈ codes_of_frame df ↔
  Pd.empty df = false ∧
  ∃ r, r ∈ drop 1 (values df) ∧ clean_code (Pd.col0 r) = Some code.
Proof.
  unfold codes_of_frame. destruct (Pd.empty df).
  - split; [intros H; inversion H | intros [? _]; discriminate].
  - rewrite merge_sort_Permutation, elem_of_remove_dups, list_elem_of_omap.
    split.
    + intros (c & Hc & Hcl). apply list_elem_of_fmap in Hc as (r & -> & Hr).
      eauto.
    + intros (_ & r & Hr & Hcl). exists (Pd.col0 r). split; [|done].
      apply list_elem_of_fmap. eauto.
Qed.

Lemma extracted_files w w' file :
  files w = files w' → extracted w file = extracted w' file.
Proof.
  intros Hf. unfold extracted. rewrite !get_fund_codes_eq, Hf.
  destruct (disk_table (files w') file); reflexivity.
Qed.

Lemma extracted_NoDup w file : NoDup (extracted w file).
Proof.
  unfold extracted. rewrite get_fund_codes_eq.
  destruct (disk_table (files w) file); simpl;
    [apply codes_of_frame_NoDup | constructor].
Qed.

Lemma extracted_log ev w (files0 : list string) :
  extracted (log ev w) <$> files0 = extracted w <$> files0.
Proof. apply list_fmap_ext. intros _ x _. by apply extracted_files. Qed.

Lemma analyze_loop_spec files0 acc w :
  ∃ w', analyze_loop files0 acc w
        = (w', Ok (acc ++ concat (extracted w <$> files0))%list)
        ∧ files w' = files w.
Proof.
  revert acc w. induction files0 as [|f rest IH]; intros acc w; simpl.
  - exists w. by rewrite app_nil_r.
  - unfold bind at 1, try_except, bind at 1.
    unfold extracted at 1. rewrite get_fund_codes_eq.
    destruct (disk_table (files w) f) as [df|] eqn:Hd; simpl.
    + destruct (codes_of_frame df) as [|c cs] eqn:Hc; simpl.
      * destruct (IH acc (log (Parsed f) w)) as (w' & -> & Hw').
        exists w'. by rewrite extracted_log.
      * destruct (IH (acc ++ c :: cs)%list (log (Parsed f) w)) as (w' & -> & Hw').
        exists w'. by rewrite extracted_log, <- app_assoc.
    + destruct (IH acc w) as (w' & -> & Hw'). by exists w'.
Qed.

(** ** Counting *)

Lemma Counter_foldl (l : list string) (m : gmap string nat) (x : string) :
  default 0 (foldl (λ m x, <[x := S (default 0 (m !! x))]> m) m l !! x)
  = length (filter (x =.) l) + default 0 (m !! x).
Proof.
  revert m. induction l as [|y l IH]; intros m; simpl; [done|].
  rewrite IH, filter_cons. destruct (decide (x = y)) as [->|Hne].
  - rewrite lookup_insert_eq. simpl. lia.
  - rewrite lookup_insert_ne by done. done.
Qed.

Lemma Counter_foldl_is_Some (l : list string) (m : gmap string nat) (x : string) :
  is_Some (foldl (λ m x, <[x := S (default 0 (m !! x))]> m) m l !! x)
  ↔ x ∈ l ∨ is_Some (m !! x).
Proof.
  revert m. induction l as [|y l IH]; intros m; simpl.
  - rewrite elem_of_nil. tauto.
  - rewrite IH, elem_of_cons, lookup_insert_is_Some'.
    intuition (subst; auto).
Qed.

Lemma Counter_count l x : default 0 (Counter l !! x) = length (filter (x =.) l).
Proof. unfold Counter. rewrite Counter_foldl, lookup_empty. simpl. lia. Qed.

Lemma Counter_is_Some l x : is_Some (Counter l !! x) ↔ x ∈ l.
Proof.
  unfold Counter. rewrite Counter_foldl_is_Some, lookup_empty.
  split; [intros [?|[? ?]]; done | auto].
Qed.

Lemma count_NoDup (l : list string) x :
  NoDup l → length (filter (x =.) l) = if bool_decide (x ∈ l) then 1 else 0.
Proof.
  induction 1 as [|y l Hy _ IH]; [done|].
  rewrite filter_cons. destruct (decide (x = y)) as [->|Hne]; simpl.
  - rewrite IH. rewrite (bool_decide_eq_false_2 _ Hy).
    rewrite bool_decide_eq_true_2 by left. done.
  - rewrite IH. apply (f_equal (λ b : bool, if b then 1 else 0)).
    apply bool_decide_ext. rewrite elem_of_cons. intuition congruence.
Qed.

Lemma count_concat (ls : list (list string)) x :
  Forall NoDup ls →
  length (filter (x =.) (concat ls))
  = length (filter (λ l, x ∈ l) ls).
Proof.
  induction 1 as [|l ls Hl _ IH]; [done|]. simpl.
  rewrite filter_app, length_app, IH, count_NoDup by done.
  rewrite filter_cons. destruct (decide (x ∈ l)).
  - rewrite bool_decide_eq_true_2 by done. done.
  - rewrite bool_decide_eq_false_2 by done. done.
Qed.

Lemma length_filter_fmap {A B} (g : A → B)
    (P : B → Prop) `{∀ b, Decision (P b)}
    (Q : A → Prop) `{∀ a, Decision (Q a)} (l : list A) :
  (∀ a, P (g a) ↔ Q a) →
  length (filter P (g <$> l)) = length (filter Q l).
Proof.
  intros HPQ. induction l as [|a l IH]; [done|].
  rewrite fmap_cons, !filter_cons.
  destruct (decide (P (g a))) as [Hp|Hp], (decide (Q a)) as [Hq|Hq];
    simpl; rewrite ?IH; try done.
  - by apply HPQ in Hp.
  - by apply HPQ in Hq.
Qed.

Lemma elem_of_concat {A} (x : A) (ls : list (list A)) :
  x ∈ concat ls ↔ ∃ l, x ∈ l ∧ l ∈ ls.
Proof.
  induction ls as [|l ls IH]; simpl.
  - rewrite elem_of_nil. split; [done|]. intros (l & _ & Hl). by inversion Hl.
  - rewrite elem_of_app, IH. split.
    + intros [Hx|(l' & Hx & Hl')]; [exists l | exists l'];
        (split; [done|]); [left | by right].
    + intros (l' & Hx & Hl'). apply elem_of_cons in Hl' as [->|Hl']; eauto.
Qed.

(** ** Fund-code extraction and analysis *)

(** C1 (the code departs from the claim).  On a report whose first sheet
    has the header in row 0 and the data rows ["FundA"] and ["FundB"],
    [get_fund_codes] returns only ["FundB"]: pandas has already taken row 0
    as the header, and [df.iloc[1:, 0]] then drops the first data row as
    well, so the fund code of that row is omitted. *)
Theorem get_fund_codes_drops_first_data_row :
  (get_fund_codes "R1.xlsx" None
     (mkWorld
        {[ "R1.xlsx" :=
             [("Sheet1", [[Str "Fund"; Str "Value"];
                          [Str "FundA"; Int 10];
                          [Str "FundB"; Int 20]])] ]}
        true [])).2
  = Ok ["FundB"].
Proof. vm_compute. reflexivity. Qed.

(** What extraction does return: the sorted, duplicate-free list of the
    cleaned column-0 values of the data rows after the first one. *)
Lemma get_fund_codes_result path sheet_name w codes :
  (get_fund_codes path sheet_name w).2 = Ok codes →
  ∃ df, disk_table (files w) path = Some df ∧
    NoDup codes ∧ Sorted Py.str_le codes ∧
    ∀ code, code ∈ codes ↔
      Pd.empty df = false ∧
      ∃ r, r ∈ drop 1 (values df) ∧ clean_code (Pd.col0 r) = Some code.
Proof.
  rewrite get_fund_codes_eq.
  destruct (disk_table (files w) path) as [df|]; simpl; [|discriminate].
  intros [= <-]. exists df. split; [done|].
  split; [apply codes_of_frame_NoDup|].
  split; [apply codes_of_frame_Sorted|].
  intros code. apply elem_of_codes_of_frame.
Qed.

Lemma analyze_fund_codes_eq files0 sheet_name w :
  (analyze_fund_codes files0 sheet_name w).2
  = Ok (Counter (concat (extracted w <$> files0))).
Proof.
  unfold analyze_fund_codes, bind.
  destruct (analyze_loop_spec files0 [] w) as (w' & -> & _). done.
Qed.

Lemma reports_code_extracted w code file :
  reports_code w code file = true ↔ code ∈ extracted w file.
Proof.
  unfold reports_code, extracted.
  destruct (get_fund_codes file None w).2; simpl.
  - apply bool_decide_eq_true.
  - rewrite elem_of_nil. split; [discriminate | tauto].
Qed.

(** C6.  [analyze_fund_codes] returns, for each fund code, the number of
    files of the list whose extraction yields that code; a code is a key of
    the result exactly when some file yields it, and the list extracted
    from one file has no duplicates, so a file counts once however often
    the code occurs in it. *)
Theorem analyze_counts_files w (files0 : list string) sheet_name :
  ∃ counts,
    (analyze_fund_codes files0 sheet_name w).2 = Ok counts ∧
    (∀ code,
       default 0 (counts !! code)
       = length (filter (λ f, reports_code w code f = true) files0) ∧
       (is_Some (counts !! code) ↔
        ∃ f, f ∈ files0 ∧ reports_code w code f = true)) ∧
    (∀ f codes, (get_fund_codes f None w).2 = Ok codes → NoDup codes).
Proof.
  eexists. split; [apply analyze_fund_codes_eq|]. split.
  - intros code. split.
    + rewrite Counter_count, count_concat.
      * apply length_filter_fmap. intros f.
        symmetry. apply reports_code_extracted.
      * apply Forall_fmap, Forall_forall. intros f _. apply extracted_NoDup.
    + rewrite Counter_is_Some, elem_of_concat. split.
      * intros (l & Hc & Hl). apply list_elem_of_fmap in Hl as (f & -> & Hf).
        exists f. by rewrite reports_code_extracted.
      * intros (f & Hf & Hc). exists (extracted w f).
        rewrite <- reports_code_extracted. split; [done|].
        by apply list_elem_of_fmap_2.
  - intros f codes Hc. pose proof (extracted_NoDup w f) as Hn.
    unfold extracted in Hn. by rewrite Hc in Hn.
Qed.

Lemma extracted_failed w file :
  extraction_succeeds w file = false → extracted w file = [].
Proof.
  unfold extraction_succeeds, extracted.
  by destruct (get_fund_codes file None w).2.
Qed.

Lemma concat_extracted_succeeding w (files0 : list string) :
  concat (extracted w <$> filter (λ f, extraction_succeeds w f = true) files0)
  = concat (extracted w <$> files0).
Proof.
  induction files0 as [|f rest IH]; [done|].
  rewrite filter_cons. destruct (decide (extraction_succeeds w f = true)) as [|Hf].
  - rewrite !fmap_cons. cbn [concat]. by rewrite IH.
  - apply not_true_is_false in Hf. rewrite fmap_cons. cbn [concat].
    by rewrite extracted_failed, IH.
Qed.

(** C8.  [analyze_fund_codes] always returns, whichever files fail to be
    extracted, and its counts are those of the analysis run on the files
    whose extraction succeeds. *)
Theorem analyze_skips_failed_files w (files0 : list string) sheet_name :
  ∃ counts,
    (analyze_fund_codes files0 sheet_name w).2 = Ok counts ∧
    (analyze_fund_codes
       (filter (λ f, extraction_succeeds w f = true) files0) sheet_name w).2
    = Ok counts.
Proof.
  eexists. split; [apply analyze_fund_codes_eq|].
  by rewrite analyze_fund_codes_eq, concat_extracted_succeeding.
Qed.

(** ** The spreadsheet reader *)

Lemma log_files ev w : files (log ev w) = files w.
Proof. done. Qed.

Lemma list_find_name_None (wb : workbook) name :
  list_find (λ ns, ns.1 = name) wb = None ↔ name ∉ PdIO.sheet_names wb.
Proof.
  rewrite list_find_None, Forall_forall. unfold PdIO.sheet_names.
  rewrite list_elem_of_fmap. split.
  - intros H (ns & -> & Hns). by apply (H ns).
  - intros H ns Hns Heq. apply H. exists ns. by split.
Qed.

Lemma read_excel_first path w n sh rest :
  files w !! path = Some ((n, sh) :: rest) →
  read_excel path None w
  = (log (Parsed path) (log (Parsed path) w), Ok (Pd.frame_of_sheet sh)).
Proof.
  intros Hf. unfold read_excel, try_except, bind, PdIO.read_excel, bind,
    PdIO.ExcelFile.
  rewrite Hf. simpl. rewrite Hf. simpl.
  rewrite decide_True by done. done.
Qed.

Lemma read_excel_named path w name :
  read_excel path (Some name) w =
  match files w !! path with
  | Some (s :: ss) =>
      match list_find (λ ns, ns.1 = name) (s :: ss) with
      | Some (_, (_, sh)) => (log (Parsed path) w, Ok (Pd.frame_of_sheet sh))
      | None =>
          (log (Parsed path) w,
           Raise (Exception "Error reading Excel file: " (SheetNotFound name)))
      end
  | _ => (w, Raise (Exception "Error reading Excel file: " (CannotOpen path)))
  end.
Proof.
  unfold read_excel, try_except, bind at 1, ret, PdIO.read_excel, bind,
    PdIO.ExcelFile.
  destruct (files w !! path) as [[|s ss]|]; try done.
  destruct (list_find _ (s :: ss)) as [[i [n sh]]|]; done.
Qed.

Lemma read_excel_unparsable path sheet_name w :
  disk_table (files w) path = None →
  read_excel path sheet_name w
  = (w, Raise (Exception "Error reading Excel file: " (CannotOpen path))).
Proof.
  unfold disk_table. intros Hd. destruct sheet_name as [name|].
  - rewrite read_excel_named.
    destruct (files w !! path) as [[|[n sh] ss]|]; done.
  - unfold read_excel, try_except, bind, PdIO.ExcelFile.
    destruct (files w !! path) as [[|[n sh] ss]|]; done.
Qed.

(** C9.  With the sheet name omitted, [read_excel] returns the frame of
    the first sheet of the file.  It raises exactly when the file does not
    parse or the named sheet is not in the workbook.  It keeps nothing
    between calls: the files are left as they were, every call that
    returns a frame has parsed the file anew, and the result does not
    depend on what was read before.  [get_sheet_names] lists the sheets
    in the order of the file. *)
Theorem read_excel_contract w path sheet_name :
  (∀ n sh rest,
     files w !! path = Some ((n, sh) :: rest) →
     (read_excel path None w).2 = Ok (Pd.frame_of_sheet sh)) ∧
  ((∃ e, (read_excel path sheet_name w).2 = Raise e) ↔
   disk_table (files w) path = None ∨
   ∃ wb name, files w !! path = Some wb ∧ sheet_name = Some name ∧
              name ∉ PdIO.sheet_names wb) ∧
  (files (read_excel path sheet_name w).1 = files w ∧
   ∃ evs, trace (read_excel path sheet_name w).1 = (trace w ++ evs)%list ∧
          ∀ df, (read_excel path sheet_name w).2 = Ok df → Parsed path ∈ evs) ∧
  (∀ b t, (read_excel path sheet_name (mkWorld (files w) b t)).2
          = (read_excel path sheet_name w).2) ∧
  (∀ s ss, files w !! path = Some (s :: ss) →
           (get_sheet_names path w).2 = Ok (fst <$> s :: ss)).
Proof.
  split; [|split; [|split; [|split]]].
  5:{ intros s ss Hf. unfold get_sheet_names, try_except, bind, PdIO.ExcelFile.
      by rewrite Hf. }
  - intros n sh rest Hf. by rewrite (read_excel_first _ _ _ _ _ Hf).
  - destruct (disk_table (files w) path) as [df|] eqn:Hd.
    + unfold disk_table in Hd.
      destruct (files w !! path) as [[|[n sh] ss]|] eqn:Hf; try done.
      destruct sheet_name as [name|].
      * rewrite read_excel_named, Hf.
        destruct (list_find _ ((n, sh) :: ss)) as [[i [n' sh']]|] eqn:Hl; simpl.
        -- split; [by intros [e ?]|]. intros [?|(wb & name' & Hwb & Hn & Hnot)];
             [done|]. simplify_eq. apply list_find_name_None in Hnot. congruence.
        -- split; [|by eauto]. intros _. right. eexists _, name.
           split; [done|]. split; [done|]. by apply list_find_name_None.
      * rewrite (read_excel_first _ _ _ _ _ Hf). simpl.
        split; [by intros [e ?]|]. intros [?|(wb & name' & _ & ? & _)]; done.
    + rewrite read_excel_unparsable by done. simpl. split; eauto.
  - destruct (disk_table (files w) path) as [df|] eqn:Hd.
    + unfold disk_table in Hd.
      destruct (files w !! path) as [[|[n sh] ss]|] eqn:Hf; try done.
      destruct sheet_name as [name|].
      * rewrite read_excel_named, Hf.
        destruct (list_find _ ((n, sh) :: ss)) as [[i [n' sh']]|]; simpl;
          (split; [done|]); exists [Parsed path];
          (split; [done|]); intros; apply list_elem_of_singleton; done.
      * rewrite (read_excel_first _ _ _ _ _ Hf). simpl. split; [done|].
        exists [Parsed path; Parsed path]. rewrite <- app_assoc.
        split; [done|]. intros. left.
    + rewrite read_excel_unparsable by done. simpl. split; [done|].
      exists []. rewrite app_nil_r. split; [done|]. discriminate.
  - intros b t. destruct (disk_table (files w) path) as [df|] eqn:Hd.
    + unfold disk_table in Hd.
      destruct (files w !! path) as [[|[n sh] ss]|] eqn:Hf; try done.
      destruct sheet_name as [name|].
      * rewrite !read_excel_named. cbn [files]. rewrite Hf.
        by destruct (list_find (λ ns : string * sheet, ns.1 = name)
                       ((n, sh) :: ss)) as [[i [n' sh']]|].
      * rewrite (read_excel_first _ w _ _ _ Hf).
        by rewrite (read_excel_first _ (mkWorld (files w) b t) n sh ss).
    + by rewrite !read_excel_unparsable.
Qed.

(** ** Writing a block into a sheet *)

Lemma default_lookup_pad (row : list cell) k c :
  default NaN ((row ++ replicate k NaN)%list !! c) = default NaN (row !! c).
Proof.
  destruct (decide (c < length row)) as [Hlt|Hge].
  - by rewrite lookup_app_l.
  - rewrite lookup_app_r by lia. rewrite (lookup_ge_None_2 row) by lia.
    destruct (replicate k NaN !! (c - length row)) as [x|] eqn:Hx; [|done].
    by apply lookup_replicate in Hx as [-> _].
Qed.

Lemma cell_at_pad_rows (sh : sheet) k r c :
  Xw.cell_at (sh ++ replicate k [])%list r c = Xw.cell_at sh r c.
Proof.
  unfold Xw.cell_at. destruct (decide (r < length sh)) as [Hlt|Hge].
  - by rewrite lookup_app_l.
  - rewrite lookup_app_r by lia. rewrite (lookup_ge_None_2 sh) by lia.
    destruct (replicate k [] !! (r - length sh)) as [x|] eqn:Hx; [|done].
    by apply lookup_replicate in Hx as [-> _].
Qed.

Lemma cell_at_set_cell sh r c v r' c' :
  Xw.cell_at (Xw.set_cell sh r c v) r' c'
  = if decide (r' = r ∧ c' = c) then v else Xw.cell_at sh r' c'.
Proof.
  unfold Xw.set_cell.
  set (sh' := (sh ++ replicate (S r - length sh) [])%list).
  assert (Hlen : r < length sh').
  { unfold sh'. rewrite length_app, length_replicate. lia. }
  rewrite <- (cell_at_pad_rows sh (S r - length sh) r' c'). fold sh'.
  unfold Xw.cell_at at 1. destruct (decide (r' = r)) as [->|Hr].
  - rewrite list_lookup_insert_eq by done. simpl.
    set (row := default [] (sh' !! r)).
    assert (Hrow : sh' !! r = Some row).
    { unfold row. destruct (lookup_lt_is_Some_2 sh' r Hlen) as [x ->]. done. }
    destruct (decide (c' = c)) as [->|Hc].
    + rewrite decide_True by done.
      rewrite list_lookup_insert_eq; [done|].
      rewrite length_app, length_replicate. lia.
    + rewrite decide_False by tauto.
      rewrite list_lookup_insert_ne by done.
      rewrite default_lookup_pad. unfold Xw.cell_at. by rewrite Hrow.
  - rewrite list_lookup_insert_ne by done.
    rewrite decide_False by tauto. done.
Qed.

Lemma cell_at_clear_cell sh r c r' c' :
  Xw.cell_at (Xw.clear_cell sh r c) r' c'
  = if decide (r' = r ∧ c' = c) then NaN else Xw.cell_at sh r' c'.
Proof.
  unfold Xw.clear_cell, Xw.cell_at.
  destruct (decide (r' = r)) as [->|Hr].
  - destruct (sh !! r) as [row|] eqn:Hrow.
    + rewrite list_lookup_insert_eq by (by eapply lookup_lt_Some). simpl.
      destruct (decide (c' = c)) as [->|Hc].
      * rewrite decide_True by done.
        destruct (decide (c < length row)).
        -- by rewrite list_lookup_insert_eq.
        -- rewrite list_insert_ge by lia. by rewrite lookup_ge_None_2 by lia.
      * rewrite decide_False by tauto. by rewrite list_lookup_insert_ne.
    + rewrite list_insert_ge by (by apply lookup_ge_None). rewrite Hrow.
      simpl. by destruct (decide _).
  - rewrite list_lookup_insert_ne by done. rewrite decide_False by tauto. done.
Qed.

Lemma cell_at_clear_cells (l : list (nat * nat)) sh r c :
  Xw.cell_at (foldl (λ sh rc, Xw.clear_cell sh rc.1 rc.2) sh l) r c
  = if decide ((r, c) ∈ l) then NaN else Xw.cell_at sh r c.
Proof.
  revert sh. induction l as [|[r1 c1] l IH]; intros sh; cbn [foldl].
  - rewrite decide_False; [done|]. apply not_elem_of_nil.
  - rewrite IH, cell_at_clear_cell. cbn [fst snd].
    destruct (decide ((r, c) ∈ l)) as [Hin|Hin].
    + rewrite decide_True; [done|]. by right.
    + destruct (decide (r = r1 ∧ c = c1)) as [[-> ->]|Hne].
      * rewrite decide_True; [done|]. left.
      * rewrite decide_False; [done|]. rewrite elem_of_cons.
        intros [[= -> ->]|?]; tauto.
Qed.

Lemma elem_of_cells rng r c :
  (r, c) ∈ Xw.cells rng ↔ Xw.inside rng r c = true.
Proof.
  unfold Xw.cells, Xw.inside. rewrite bool_decide_eq_true, list_elem_of_bind.
  split.
  - intros (r' & Hc & Hr). apply elem_of_seq in Hr.
    apply list_elem_of_bind in Hc as (c' & Hrc & Hc). apply elem_of_seq in Hc.
    apply list_elem_of_singleton in Hrc as [= -> ->]. lia.
  - intros [Hr Hc]. exists r. rewrite elem_of_seq. split; [|lia].
    apply list_elem_of_bind. exists c. rewrite elem_of_seq. split; [|lia].
    by apply list_elem_of_singleton.
Qed.

Lemma cell_at_clear_contents sh rng r c :
  Xw.cell_at (Xw.clear_contents sh rng) r c
  = if Xw.inside rng r c then NaN else Xw.cell_at sh r c.
Proof.
  unfold Xw.clear_contents. rewrite cell_at_clear_cells.
  destruct (Xw.inside rng r c) eqn:Hin.
  - rewrite decide_True; [done|]. by apply elem_of_cells.
  - rewrite decide_False; [done|]. rewrite elem_of_cells. congruence.
Qed.

Lemma cell_at_write_row vals sh r c0 r' c' :
  Xw.cell_at (Xw.write_row sh r c0 vals) r' c'
  = if decide (r' = r ∧ c0 ≤ c' < c0 + length vals)
    then default NaN (vals !! (c' - c0)) else Xw.cell_at sh r' c'.
Proof.
  revert sh c0. induction vals as [|v vals IH]; intros sh c0; simpl.
  - rewrite decide_False by lia. done.
  - rewrite IH, cell_at_set_cell.
    destruct (decide (r' = r ∧ S c0 ≤ c' < S c0 + length vals)) as [[-> Hc]|Hn].
    + rewrite decide_True by lia.
      replace (c' - c0) with (S (c' - S c0)) by lia. done.
    + destruct (decide (r' = r ∧ c' = c0)) as [[-> ->]|Hn'].
      * rewrite decide_True by lia. by rewrite Nat.sub_diag.
      * rewrite decide_False by lia. done.
Qed.

Lemma cell_at_write_rows rows sh r0 c0 r' c' :
  Xw.cell_at (Xw.write_rows sh r0 c0 rows) r' c'
  = match (if decide (r0 ≤ r')%nat then rows !! (r' - r0)%nat else None) with
    | Some row =>
        if decide (c0 ≤ c' < c0 + length row)
        then default NaN (row !! (c' - c0)) else Xw.cell_at sh r' c'
    | None => Xw.cell_at sh r' c'
    end.
Proof.
  revert sh r0. induction rows as [|row rows IH]; intros sh r0; simpl.
  - by destruct (decide (r0 ≤ r')).
  - rewrite IH, cell_at_write_row.
    destruct (decide (S r0 ≤ r')) as [Hr|Hr].
    + rewrite (decide_True (P := r0 ≤ r')) by lia.
      replace (r' - r0) with (S (r' - S r0)) by lia. simpl.
      rewrite (decide_False (P := r' = r0 ∧ _)) by lia. done.
    + destruct (decide (r0 ≤ r')) as [Hr'|Hr'].
      * assert (r' = r0) as -> by lia. rewrite Nat.sub_diag. simpl.
        destruct (decide (c0 ≤ c' < c0 + length row)).
        -- by rewrite decide_True.
        -- by rewrite decide_False by tauto.
      * rewrite decide_False by lia. done.
Qed.

Lemma frame_of_sheet_rect sh :
  Forall (λ row, length row = length (columns (Pd.frame_of_sheet sh)))
         (values (Pd.frame_of_sheet sh)).
Proof.
  unfold Pd.frame_of_sheet.
  assert (Hle : Forall (λ r, length r ≤ Pd.width sh) sh).
  { induction sh as [|r sh IH]; [constructor|]. simpl. constructor; [lia|].
    eapply Forall_impl; [exact IH|]. simpl. intros; lia. }
  assert (Hall : Forall (λ row, length row = Pd.width sh) (Pd.pad (Pd.width sh) <$> sh)).
  { apply Forall_fmap. eapply Forall_impl; [exact Hle|]. simpl. intros r Hr.
    unfold Pd.pad. rewrite length_app, length_replicate. lia. }
  destruct (Pd.pad (Pd.width sh) <$> sh) as [|h t]; [constructor|].
  inversion Hall as [|?? Hh Ht]; subst. simpl.
  eapply Forall_impl; [exact Ht|]. simpl. intros; lia.
Qed.

(** Lines 230-232 on one sheet: for a cell position that names row [r0]
    and column [c0] and a block of [length values] rows of [m] cells each,
    the range has that top-left corner and those dimensions, the contents
    of exactly that range are cleared, and the sheet is left holding the
    value [values[i][j]] at row [r0 + i], column [c0 + j] and its former
    contents everywhere outside the range. *)
Lemma write_block_range sh cell_ref (values : list (list cell)) r0 c0 m :
  Xw.parse_ref cell_ref = Some (r0, c0) →
  values ≠ [] →
  Forall (λ row, length row = m) values →
  let rng := Xw.mkRange r0 c0 (length values) m in
  write_block sh cell_ref values
  = Ok (Xw.set_value (Xw.clear_contents sh rng) rng values) ∧
  (∀ r c, Xw.cell_at (Xw.clear_contents sh rng) r c
          = if Xw.inside rng r c then NaN else Xw.cell_at sh r c) ∧
  (∀ i j, i < length values → j < m →
     Xw.cell_at (Xw.set_value (Xw.clear_contents sh rng) rng values)
                (r0 + i) (c0 + j)
     = default NaN (values !! i ≫= (.!! j))) ∧
  (∀ r c, Xw.inside rng r c = false →
     Xw.cell_at (Xw.set_value (Xw.clear_contents sh rng) rng values) r c
     = Xw.cell_at sh r c).
Proof.
  intros Hp Hne Hrect rng. split; [|split; [|split]].
  - unfold write_block. rewrite Hp. destruct values as [|row0 rows]; [done|].
    unfold Xw.resize. simpl. inversion Hrect; subst. done.
  - intros r c. apply cell_at_clear_contents.
  - intros i j Hi Hj. unfold Xw.set_value. rewrite cell_at_write_rows. simpl.
    rewrite decide_True by lia. replace (r0 + i - r0) with i by lia.
    destruct (lookup_lt_is_Some_2 values i Hi) as [row Hrow].
    rewrite Hrow. simpl.
    assert (length row = m) as Hm.
    { eapply Forall_forall in Hrect; [exact Hrect|]. by eapply list_elem_of_lookup_2. }
    rewrite decide_True by lia. by replace (c0 + j - c0) with j by lia.
  - intros r c Hout. unfold Xw.set_value. rewrite cell_at_write_rows. simpl.
    unfold Xw.inside in Hout. apply bool_decide_eq_false in Hout. simpl in Hout.
    assert (Hclr : Xw.cell_at (Xw.clear_contents sh rng) r c = Xw.cell_at sh r c).
    { rewrite cell_at_clear_contents. unfold Xw.inside.
      by rewrite bool_decide_eq_false_2. }
    destruct (decide (r0 ≤ r)) as [Hr|Hr]; [|done].
    destruct (values !! (r - r0)) as [row|] eqn:Hrow; [|done].
    assert (length row = m) as Hm.
    { eapply Forall_forall in Hrect; [exact Hrect|]. by eapply list_elem_of_lookup_2. }
    apply lookup_lt_Some in Hrow.
    rewrite decide_False by lia. done.
Qed.

(** ** Traces and cache steps *)

Lemma parsed_app evs1 evs2 : parsed (evs1 ++ evs2) = (parsed evs1 ++ parsed evs2)%list.
Proof. apply omap_app. Qed.

Lemma pasted_app evs1 evs2 : pasted (evs1 ++ evs2) = (pasted evs1 ++ pasted evs2)%list.
Proof. apply omap_app. Qed.

Lemma cache_step_refl fs c : cache_step fs c [] c.
Proof.
  split; [done|]. split; [constructor|]. split; [|done].
  intros p Hp. by apply elem_of_nil in Hp.
Qed.

Lemma cache_step_trans fs c1 evs1 c2 evs2 c3 :
  cache_step fs c1 evs1 c2 → cache_step fs c2 evs2 c3 →
  cache_step fs c1 (evs1 ++ evs2) c3.
Proof.
  intros (Hs1 & Hn1 & Hp1 & Ht1) (Hs2 & Hn2 & Hp2 & Ht2).
  split; [by etrans|]. rewrite parsed_app. split; [|split].
  - apply NoDup_app. split; [done|]. split; [|done].
    intros p H1 H2. destruct (Hp1 p H1) as (_ & [df Hdf] & _).
    destruct (Hp2 p H2) as (Hnone & _). congruence.
  - intros p [H1|H2]%elem_of_app.
    + destruct (Hp1 p H1) as (Hnone & [df Hdf] & Hd). split; [done|].
      assert (c3 !! p = Some df) as Hc3 by (by eapply lookup_weaken).
      rewrite Hc3. split; [done|]. congruence.
    + destruct (Hp2 p H2) as (Hnone & Hsome & Hd). split; [|done].
      destruct (c1 !! p) as [df|] eqn:Hc1; [|done].
      eapply lookup_weaken in Hc1; [|exact Hs1]. congruence.
  - intros p. by rewrite Ht2, Ht1.
Qed.

Lemma cache_step_grows fs c evs c' : cache_step fs c evs c' → cache_grows c evs c'.
Proof.
  intros (Hs & Hn & Hp & _). split; [done|]. split; [done|].
  intros p Hin. destruct (Hp p Hin) as (? & ? & _). done.
Qed.

Lemma cache_grows_trans c1 evs1 c2 evs2 c3 :
  cache_grows c1 evs1 c2 → cache_grows c2 evs2 c3 →
  cache_grows c1 (evs1 ++ evs2) c3.
Proof.
  intros (Hs1 & Hn1 & Hp1) (Hs2 & Hn2 & Hp2).
  split; [by etrans|]. rewrite parsed_app. split.
  - apply NoDup_app. split; [done|]. split; [|done].
    intros p H1 H2. destruct (Hp1 p H1) as (_ & [df Hdf]).
    destruct (Hp2 p H2) as (Hnone & _). congruence.
  - intros p [H1|H2]%elem_of_app.
    + destruct (Hp1 p H1) as (Hnone & [df Hdf]). split; [done|].
      exists df. by eapply lookup_weaken.
    + destruct (Hp2 p H2) as (Hnone & Hsome). split; [|done].
      destruct (c1 !! p) as [df|] eqn:Hc1; [|done].
      eapply lookup_weaken in Hc1; [|exact Hs1]. congruence.
Qed.

Lemma extends_refl s : extends s s [].
Proof. unfold extends. by rewrite app_nil_r. Qed.

Lemma extends_trans s1 s2 s3 evs1 evs2 :
  extends s1 s2 evs1 → extends s2 s3 evs2 → extends s1 s3 (evs1 ++ evs2).
Proof.
  intros (Hf1 & He1 & Ht1) (Hf2 & He2 & Ht2). unfold extends.
  rewrite Hf2, He2, Ht2, Ht1, app_assoc. done.
Qed.

(** ** Grouping *)

Lemma flat_cons {V} k (vs : list V) d :
  flat ((k, vs) :: d) = ((pair k <$> vs) ++ flat d)%list.
Proof. done. Qed.

Lemma group_append_flat {V} k (v : V) d :
  flat (group_append k v d) ≡ₚ (flat d ++ [(k, v)])%list.
Proof.
  induction d as [|[k' vs] d IH]; simpl; [done|].
  destruct (String.eqb_spec k' k) as [->|Hne].
  - rewrite !flat_cons, fmap_app. simpl.
    rewrite <- !app_assoc. apply Permutation_app_head, Permutation_app_comm.
  - rewrite !flat_cons, IH. by rewrite app_assoc.
Qed.

Lemma group_append_keys {V} k (v : V) d :
  fst <$> group_append k v d
  = if bool_decide (k ∈ fst <$> d) then fst <$> d else ((fst <$> d) ++ [k])%list.
Proof.
  induction d as [|[k' vs] d IH]; [done|]. cbn [group_append].
  destruct (String.eqb_spec k' k) as [->|Hne]; rewrite !fmap_cons; cbn [fst].
  - rewrite bool_decide_eq_true_2; [done|]. left.
  - rewrite IH. destruct (bool_decide (k ∈ fst <$> d)) eqn:Hk.
    + apply bool_decide_eq_true in Hk.
      rewrite bool_decide_eq_true_2; [done|]. by right.
    + apply bool_decide_eq_false in Hk.
      rewrite bool_decide_eq_false_2; [done|].
      rewrite elem_of_cons. intros [->|?]; done.
Qed.

Lemma group_append_NoDup {V} k (v : V) d :
  NoDup (fst <$> d) → NoDup (fst <$> group_append k v d).
Proof.
  intros Hd. rewrite group_append_keys.
  destruct (bool_decide (k ∈ fst <$> d)) eqn:Hk; [done|].
  apply bool_decide_eq_false in Hk. apply NoDup_app. split; [done|].
  split; [|apply NoDup_singleton].
  intros x Hx ->%list_elem_of_singleton. done.
Qed.

Lemma group_by_report_foldl (ms : list (string * mapping_info)) d :
  flat (foldl (λ acc km, group_append (report km.2) km acc) d ms)
  ≡ₚ (flat d ++ ((λ km, (report km.2, km)) <$> ms))%list
  ∧ (NoDup (fst <$> d) →
     NoDup (fst <$> foldl (λ acc km, group_append (report km.2) km acc) d ms)).
Proof.
  revert d. induction ms as [|km ms IH]; intros d; simpl.
  - by rewrite app_nil_r.
  - destruct (IH (group_append (report km.2) km d)) as [Hp Hn]. split.
    + rewrite Hp, group_append_flat, <- app_assoc. done.
    + intros Hd. by apply Hn, group_append_NoDup.
Qed.

Lemma group_by_report_flat ms :
  flat (group_by_report ms) ≡ₚ (λ km, (report km.2, km)) <$> ms.
Proof. apply (group_by_report_foldl ms []). Qed.

Lemma group_by_report_NoDup ms : NoDup (fst <$> group_by_report ms).
Proof. apply (group_by_report_foldl ms []). constructor. Qed.

Lemma group_by_sheet_flat ms values acc d :
  group_by_sheet ms values acc = Ok d →
  flat d ≡ₚ (flat acc ++ (ms ≫= sheet_entry values))%list.
Proof.
  revert acc. induction ms as [|[k info] ms IH]; intros acc; simpl.
  - intros [= ->]. by rewrite app_nil_r.
  - unfold sheet_entry at 1, key_parts. simpl.
    destruct (Py.split "!" k) as [|sn [|cr [|x l]]]; try done.
    intros Hd. rewrite (IH _ Hd), group_append_flat, <- app_assoc. done.
Qed.

Lemma group_by_sheet_raises ms values acc e :
  group_by_sheet ms values acc = Raise e → e = ValueError.
Proof.
  revert acc. induction ms as [|[k info] ms IH]; intros acc; simpl; [done|].
  destruct (Py.split "!" k) as [|sn [|cr [|x l]]]; try (by intros [= <-]).
  apply IH.
Qed.

(** ** Steps of a session *)

Lemma load_report_eq p s :
  load_report p s =
  match s_cache s !! p with
  | Some df => (s, Ok df)
  | None =>
      match disk_table (files (s_world s)) p with
      | Some df =>
          (mkSession (log (Parsed p) (s_world s)) (<[p := df]> (s_cache s))
                     (s_book s), Ok df)
      | None => (s, Raise (CannotOpen p))
      end
  end.
Proof.
  unfold load_report. destruct (s_cache s !! p); [done|].
  rewrite pd_read_first.
  destruct (disk_table (files (s_world s)) p); [done|]. by destruct s.
Qed.

Lemma cache_step_load fs (c : gmap string DataFrame) p df :
  c !! p = None → disk_table fs p = Some df →
  cache_step fs c [Parsed p] (<[p := df]> c).
Proof.
  intros Hc Hd. split; [by apply insert_subseteq|].
  split; [apply NoDup_singleton|]. split.
  - intros q ->%list_elem_of_singleton. rewrite lookup_insert_eq. eauto.
  - intros q. unfold table_of. destruct (decide (p = q)) as [<-|Hne].
    + by rewrite lookup_insert_eq, Hc.
    + by rewrite lookup_insert_ne.
Qed.

Lemma cache_step_pastes fs c evs c' evs' :
  cache_step fs c evs c' → parsed evs' = [] → cache_step fs c (evs ++ evs') c'.
Proof.
  intros (Hs & Hn & Hp & Ht) Hnil. unfold cache_step.
  rewrite parsed_app, Hnil, app_nil_r. done.
Qed.

Lemma paste_writes sheet_name cv s s' r :
  paste sheet_name cv s = (s', r) →
  writes s s' r [Pasted sheet_name cv.1 cv.2].
Proof.
  unfold paste, bind, get_sheet, lift_result.
  destruct (list_find _ (s_book s)) as [[i [n sh]]|].
  - destruct (write_block sh cv.1 cv.2) as [sh'|e]; intros [= <- <-].
    + split; [done|]. exists [Pasted sheet_name cv.1 cv.2].
      split; [done|]. done.
    + split; [done|]. exists []. split; [apply extends_refl|]. done.
  - intros [= <- <-]. split; [done|]. exists [].
    split; [apply extends_refl|]. done.
Qed.

Lemma for_each_writes {A} (body : A → M session unit) (ev : A → list event) l :
  (∀ x s s' r, body x s = (s', r) → writes s s' r (ev x)) →
  ∀ s s' r, for_each l body s = (s', r) → writes s s' r (l ≫= ev).
Proof.
  intros Hbody. induction l as [|x l IH]; intros s s' r; simpl.
  - intros [= <- <-]. split; [done|]. exists []. split; [apply extends_refl|]. done.
  - unfold bind. destruct (body x s) as [s1 [u|e]] eqn:Hx.
    + intros Hl. apply Hbody in Hx as (Hc1 & evs1 & He1 & Hp1 & Hq1 & Hr1).
      apply IH in Hl as (Hc2 & evs2 & He2 & Hp2 & Hq2 & Hr2).
      split; [congruence|]. exists (evs1 ++ evs2)%list.
      split; [by eapply extends_trans|].
      rewrite parsed_app, pasted_app, Hp1, Hp2, Hq1, Hq2.
      split; [done|]. split; [done|].
      intros u' Hu'. by rewrite (Hr1 u), (Hr2 u').
    + intros [= <- <-]. apply Hbody in Hx as (Hc1 & evs1 & He1 & Hp1 & Hq1 & Hr1).
      split; [done|]. exists evs1. done.
Qed.

Lemma bind_singletons {A B} (f : A → B) (l : list A) :
  l ≫= (λ x, [f x]) = f <$> l.
Proof.
  induction l as [|x l IH]; [done|]. by rewrite bind_cons, fmap_cons, IH.
Qed.

Lemma sheet_loop_writes (sheet_mappings : dict (list (string * list (list cell))))
    s s' r :
  for_each sheet_mappings
    (λ sm, bind (get_sheet sm.1) (λ _, for_each sm.2 (paste sm.1))) s = (s', r) →
  writes s s' r (sheet_mappings ≫= sheet_pastes).
Proof.
  apply for_each_writes. clear. intros sm s s' r. unfold bind at 1, get_sheet.
  destruct (list_find _ (s_book s)) as [[i [n sh]]|].
  - intros Hl. unfold sheet_pastes.
    eapply (for_each_writes _ (λ cv, [Pasted sm.1 cv.1 cv.2])) in Hl.
    + destruct Hl as (Hc & evs & He & Hp & Hq & Hr). split; [done|].
      exists evs. repeat (split; [done|]). intros u Hu. rewrite (Hr u Hu).
      apply bind_singletons.
    + intros cv s1 s2 r1. apply paste_writes.
  - intros [= <- <-]. split; [done|]. exists [].
    split; [apply extends_refl|]. done.
Qed.

Lemma sheet_pastes_flat (d : dict (list (string * list (list cell)))) :
  d ≫= sheet_pastes = (λ x, Pasted x.1 x.2.1 x.2.2) <$> flat d.
Proof.
  induction d as [|[sn cvs] d IH]; [done|].
  rewrite flat_cons, fmap_app, <- IH, bind_cons. f_equal.
  unfold sheet_pastes. cbn [fst snd]. by rewrite <- list_fmap_compose.
Qed.

Lemma writes_for_entries fs c F p ms b bs :
  block_of fs c F p = b :: bs →
  (λ x, Pasted x.1 x.2.1 x.2.2) <$> (ms ≫= sheet_entry (b :: bs))
  = ms ≫= writes_for fs c F p.
Proof.
  intros Hb. induction ms as [|km ms IH]; [done|].
  rewrite !bind_cons, fmap_app, IH. f_equal.
  unfold writes_for, sheet_entry. rewrite Hb.
  by destruct (key_parts km.1) as [[sn cr]|].
Qed.

Lemma writes_for_none fs c F p (ms : list (string * mapping_info)) :
  block_of fs c F p = [] → ms ≫= writes_for fs c F p = [].
Proof.
  intros Hb. induction ms as [|km ms IH]; [done|].
  rewrite bind_cons, IH. unfold writes_for. by rewrite Hb.
Qed.

Lemma filter_rows_eq df F :
  filter_rows df F =
  match columns df with
  | [] => Raise IndexError
  | _ => Ok (mkDataFrame (columns df)
               (filter (λ r, Pd.eq_str (Pd.col0 r) F = true) (values df)))
  end.
Proof. done. Qed.

Lemma group_by_sheet_keys ms values acc d :
  group_by_sheet ms values acc = Ok d →
  Forall (λ km : string * mapping_info, is_Some (key_parts km.1)) ms.
Proof.
  revert acc. induction ms as [|[k info] ms IH]; intros acc; cbn [group_by_sheet].
  - constructor.
  - intros Hd. constructor.
    + unfold key_parts. cbn [fst].
      by destruct (Py.split "!" k) as [|sn [|cr [|x l]]].
    + destruct (Py.split "!" k) as [|sn [|cr [|x l]]]; try done. by eapply IH.
Qed.

(** One report, once its table is at hand: lines 210-232. *)
Lemma process_table_spec F p ms df s s' r :
  table_of (files (s_world s)) (s_cache s) p = Some df →
  (let* filtered_df := lift_result (filter_rows df F) in
   if Pd.empty filtered_df then ret tt
   else
     let values := values filtered_df in
     let* sheet_mappings := lift_result (group_by_sheet ms values []) in
     for_each sheet_mappings (λ sm,
       let* _ := get_sheet sm.1 in
       for_each sm.2 (paste sm.1)))%py s = (s', r) →
  s_cache s' = s_cache s ∧
  ∃ evs, extends s s' evs ∧ parsed evs = [] ∧
    ∀ u, r = Ok u →
      report_done (files (s_world s)) (s_cache s) F p ms ∧
      pasted evs ≡ₚ ms ≫= writes_for (files (s_world s)) (s_cache s) F p.
Proof.
  intros Ht. unfold bind at 1, lift_result at 1. rewrite filter_rows_eq.
  assert (Hblock : block_of (files (s_world s)) (s_cache s) F p
                   = filter (λ r, Pd.eq_str (Pd.col0 r) F = true) (values df)).
  { unfold block_of. by rewrite Ht. }
  unfold report_done. rewrite Hblock, Ht.
  destruct (columns df) as [|c0 cs] eqn:Hcols.
  { intros [= <- <-]. split; [done|]. exists [].
    split; [apply extends_refl|]. done. }
  assert (Hdf : ∃ df0, Some df = Some df0 ∧ columns df0 ≠ []).
  { exists df. by rewrite Hcols. }
  unfold Pd.empty. cbn [values columns].
  rewrite (bool_decide_eq_false_2 (_ :: _ = [])) by done. rewrite orb_false_r.
  destruct (filter _ (values df)) as [|b bs] eqn:Hf.
  { rewrite bool_decide_eq_true_2 by done. intros [= <- <-]. split; [done|].
    exists []. split; [apply extends_refl|]. split; [done|].
    intros _ _. split; [by split|]. by rewrite writes_for_none. }
  rewrite bool_decide_eq_false_2 by done.
  unfold bind at 1, lift_result.
  destruct (group_by_sheet ms (b :: bs) []) as [d|e] eqn:Hg.
  - intros Hl. apply sheet_loop_writes in Hl as (Hc & evs & He & Hp & Hq & Hr).
    split; [done|]. exists evs. split; [done|]. split; [done|].
    intros u Hu. split.
    { split; [exact Hdf|]. intros _. by eapply group_by_sheet_keys. }
    rewrite Hq, (Hr u Hu), sheet_pastes_flat.
    rewrite (group_by_sheet_flat _ _ _ _ Hg). simpl.
    by rewrite (writes_for_entries _ _ _ _ _ _ _ Hblock).
  - intros [= <- <-]. split; [done|]. exists [].
    split; [apply extends_refl|]. done.
Qed.

Lemma writes_for_tables fs c c' F p km :
  (∀ q, table_of fs c' q = table_of fs c q) →
  writes_for fs c' F p km = writes_for fs c F p km.
Proof. intros Ht. unfold writes_for, block_of. by rewrite Ht. Qed.

Lemma report_done_tables fs c c' F p ms :
  (∀ q, table_of fs c' q = table_of fs c q) →
  report_done fs c' F p ms → report_done fs c F p ms.
Proof. intros Ht. unfold report_done, block_of. by rewrite !Ht. Qed.

Lemma process_report_spec F p ms s s' r :
  process_report F (p, ms) s = (s', r) →
  ∃ evs, extends s s' evs ∧
    cache_step (files (s_world s)) (s_cache s) evs (s_cache s') ∧
    match r with
    | Ok _ =>
        report_done (files (s_world s)) (s_cache s) F p ms ∧
        pasted evs ≡ₚ ms ≫= writes_for (files (s_world s)) (s_cache s) F p
    | Raise e => ∃ e', e = Exception ("Error processing report " ++ p ++ ": ") e'
    end.
Proof.
  unfold process_report, try_except, bind at 1. rewrite load_report_eq.
  destruct (s_cache s !! p) as [df|] eqn:Hc.
  - assert (Ht : table_of (files (s_world s)) (s_cache s) p = Some df).
    { unfold table_of. by rewrite Hc. }
    match goal with |- context [?m s] =>
      destruct (m s) as [s1 r1] eqn:Hm end.
    apply (process_table_spec _ _ _ _ _ _ _ Ht) in Hm as (Hc1 & evs & He & Hp & Hr).
    destruct r1 as [u|e]; intros [= <- <-].
    + exists evs. split; [done|]. split.
      { rewrite Hc1. apply (cache_step_pastes _ _ [] _ _ (cache_step_refl _ _) Hp). }
      by apply (Hr u).
    + exists evs. split; [done|]. split; [|eauto].
      rewrite Hc1. apply (cache_step_pastes _ _ [] _ _ (cache_step_refl _ _) Hp).
  - destruct (disk_table (files (s_world s)) p) as [df|] eqn:Hd.
    + assert (Ht : table_of (files (s_world s)) (s_cache s) p = Some df).
      { unfold table_of. by rewrite Hc. }
      set (s0 := mkSession (log (Parsed p) (s_world s)) (<[p:=df]> (s_cache s))
                   (s_book s)).
      assert (Ht0 : table_of (files (s_world s0)) (s_cache s0) p = Some df).
      { unfold table_of, s0. simpl. by rewrite lookup_insert_eq. }
      assert (He0 : extends s s0 [Parsed p]) by done.
      pose proof (cache_step_load _ _ _ _ Hc Hd) as Hst.
      pose proof Hst as (_ & _ & _ & Htab).
      match goal with |- context [?m s0] =>
        destruct (m s0) as [s1 r1] eqn:Hm end.
      apply (process_table_spec _ _ _ _ _ _ _ Ht0) in Hm
        as (Hc1 & evs & He & Hp & Hr).
      assert (Hstep : cache_step (files (s_world s)) (s_cache s)
                        ([Parsed p] ++ evs) (s_cache s1)).
      { rewrite Hc1. by apply cache_step_pastes. }
      destruct r1 as [u|e]; intros [= <- <-].
      * exists ([Parsed p] ++ evs)%list. split; [by eapply extends_trans|].
        split; [done|]. destruct (Hr u eq_refl) as [Hdone Hperm].
        split; [by eapply (report_done_tables _ _ _ _ _ _ Htab)|].
        rewrite pasted_app. simpl. rewrite Hperm.
        apply reflexive_eq, list_bind_ext; [|done]. intros km.
        by apply writes_for_tables.
      * exists ([Parsed p] ++ evs)%list. split; [by eapply extends_trans|].
        split; [done|]. eauto.
    + intros [= <- <-]. exists []. split; [apply extends_refl|].
      split; [apply cache_step_refl|]. eauto.
Qed.

Lemma flat_bind {V} (d : dict (list V)) (f : string → V → list event) :
  d ≫= (λ g, g.2 ≫= f g.1) = flat d ≫= (λ x, f x.1 x.2).
Proof.
  induction d as [|[k vs] d IH]; [done|].
  rewrite flat_cons, bind_app, bind_cons, IH. f_equal.
  cbn [fst snd]. by rewrite list_fmap_bind.
Qed.

Lemma elem_of_flat {V} (d : dict (list V)) k v :
  (k, v) ∈ flat d ↔ ∃ vs, (k, vs) ∈ d ∧ v ∈ vs.
Proof.
  induction d as [|[k' vs'] d IH].
  - split; [by intros ?%elem_of_nil | by intros (? & ?%elem_of_nil & _)].
  - rewrite flat_cons, elem_of_app, IH, list_elem_of_fmap. split.
    + intros [(v' & [= -> ->] & Hv)|(vs & Hin & Hv)].
      * exists vs'. split; [left|done].
      * exists vs. split; [by right|done].
    + intros (vs & [[= -> ->]|Hin]%elem_of_cons & Hv).
      * left. by exists v.
      * right. by exists vs.
Qed.

(** The loop over the reports, lines 200-235. *)
Lemma report_loop_spec F (groups : dict (list (string * mapping_info))) s s' r :
  for_each groups (process_report F) s = (s', r) →
  ∃ evs, extends s s' evs ∧
    cache_step (files (s_world s)) (s_cache s) evs (s_cache s') ∧
    match r with
    | Ok _ =>
        Forall (λ g, report_done (files (s_world s)) (s_cache s) F g.1 g.2)
               groups ∧
        pasted evs
        ≡ₚ groups ≫= (λ g, g.2 ≫= writes_for (files (s_world s)) (s_cache s) F g.1)
    | Raise e =>
        ∃ p e', p ∈ fst <$> groups ∧
                e = Exception ("Error processing report " ++ p ++ ": ") e'
    end.
Proof.
  revert s. induction groups as [|[p ms] groups IH]; intros s; cbn [for_each].
  - intros [= <- <-]. exists []. split; [apply extends_refl|].
    split; [apply cache_step_refl|]. split; [constructor|done].
  - unfold bind. destruct (process_report F (p, ms) s) as [s1 [u|e]] eqn:Hp.
    + intros Hl. apply process_report_spec in Hp as (evs1 & He1 & Hs1 & Ht1 & Hw1).
      apply IH in Hl as (evs2 & He2 & Hs2 & Hr).
      pose proof He1 as (Hf1 & _ & _). rewrite Hf1 in Hs2, Hr.
      pose proof Hs1 as (_ & _ & _ & Htab).
      exists (evs1 ++ evs2)%list. split; [by eapply extends_trans|].
      split; [by eapply cache_step_trans|].
      destruct r as [u'|e'].
      * destruct Hr as [Hall Hperm]. split.
        -- constructor; [done|]. eapply Forall_impl; [exact Hall|].
           intros g. by apply report_done_tables.
        -- rewrite pasted_app, bind_cons, Hw1, Hperm. cbn [fst snd].
           apply Permutation_app_head. apply reflexive_eq.
           apply list_bind_ext; [|done]. intros g.
           apply list_bind_ext; [|done]. intros km.
           by apply writes_for_tables.
      * destruct Hr as (q & e'' & Hq & ->). exists q, e''.
        split; [|done]. rewrite fmap_cons. by right.
    + intros [= <- <-]. apply process_report_spec in Hp as (evs1 & He1 & Hs1 & e' & ->).
      exists evs1. split; [done|]. split; [done|]. exists p, e'.
      split; [|done]. rewrite fmap_cons. left.
Qed.

Lemma planned_writes_groups fs c F (ms : list (string * mapping_info)) :
  group_by_report ms ≫= (λ g, g.2 ≫= writes_for fs c F g.1)
  ≡ₚ ms ≫= planned_writes fs c F.
Proof.
  rewrite flat_bind, group_by_report_flat, list_fmap_bind. done.
Qed.

Lemma report_done_groups fs c F (ms : list (string * mapping_info)) :
  Forall (λ g, report_done fs c F g.1 g.2) (group_by_report ms) →
  ∀ km, km ∈ ms → report_done fs c F (report km.2) [km].
Proof.
  intros Hall km Hkm.
  assert (Hin : (report km.2, km) ∈ flat (group_by_report ms)).
  { rewrite group_by_report_flat. apply list_elem_of_fmap. by exists km. }
  apply elem_of_flat in Hin as (kms & Hg & Hin).
  eapply Forall_forall in Hall; [|exact Hg]. cbn [fst snd] in Hall.
  destruct Hall as [Hdf Hkeys]. split; [done|].
  intros Hb. constructor; [|constructor].
  eapply Forall_forall in Hkeys; [exact Hkeys|done|done].
Qed.

Lemma group_by_report_keys (ms : list (string * mapping_info))
    (d : dict (list (string * mapping_info))) p :
  p ∈ fst <$> foldl (λ acc km, group_append (report km.2) km acc) d ms →
  p ∈ fst <$> d ∨ ∃ km, km ∈ ms ∧ report km.2 = p.
Proof.
  revert d. induction ms as [|km ms IH]; intros d; cbn [foldl]; [by left|].
  intros [H|(km' & Hin & Hr)]%IH.
  - rewrite group_append_keys in H.
    destruct (bool_decide (report km.2 ∈ fst <$> d)); [by left|].
    apply elem_of_app in H as [H| ->%list_elem_of_singleton]; [by left|].
    right. exists km. split; [left|done].
  - right. exists km'. split; [by right|done].
Qed.

Lemma group_by_report_reports (ms : list (string * mapping_info)) p :
  p ∈ fst <$> group_by_report ms → ∃ km, km ∈ ms ∧ report km.2 = p.
Proof.
  intros [H|H]%group_by_report_keys; [|done]. by apply elem_of_nil in H.
Qed.

(** ** Generation as a whole *)

Lemma copy2_eq src dst w :
  copy2 src dst w =
  match files w !! src with
  | None => (w, Raise (CannotOpen src))
  | Some wb =>
      if decide (src = dst) then (w, Raise (SameFile src))
      else (set_files (copied (files w) src dst) w, Ok tt)
  end.
Proof.
  unfold copy2, copied. by destruct (files w !! src).
Qed.

Lemma copy2_raises src dst w w0 e :
  copy2 src dst w = (w0, Raise e) → w0 = w.
Proof.
  rewrite copy2_eq. destruct (files w !! src); [|by intros [= <- _]].
  destruct (decide (src = dst)); [by intros [= <- _]|done].
Qed.

Lemma copy2_returns src dst w w1 u :
  copy2 src dst w = (w1, Ok u) →
  w1 = set_files (copied (files w) src dst) w ∧
  files w1 !! dst = files w !! src ∧ is_Some (files w !! src).
Proof.
  rewrite copy2_eq. unfold copied.
  destruct (files w !! src) as [wb|] eqn:Hs; [|done].
  destruct (decide (src = dst)); [done|]. intros [= <- _].
  split; [done|]. simpl. rewrite lookup_insert_eq. eauto.
Qed.

Lemma generate_spec t o ms F rc w w' c' out :
  generate_populated_template t o ms F rc w = (w', c', out) →
  match copy2 t o w with
  | (_, Raise e) => w' = w ∧ c' = default ∅ rc ∧ out = Raised e
  | (w1, Ok _) =>
      engine_ok w' = engine_ok w ∧
      ∃ evs, trace w' = (trace w ++ evs)%list ∧
        cache_step (files w1) (default ∅ rc) evs c' ∧
        match out with
        | Returned rc' =>
            rc' = c' ∧ (∃ book, files w' = <[o := book]> (files w1)) ∧
            (∀ km, km ∈ ms →
               report_done (files w1) (default ∅ rc) F (report km.2) [km]) ∧
            pasted evs ≡ₚ ms ≫= planned_writes (files w1) (default ∅ rc) F
        | Raised e =>
            files w' = delete o (files w1) ∧
            ∃ e', e = Exception "Error generating populated template: " e' ∧
              (e' = EngineError ∨
               ∃ p e'', (∃ km, km ∈ ms ∧ report km.2 = p) ∧
                 e' = Exception ("Error processing report " ++ p ++ ": ") e'')
        end
  end.
Proof.
  unfold generate_populated_template.
  destruct (copy2 t o w) as [w1 [u|e]] eqn:Hcopy.
  2:{ intros [= <- <- <-]. by rewrite (copy2_raises _ _ _ _ _ Hcopy). }
  apply copy2_returns in Hcopy as (Hw1 & Ho & [wb Ht]).
  assert (He1 : engine_ok w1 = engine_ok w) by (by rewrite Hw1).
  assert (Htr1 : trace w1 = trace w) by (by rewrite Hw1).
  unfold with_app. cbn [fst snd].
  destruct (engine_ok w1) eqn:Heng.
  2:{ intros [= <- <- <-]. split; [by rewrite <- He1|].
      exists []. rewrite app_nil_r. split; [done|].
      split; [apply cache_step_refl|]. split; [done|]. eauto. }
  rewrite Ho, Ht.
  destruct (for_each (group_by_report ms) (process_report F)
              (mkSession w1 (default ∅ rc) wb)) as [s r] eqn:Hloop.
  apply report_loop_spec in Hloop as (evs & (Hf & He & Htr) & Hstep & Hr).
  cbn [s_world s_cache] in *.
  destruct r as [u'|e]; intros [= <- <- <-];
    unfold unlink, set_files; cbn [engine_ok trace files].
  - split; [congruence|]. exists evs. split; [congruence|]. split; [done|].
    split; [done|]. split; [rewrite Hf; eauto|].
    destruct Hr as [Hall Hperm].
    split; [by apply report_done_groups|].
    by rewrite Hperm, planned_writes_groups.
  - split; [congruence|]. exists evs. split; [congruence|]. split; [done|].
    split; [by rewrite Hf|]. eexists. split; [done|]. right.
    destruct Hr as (p & e'' & Hp & ->). exists p, e''. split; [|done].
    by apply group_by_report_reports.
Qed.

(** ** Generation when no row matches *)

Lemma no_match_block fs c F p : no_match fs c F p → block_of fs c F p = [].
Proof.
  intros (df & Ht & _ & Hrows). unfold block_of. rewrite Ht.
  induction (values df) as [|r rows IH]; [done|].
  rewrite filter_cons, decide_False.
  - apply IH. intros r' Hr'. apply Hrows. by right.
  - rewrite Hrows; [done|left].
Qed.

Lemma no_match_tables fs c c' F p :
  (∀ q, table_of fs c' q = table_of fs c q) →
  no_match fs c F p → no_match fs c' F p.
Proof. intros Ht. unfold no_match. by rewrite Ht. Qed.

Lemma process_table_no_match F p ms df s :
  table_of (files (s_world s)) (s_cache s) p = Some df →
  no_match (files (s_world s)) (s_cache s) F p →
  (let* filtered_df := lift_result (filter_rows df F) in
   if Pd.empty filtered_df then ret tt
   else
     let* sheet_mappings :=
       lift_result (group_by_sheet ms (values filtered_df) []) in
     for_each sheet_mappings (λ sm,
       let* _ := get_sheet sm.1 in
       for_each sm.2 (paste sm.1)))%py s = (s, Ok tt).
Proof.
  intros Ht Hno. pose proof (no_match_block _ _ _ _ Hno) as Hb.
  destruct Hno as (df' & Ht' & Hcol & _). rewrite Ht in Ht'. simplify_eq.
  unfold block_of in Hb. rewrite Ht in Hb.
  unfold bind at 1, lift_result at 1. rewrite filter_rows_eq.
  destruct (columns df') as [|c0 cs] eqn:Hcols; [done|].
  unfold Pd.empty. cbn [values columns]. rewrite Hb.
  by rewrite bool_decide_eq_true_2.
Qed.

Lemma process_report_no_match F p ms s :
  no_match (files (s_world s)) (s_cache s) F p →
  ∃ s', process_report F (p, ms) s = (s', Ok tt) ∧ s_book s' = s_book s.
Proof.
  intros Hno. unfold process_report, try_except, bind at 1.
  rewrite load_report_eq. pose proof Hno as (df & Ht & _).
  unfold table_of in Ht. destruct (s_cache s !! p) as [df'|] eqn:Hc.
  - simplify_eq. cbv beta iota.
    rewrite (process_table_no_match F p ms df s); [eauto| |done].
    unfold table_of. by rewrite Hc.
  - rewrite Ht.
    set (s0 := mkSession (log (Parsed p) (s_world s)) (<[p:=df]> (s_cache s))
                 (s_book s)).
    pose proof (cache_step_load _ _ _ _ Hc Ht) as (_ & _ & _ & Htab).
    cbv beta iota. fold s0.
    rewrite (process_table_no_match F p ms df s0); [by exists s0| |].
    + unfold table_of, s0. simpl. by rewrite lookup_insert_eq.
    + by apply (no_match_tables _ _ _ _ _ Htab).
Qed.

Lemma report_loop_no_match F (groups : dict (list (string * mapping_info))) s :
  Forall (λ g, no_match (files (s_world s)) (s_cache s) F g.1) groups →
  ∃ s', for_each groups (process_report F) s = (s', Ok tt)
        ∧ s_book s' = s_book s.
Proof.
  revert s. induction groups as [|[p ms] groups IH]; intros s Hall;
    cbn [for_each].
  - by exists s.
  - inversion Hall as [|g gs Hhead Htail]; subst. cbn [fst] in Hhead.
    destruct (process_report_no_match F p ms s Hhead) as (s1 & Hp & Hb1).
    unfold bind. rewrite Hp.
    apply process_report_spec in Hp as (evs & (Hf & _ & _) & Hstep & _).
    destruct Hstep as (_ & _ & _ & Htab).
    destruct (IH s1) as (s2 & Hl & Hb2).
    + rewrite Hf. eapply Forall_impl; [exact Htail|].
      intros g. by apply no_match_tables.
    + exists s2. split; [done|]. congruence.
Qed.

Lemma generate_no_match t o ms F rc w wb :
  files w !! t = Some wb → t ≠ o → engine_ok w = true →
  (∀ km, km ∈ ms →
         no_match (copied (files w) t o) (default ∅ rc) F (report km.2)) →
  ms ≫= planned_writes (copied (files w) t o) (default ∅ rc) F = [] ∧
  ∃ w' c' evs,
    generate_populated_template t o ms F rc w = (w', c', Returned c') ∧
    trace w' = (trace w ++ evs)%list ∧ pasted evs = [] ∧
    files w' !! o = Some wb.
Proof.
  intros Ht Hne Heng Hno.
  assert (Hplan : ms ≫= planned_writes (copied (files w) t o) (default ∅ rc) F = []).
  { clear -Hno. induction ms as [|km ms IH]; [done|].
    rewrite bind_cons, IH.
    - unfold planned_writes, writes_for.
      rewrite (no_match_block _ _ _ _ (Hno km ltac:(left))). done.
    - intros km' Hkm'. apply Hno. by right. }
  split; [done|].
  destruct (generate_populated_template t o ms F rc w) as [[w' c'] out] eqn:Hgen.
  pose proof (generate_spec _ _ _ _ _ _ _ _ _ Hgen) as Hspec.
  revert Hgen. unfold generate_populated_template.
  rewrite copy2_eq in *. rewrite Ht in *. rewrite decide_False in * by done.
  unfold with_app. cbn [fst snd engine_ok files set_files] in *.
  rewrite Heng. unfold copied at 1. rewrite Ht, lookup_insert_eq.
  destruct (report_loop_no_match F (group_by_report ms)
              (mkSession (set_files (copied (files w) t o) w) (default ∅ rc) wb))
    as (s' & Hl & Hb).
  { apply Forall_forall. intros [p kms] Hg. cbn [fst s_world s_cache files set_files].
    destruct (group_by_report_reports ms p) as (km & Hkm & <-).
    - apply list_elem_of_fmap. by exists (p, kms).
    - by apply Hno. }
  rewrite Hl. intros [= <- <- <-].
  destruct Hspec as (_ & evs & Htr & _ & _ & _ & _ & Hperm).
  eexists _, _, evs. split; [reflexivity|]. split; [done|]. split.
  - rewrite Hplan in Hperm. by apply Permutation_nil_r in Hperm.
  - cbn [files set_files]. rewrite lookup_insert_eq. by rewrite Hb.
Qed.

(** C2.  When the template can be copied and the engine starts, and no
    row of any mapped report has the fund code in column 0, the write plan
    is empty, [generate_populated_template] returns, it pastes nothing,
    and the output file holds what the template holds. *)
Theorem generate_without_match t o ms F rc w :
  is_Some (files w !! t) → t ≠ o → engine_ok w = true →
  (∀ km, km ∈ ms →
         no_match (copied (files w) t o) (default ∅ rc) F (report km.2)) →
  ms ≫= planned_writes (copied (files w) t o) (default ∅ rc) F = [] ∧
  ∃ w' c' evs,
    generate_populated_template t o ms F rc w = (w', c', Returned c') ∧
    trace w' = (trace w ++ evs)%list ∧ pasted evs = [] ∧
    files w' !! o = files w !! t.
Proof.
  intros [wb Ht] Hne Heng Hno.
  destruct (generate_no_match t o ms F rc w wb Ht Hne Heng Hno)
    as (Hplan & w' & c' & evs & Hgen & Htr & Hp & Ho).
  split; [done|]. exists w', c', evs. by rewrite Ht.
Qed.


(** ** The cache across calls *)

Lemma generate_grows t o ms F rc w :
  ∃ evs,
    trace (generate_populated_template t o ms F rc w).1.1 = (trace w ++ evs)%list ∧
    cache_step (copied (files w) t o) (default ∅ rc) evs
               (generate_populated_template t o ms F rc w).1.2.
Proof.
  destruct (generate_populated_template t o ms F rc w) as [[w' c'] out] eqn:Hgen.
  apply generate_spec in Hgen. cbn [fst snd].
  destruct (copy2 t o w) as [w1 [u|e]] eqn:Hcopy.
  - apply copy2_returns in Hcopy as (-> & _ & _).
    destruct Hgen as (_ & evs & Htr & Hstep & _). by exists evs.
  - destruct Hgen as (-> & -> & _). exists []. rewrite app_nil_r.
    split; [done|]. apply cache_step_refl.
Qed.

Lemma generate_all_grows calls c0 w :
  ∃ evs,
    trace (generate_all calls c0 w).1.1 = (trace w ++ evs)%list ∧
    cache_grows c0 evs (generate_all calls c0 w).1.2.
Proof.
  revert c0 w. induction calls as [|c rest IH]; intros c0 w; cbn [generate_all].
  - exists []. rewrite app_nil_r. split; [done|]. cbn [fst snd].
    split; [done|]. split; [constructor|]. intros p Hp. by apply elem_of_nil in Hp.
  - destruct (generate_grows (c_template c) (c_output c) (c_mappings c)
                (c_fund c) (Some c0) w) as (evs1 & Ht1 & Hs1).
    destruct (generate_populated_template _ _ _ _ _ w) as [[w1 c1] o1].
    destruct (IH c1 w1) as (evs2 & Ht2 & Hs2).
    destruct (generate_all rest c1 w1) as [[w2 c2] os]. cbn [fst snd] in *.
    exists (evs1 ++ evs2)%list. rewrite Ht2, Ht1, app_assoc. split; [done|].
    eapply cache_grows_trans; [|exact Hs2]. by eapply cache_step_grows.
Qed.

(** C4.  One call: the cache it returns is the dictionary it worked on;
    entries are never dropped; a file is parsed only when the cache has no
    entry for it, at most once, and its table is then stored under its
    path.  A sequence of calls threading the cache: over the whole
    sequence every report path is parsed at most once, and never when the
    initial cache had it. *)
Theorem cache_reads_each_report_once :
  (∀ t o ms F rc w,
     let r := generate_populated_template t o ms F rc w in
     (∀ rc', r.2 = Returned rc' → rc' = r.1.2) ∧
     ∃ evs, trace r.1.1 = (trace w ++ evs)%list ∧
       default ∅ rc ⊆ r.1.2 ∧ NoDup (parsed evs) ∧
       ∀ p, p ∈ parsed evs →
            default ∅ rc !! p = None ∧ is_Some (r.1.2 !! p) ∧
            r.1.2 !! p = disk_table (copied (files w) t o) p) ∧
  (∀ calls c0 w,
     let r := generate_all calls c0 w in
     ∃ evs, trace r.1.1 = (trace w ++ evs)%list ∧
       c0 ⊆ r.1.2 ∧ NoDup (parsed evs) ∧
       ∀ p, p ∈ parsed evs → c0 !! p = None ∧ is_Some (r.1.2 !! p)).
Proof.
  split.
  - intros t o ms F rc w r. split.
    + unfold r. intros rc' Hr.
      destruct (generate_populated_template t o ms F rc w) as [[w' c'] out] eqn:Hgen.
      apply generate_spec in Hgen. cbn [fst snd] in *. subst out.
      destruct (copy2 t o w) as [w1 [u|e]]; [|by destruct Hgen as (_ & _ & ?)].
      by destruct Hgen as (_ & evs & _ & _ & -> & _).
    + destruct (generate_grows t o ms F rc w) as (evs & Htr & Hs & Hn & Hp & _).
      exists evs. done.
  - intros calls c0 w r.
    destruct (generate_all_grows calls c0 w) as (evs & Htr & Hs & Hn & Hp).
    exists evs. done.
Qed.

(** C7.  When [generate_populated_template] returns, the pastes it made
    are, up to their order, one for each mapping whose report has rows
    matching the fund code, at the sheet and cell of the mapping's key and
    with exactly those matching rows as the block, so that all mappings
    of one report paste the same block; mappings of a report without
    matching rows get no paste.  Each report forms a single group, and is
    parsed at most once in the call. *)
Theorem one_write_per_mapping t o ms F rc w w' c' rc' :
  generate_populated_template t o ms F rc w = (w', c', Returned rc') →
  let fs := copied (files w) t o in
  let c0 := default ∅ rc in
  ∃ evs, trace w' = (trace w ++ evs)%list ∧
    pasted evs ≡ₚ ms ≫= planned_writes fs c0 F ∧
    (∀ km, km ∈ ms → block_of fs c0 F (report km.2) ≠ [] →
       ∃ sheet_name cell_ref,
         key_parts km.1 = Some (sheet_name, cell_ref) ∧
         planned_writes fs c0 F km
         = [Pasted sheet_name cell_ref (block_of fs c0 F (report km.2))]) ∧
    (∀ km, km ∈ ms → block_of fs c0 F (report km.2) = [] →
       planned_writes fs c0 F km = []) ∧
    NoDup (fst <$> group_by_report ms) ∧ NoDup (parsed evs).
Proof.
  intros Hgen fs c0. apply generate_spec in Hgen.
  destruct (copy2 t o w) as [w1 [u|e]] eqn:Hcopy;
    [|by destruct Hgen as (_ & _ & ?)].
  apply copy2_returns in Hcopy as (-> & _ & _). cbn [files set_files] in Hgen.
  destruct Hgen as (_ & evs & Htr & Hstep & _ & _ & Hdone & Hperm).
  exists evs. split; [done|]. split; [done|]. split; [|split; [|split]].
  - intros km Hkm Hb. destruct (Hdone km Hkm) as [_ Hkeys].
    specialize (Hkeys Hb). inversion Hkeys as [|?? [[sn cr] Hk] _]; subst.
    exists sn, cr. split; [done|]. unfold planned_writes, writes_for.
    fold fs c0. rewrite Hk. by destruct (block_of fs c0 F (report km.2)).
  - intros km _ Hb. unfold planned_writes, writes_for. by rewrite Hb.
  - apply group_by_report_NoDup.
  - by destruct Hstep as (_ & Hn & _).
Qed.

(** ** Extraction against filtering *)

Lemma lstrip_head s :
  Py.lstrip s = EmptyString ∨
  ∃ a t, Py.lstrip s = String a t ∧ Py.isspace a = false.
Proof.
  induction s as [|a s IH]; [by left|]. cbn [Py.lstrip].
  destruct (Py.isspace a) eqn:Ha; [done|]. right. by exists a, s.
Qed.

Lemma rstrip_idem s : Py.rstrip (Py.rstrip s) = Py.rstrip s.
Proof.
  induction s as [|a s IH]; [done|]. cbn [Py.rstrip].
  destruct (Py.rstrip s) as [|b u] eqn:Hs.
  - destruct (Py.isspace a) eqn:Ha; [done|]. cbn [Py.rstrip]. by rewrite Ha.
  - cbn [Py.rstrip]. cbn [Py.rstrip] in IH. by rewrite IH.
Qed.

Lemma rstrip_head a t :
  Py.isspace a = false → ∃ t', Py.rstrip (String a t) = String a t'.
Proof.
  intros Ha. cbn [Py.rstrip]. destruct (Py.rstrip t); [rewrite Ha|]; eauto.
Qed.

Lemma strip_idem s : Py.strip (Py.strip s) = Py.strip s.
Proof.
  unfold Py.strip. destruct (lstrip_head s) as [->|(a & t & -> & Ha)]; [done|].
  destruct (rstrip_head a t Ha) as [t' Ht']. rewrite Ht' at 1.
  cbn [Py.lstrip]. rewrite Ha, <- Ht'. apply rstrip_idem.
Qed.

Lemma clean_code_Some c code :
  clean_code c = Some code →
  code = Py.strip (Pd.str c) ∧ clean_code (Str code) = Some code.
Proof.
  unfold clean_code. destruct (Pd.notna c); [|done].
  destruct (negb (String.eqb (Py.strip (Pd.str c)) "")
            && negb (String.eqb (Py.lower (Py.strip (Pd.str c))) "nan")) eqn:Hok;
    [|done].
  intros [= <-]. split; [done|]. cbn [Pd.notna Pd.str].
  by rewrite strip_idem, Hok.
Qed.

Lemma eq_str_true c F : Pd.eq_str c F = true ↔ c = Str F.
Proof.
  destruct c as [|s|z]; simpl; try (split; [discriminate | intros [=]]).
  rewrite String.eqb_eq. split; [by intros -> | by intros [= ->]].
Qed.

Lemma filter_report_by_fund_eq path F w :
  (filter_report_by_fund path F w).2 =
  match disk_table (files w) path with
  | Some df =>
      match columns df with
      | [] => Raise (Exception "Error filtering report: " IndexError)
      | _ => Ok (mkDataFrame (columns df)
                   (filter (λ r, Pd.eq_str (Pd.col0 r) F = true) (values df)))
      end
  | None => Raise (Exception "Error filtering report: " (CannotOpen path))
  end.
Proof.
  unfold filter_report_by_fund, try_except, bind. rewrite pd_read_first.
  destruct (disk_table (files w) path) as [df|]; [|done].
  unfold lift_result. rewrite filter_rows_eq. by destruct (columns df).
Qed.

(** C10.  Extraction cleans a cell into a trimmed string, the filter of
    generation compares the raw cell.  So for a fund code that extraction
    reports: when, in every mapped report, each cell of column 0 that
    cleans to the code is not a plain string, no row matches the code,
    generation pastes nothing and the output file holds what the template
    holds. *)
Theorem extraction_and_filter_disagree t o ms F rc w path sheet_name w0 codes :
  (get_fund_codes path sheet_name w0).2 = Ok codes → F ∈ codes →
  is_Some (files w !! t) → t ≠ o → engine_ok w = true →
  (∀ km, km ∈ ms →
     ∃ df, table_of (copied (files w) t o) (default ∅ rc) (report km.2) = Some df
           ∧ columns df ≠ []
           ∧ ∀ r, r ∈ values df → clean_code (Pd.col0 r) = Some F →
                  not_plain (Pd.col0 r)) →
  (∀ c code, clean_code c = Some code → code = Py.strip (Pd.str c)) ∧
  (∀ c, Pd.eq_str c F = true ↔ c = Str F) ∧
  (∀ km, km ∈ ms →
     block_of (copied (files w) t o) (default ∅ rc) F (report km.2) = []) ∧
  ∃ w' c' evs,
    generate_populated_template t o ms F rc w = (w', c', Returned c') ∧
    trace w' = (trace w ++ evs)%list ∧ pasted evs = [] ∧
    files w' !! o = files w !! t.
Proof.
  intros Hcodes HF [wb Ht] Hne Heng Hrep.
  apply get_fund_codes_result in Hcodes as (df0 & _ & _ & _ & Hmem).
  apply Hmem in HF as (_ & r0 & _ & Hclean).
  apply clean_code_Some in Hclean as [HFstrip HFclean].
  assert (Hno : ∀ km, km ∈ ms →
            no_match (copied (files w) t o) (default ∅ rc) F (report km.2)).
  { intros km Hkm. destruct (Hrep km Hkm) as (df & Hdf & Hcol & Hrows).
    exists df. split; [done|]. split; [done|]. intros r Hr.
    destruct (Pd.eq_str (Pd.col0 r) F) eqn:Heq; [|done].
    apply eq_str_true in Heq. specialize (Hrows r Hr). rewrite Heq in Hrows.
    specialize (Hrows HFclean). simpl in Hrows. rewrite HFstrip in Hrows.
    by rewrite strip_idem in Hrows. }
  split; [intros c code Hc; by apply clean_code_Some in Hc as [? _]|].
  split; [intros c; apply eq_str_true|].
  split; [intros km Hkm; by apply no_match_block, Hno|].
  destruct (generate_no_match t o ms F rc w wb Ht Hne Heng Hno)
    as (_ & w' & c' & evs & Hgen & Htr & Hp & Ho).
  exists w', c', evs. by rewrite Ht.
Qed.

(** ** The properties at work on the example *)

Lemma read_excel_contract_witness :
  (read_excel "R1.xlsx" None example_world).2
  = Ok (Pd.frame_of_sheet [[Str "Fund"; Str "Value"];
                           [Str "FundA"; Int 10];
                           [Str "FundB"; Int 20];
                           [Str "FundA"; Int 30]]).
Proof.
  destruct (read_excel_contract example_world "R1.xlsx" None) as [Hfirst _].
  apply (Hfirst "Sheet1" _ []). vm_compute. reflexivity.
Defined.


Lemma generate_without_match_witness :
  ∃ w' c' evs,
    generate_populated_template "template.xlsx" "out.xlsx" example_mappings
      "FundC" None example_world = (w', c', Returned c') ∧
    trace w' = (trace example_world ++ evs)%list ∧ pasted evs = [] ∧
    files w' !! "out.xlsx" = files example_world !! "template.xlsx".
Proof.
  apply (generate_without_match "template.xlsx" "out.xlsx" example_mappings
           "FundC" None example_world).
  - exists example_template. vm_compute. reflexivity.
  - discriminate.
  - reflexivity.
  - intros km Hkm.
    repeat (apply elem_of_cons in Hkm as [->|Hkm]);
      [| |by apply elem_of_nil in Hkm];
      (eexists; split; [vm_compute; reflexivity|]; split; [discriminate|];
       intros r Hr;
       repeat (apply elem_of_cons in Hr as [->|Hr]; [reflexivity|]);
       by apply elem_of_nil in Hr).
Defined.


Lemma one_write_per_mapping_witness :
  ∃ w' c' evs,
    generate_populated_template "template.xlsx" "out.xlsx" example_mappings
      "FundA" None example_world = (w', c', Returned c') ∧
    trace w' = (trace example_world ++ evs)%list ∧
    pasted evs ≡ₚ [Pasted "Summary" "A5" example_block;
                   Pasted "Summary" "D1" example_block].
Proof.
  pose (r := generate_populated_template "template.xlsx" "out.xlsx"
               example_mappings "FundA" None example_world).
  assert (Hgen : generate_populated_template "template.xlsx" "out.xlsx"
                   example_mappings "FundA" None example_world
                 = (r.1.1, r.1.2, Returned r.1.2))
    by (vm_compute; reflexivity).
  destruct (one_write_per_mapping _ _ _ _ _ _ _ _ _ Hgen)
    as (evs & Htr & Hperm & _).
  exists r.1.1, r.1.2, evs. split; [exact Hgen|]. split; [exact Htr|].
  exact Hperm.
Defined.

Lemma extraction_and_filter_disagree_witness :
  ∃ w' c' evs,
    generate_populated_template "template.xlsx" "out.xlsx" example_mappings2
      "10" None example_world = (w', c', Returned c') ∧
    trace w' = (trace example_world ++ evs)%list ∧ pasted evs = [] ∧
    files w' !! "out.xlsx" = files example_world !! "template.xlsx".
Proof.
  apply (extraction_and_filter_disagree "template.xlsx" "out.xlsx"
           example_mappings2 "10" None example_world
           "R2.xlsx" None example_world ["10"; "FundA"]).
  - vm_compute. reflexivity.
  - left.
  - exists example_template. vm_compute. reflexivity.
  - discriminate.
  - reflexivity.
  - intros km Hkm.
    apply elem_of_cons in Hkm as [->|Hkm]; [|by apply elem_of_nil in Hkm].
    eexists. split; [vm_compute; reflexivity|]. split; [discriminate|].
    intros r Hr Hclean.
    repeat (apply elem_of_cons in Hr as [->|Hr];
            [first [exact I | vm_compute in Hclean; discriminate]|]).
    by apply elem_of_nil in Hr.
Defined.

(** * Further properties *)

(** ** Column names *)

Lemma string_app_cons a (s t : string) : String a s ++ t = String a (s ++ t).
Proof. done. Qed.

Lemma string_app_nil_l (t : string) : "" ++ t = t.
Proof. done. Qed.

Lemma string_app_assoc (s1 s2 s3 : string) :
  (s1 ++ s2) ++ s3 = s1 ++ (s2 ++ s3).
Proof.
  induction s1 as [|a s1 IH]; [done|]. by rewrite !string_app_cons, IH.
Qed.

Lemma string_app_nil_r (s : string) : s ++ "" = s.
Proof. induction s as [|a s IH]; [done|]. by rewrite string_app_cons, IH. Qed.

Lemma col_name_loop_app fuel n res :
  col_name_loop fuel n res = col_name_loop fuel n "" ++ res.
Proof.
  revert n res. induction fuel as [|fuel IH]; intros n res; simpl; [done|].
  destruct (0 <? n)%Z; [|done].
  rewrite IH, (IH _ (String _ "")), string_app_assoc. done.
Qed.

(** More rounds than [n] change nothing: the loop has ended by then. *)
Lemma col_name_loop_fuel2 f1 f2 n res :
  Z.to_nat n ≤ f1 → Z.to_nat n ≤ f2 →
  col_name_loop f1 n res = col_name_loop f2 n res.
Proof.
  revert f2 n res. induction f1 as [|f1 IH]; intros f2 n res H1 H2.
  - destruct f2 as [|f2]; [done|]. cbn [col_name_loop].
    by rewrite (proj2 (Z.ltb_ge 0 n)) by lia.
  - cbn [col_name_loop]. destruct (0 <? n)%Z eqn:Hn.
    + apply Z.ltb_lt in Hn. destruct f2 as [|f2]; [lia|]. cbn [col_name_loop].
      rewrite (proj2 (Z.ltb_lt 0 n) Hn).
      assert (Hq : ((n - 1) / 26 < n)%Z).
      { apply Z.div_lt_upper_bound; lia. }
      assert (Hq0 : (0 ≤ (n - 1) / 26)%Z) by (apply Z.div_pos; lia).
      apply IH; lia.
    + destruct f2 as [|f2]; [done|]. cbn [col_name_loop]. by rewrite Hn.
Qed.

Lemma col_name_loop_fuel fuel n res :
  Z.to_nat n ≤ fuel →
  col_name_loop fuel n res = col_name_loop (Z.to_nat n) n res.
Proof. intros Hle. apply col_name_loop_fuel2; lia. Qed.

Lemma col_name_nonpos n : (n ≤ 0)%Z → _get_excel_col_name n = "".
Proof.
  intros Hn. unfold _get_excel_col_name. by replace (Z.to_nat n) with 0 by lia.
Qed.

Lemma col_name_step n :
  (0 < n)%Z →
  _get_excel_col_name n
  = _get_excel_col_name ((n - 1) / 26)
    ++ String (chr (65 + (n - 1) mod 26)) "".
Proof.
  intros Hn. unfold _get_excel_col_name.
  destruct (Z.to_nat n) as [|k] eqn:Hk; [lia|]. cbn [col_name_loop].
  rewrite (proj2 (Z.ltb_lt 0 n) Hn).
  assert (Hq : ((n - 1) / 26 < n)%Z) by (apply Z.div_lt_upper_bound; lia).
  assert (Hq0 : (0 ≤ (n - 1) / 26)%Z) by (apply Z.div_pos; lia).
  rewrite col_name_loop_app. f_equal. apply col_name_loop_fuel. lia.
Qed.

Lemma chr_letter r :
  (0 ≤ r < 26)%Z →
  Xw.is_upper (chr (65 + r)) = true ∧
  Py.ord (chr (65 + r)) - 64 = S (Z.to_nat r).
Proof.
  intros Hr. unfold Xw.is_upper, Py.ord, chr.
  rewrite nat_ascii_embedding by lia. split; [|lia].
  apply andb_true_iff. split; apply Nat.leb_le; lia.
Qed.

Lemma letters_snoc s c ls :
  Xw.letters s = (ls, "") → Xw.is_upper c = true →
  Xw.letters (s ++ String c "") = ((ls ++ [Py.ord c - 64])%list, "").
Proof.
  revert ls. induction s as [|a s IH]; intros ls.
  - rewrite string_app_nil_l. simpl. intros [= <-] ->. done.
  - rewrite string_app_cons. simpl. destruct (Xw.is_upper a); [|done].
    destruct (Xw.letters s) as [ls' rest] eqn:Hs. intros [= <- ->] Hc.
    by rewrite (IH ls' eq_refl Hc).
Qed.

Lemma number_snoc b ls d : Xw.number b (ls ++ [d]) = Xw.number b ls * b + d.
Proof. unfold Xw.number. by rewrite foldl_snoc. Qed.

(** The name of a positive column number is made of capital letters and
    reads back, in base 26 with A = 1, as that number. *)
Lemma col_name_decodes k n :
  Z.to_nat n ≤ k → (0 < n)%Z →
  ∃ ls, Xw.letters (_get_excel_col_name n) = (ls, "") ∧ ls ≠ [] ∧
        Xw.number 26 ls = Z.to_nat n.
Proof.
  revert n. induction k as [|k IH]; intros n Hk Hn; [lia|].
  rewrite (col_name_step n Hn).
  assert (Hr : (0 ≤ (n - 1) mod 26 < 26)%Z) by (apply Z.mod_pos_bound; lia).
  destruct (chr_letter _ Hr) as [Hup Hval].
  assert (Hq : ((n - 1) / 26 < n)%Z) by (apply Z.div_lt_upper_bound; lia).
  assert (Hq0 : (0 ≤ (n - 1) / 26)%Z) by (apply Z.div_pos; lia).
  assert (Hdiv : (n - 1 = 26 * ((n - 1) / 26) + (n - 1) mod 26)%Z)
    by (apply Z.div_mod; lia).
  destruct (decide ((n - 1) / 26 = 0)%Z) as [Hz|Hnz].
  - rewrite Hz, col_name_nonpos, string_app_nil_l by lia. simpl.
    rewrite Hup. eexists. split; [done|]. split; [done|].
    unfold Xw.number. simpl. lia.
  - destruct (IH ((n - 1) / 26)%Z) as (ls & Hls & Hne & Hnum); [lia|lia|].
    rewrite (letters_snoc _ _ _ Hls Hup). eexists. split; [done|].
    split; [by destruct ls|]. rewrite number_snoc, Hnum, Hval. lia.
Qed.

(** X1.  For every column number [n >= 1], [_get_excel_col_name n] is a
    non-empty string of capital letters only, and read in base 26 with
    A = 1, ..., Z = 26 it gives back [n]. *)
Theorem col_name_round_trip n :
  (1 ≤ n)%Z →
  ∃ ls, Xw.letters (_get_excel_col_name n) = (ls, "") ∧ ls ≠ [] ∧
        Xw.number 26 ls = Z.to_nat n.
Proof. intros Hn. apply (col_name_decodes (Z.to_nat n)); lia. Qed.

Lemma col_name_round_trip_witness :
  (1 ≤ 703)%Z ∧
  ∃ ls, Xw.letters (_get_excel_col_name 703) = (ls, "") ∧ ls ≠ [] ∧
        Xw.number 26 ls = Z.to_nat 703.
Proof. split; [lia|]. apply (col_name_round_trip 703). lia. Defined.

(** X2.  Column numbers below 1 get the empty name, and no two column
    numbers from 1 on get the same name. *)
Theorem col_name_injective n m :
  ((n ≤ 0)%Z → _get_excel_col_name n = "") ∧
  ((1 ≤ n)%Z → _get_excel_col_name n ≠ "") ∧
  ((1 ≤ n)%Z → (1 ≤ m)%Z →
   _get_excel_col_name n = _get_excel_col_name m → n = m).
Proof.
  split; [apply col_name_nonpos|]. split.
  - intros Hn Hnil.
    destruct (col_name_decodes (Z.to_nat n) n) as (ls & Hls & Hne & _); [lia..|].
    rewrite Hnil in Hls. simpl in Hls. by injection Hls as <-.
  - intros Hn Hm Heq.
    destruct (col_name_decodes (Z.to_nat n) n) as (ls & Hls & _ & Hnum); [lia..|].
    destruct (col_name_decodes (Z.to_nat m) m) as (ls' & Hls' & _ & Hnum'); [lia..|].
    rewrite Heq, Hls' in Hls. injection Hls as <-. lia.
Qed.

Lemma col_name_injective_witness :
  _get_excel_col_name 0 = "" ∧ _get_excel_col_name 27 ≠ "" ∧
  (_get_excel_col_name 27 = _get_excel_col_name 27 → 27 = 27)%Z.
Proof.
  destruct (col_name_injective 27 27) as (_ & Hne & Hinj).
  destruct (col_name_injective 0 0) as (Hnil & _).
  split; [apply Hnil; lia|]. split; [apply Hne; lia|]. apply Hinj; lia.
Defined.

Lemma cell_ref_loop_col_name fuel column_index res :
  cell_ref_loop fuel column_index res
  = col_name_loop fuel (column_index + 1) res.
Proof.
  revert column_index res. induction fuel as [|fuel IH]; intros j res; simpl;
    [done|].
  destruct (0 <=? j)%Z eqn:Hj.
  - apply Z.leb_le in Hj. rewrite (proj2 (Z.ltb_lt 0 (j + 1))) by lia.
    rewrite IH. replace (j + 1 - 1)%Z with j by lia.
    by replace (j / 26 - 1 + 1)%Z with (j / 26)%Z by lia.
  - apply Z.leb_gt in Hj. by rewrite (proj2 (Z.ltb_ge 0 (j + 1))) by lia.
Qed.

(** X3.  When the column name first occurs at position [j] of the labels,
    [get_excel_cell_reference] returns the name [_get_excel_col_name]
    gives to column [j + 1], followed by the decimal numeral of
    [row_index + 1]: the two letter loops of the program agree.  When the
    name is not among the labels, the result is "A1". *)
Theorem cell_reference_uses_col_name row_index col_name column_names :
  (∀ j, column_names !! j = Some col_name →
        (∀ i, i < j → column_names !! i ≠ Some col_name) →
        get_excel_cell_reference row_index col_name column_names
        = _get_excel_col_name (Z.of_nat j + 1) ++ Py.str_int (row_index + 1)) ∧
  (col_name ∉ column_names →
   get_excel_cell_reference row_index col_name column_names = "A1").
Proof.
  unfold get_excel_cell_reference, list_index. split.
  - intros j Hj Hfirst.
    assert (Hfind : list_find (λ y, y = col_name) column_names
                    = Some (j, col_name)).
    { apply list_find_Some. split; [done|]. split; [done|].
      intros i y Hy Hi ->. by apply (Hfirst i). }
    rewrite Hfind, cell_ref_loop_col_name. unfold _get_excel_col_name.
    by replace (Z.to_nat (Z.of_nat j + 1)) with (S (Z.to_nat (Z.of_nat j)))
      by lia.
  - intros Hnot.
    assert (Hfind : list_find (λ y, y = col_name) column_names = None).
    { apply list_find_None, Forall_forall. intros y Hy ->. done. }
    by rewrite Hfind.
Qed.

Lemma cell_reference_uses_col_name_witness :
  get_excel_cell_reference 4 "Value" ["Fund"; "Value"] = "B5" ∧
  get_excel_cell_reference 4 "Other" ["Fund"; "Value"] = "A1".
Proof.
  destruct (cell_reference_uses_col_name 4 "Value" ["Fund"; "Value"])
    as [Hfound _].
  destruct (cell_reference_uses_col_name 4 "Other" ["Fund"; "Value"])
    as [_ Hmissing].
  split.
  - apply (Hfound 1); [reflexivity|].
    intros [|i] Hi; [discriminate|lia].
  - apply Hmissing. intros Hin.
    repeat (apply elem_of_cons in Hin as [Hin|Hin]; [discriminate|]).
    by apply elem_of_nil in Hin.
Defined.

(** ** Cell references read back *)

Lemma letters_app s t ls :
  Xw.letters s = (ls, "") →
  match t with String a _ => Xw.is_upper a = false | EmptyString => True end →
  Xw.letters (s ++ t) = (ls, t).
Proof.
  revert ls. induction s as [|a s IH]; intros ls.
  - rewrite string_app_nil_l. simpl. intros [= <-] Ht.
    destruct t as [|b t]; [done|]. simpl. by rewrite Ht.
  - rewrite string_app_cons. simpl. destruct (Xw.is_upper a); [|done].
    destruct (Xw.letters s) as [ls' rest] eqn:Hs. intros [= <- ->] Ht.
    by rewrite (IH ls' eq_refl Ht).
Qed.

Lemma digits_of_uint d :
  Xw.digits (NilEmpty.string_of_uint d) = Some (uint_digits d).
Proof.
  induction d as [|d IH|d IH|d IH|d IH|d IH|d IH|d IH|d IH|d IH|d IH];
    [done|..]; cbn [NilEmpty.string_of_uint Xw.digits uint_digits];
    rewrite IH; reflexivity.
Qed.

Lemma uint_string_head d :
  match NilEmpty.string_of_uint d with
  | String a _ => Xw.is_upper a = false
  | EmptyString => True
  end.
Proof. by destruct d. Qed.

Lemma of_uint_acc_digits d acc :
  Pos.to_nat (Pos.of_uint_acc d acc)
  = foldl (λ a k, a * 10 + k) (Pos.to_nat acc) (uint_digits d).
Proof.
  revert acc.
  induction d as [|d IH|d IH|d IH|d IH|d IH|d IH|d IH|d IH|d IH|d IH];
    intros acc; [done|..];
    cbn [Pos.of_uint_acc uint_digits foldl]; rewrite IH; f_equal; lia.
Qed.

Lemma of_uint_digits d :
  N.to_nat (Pos.of_uint d) = Xw.number 10 (uint_digits d).
Proof.
  unfold Xw.number.
  induction d as [|d IH|d IH|d IH|d IH|d IH|d IH|d IH|d IH|d IH|d IH];
    [done|exact IH|..];
    cbn [Pos.of_uint uint_digits foldl];
    change (N.to_nat (N.pos ?p)) with (Pos.to_nat p);
    rewrite of_uint_acc_digits; f_equal.
Qed.

Lemma to_uint_head p : ∃ k ds, uint_digits (Pos.to_uint p) = S k :: ds.
Proof.
  pose proof (DecimalPos.Unsigned.to_of (Pos.to_uint p)) as Hnorm.
  rewrite DecimalPos.Unsigned.of_to in Hnorm. cbn [N.to_uint] in Hnorm.
  pose proof (DecimalPos.Unsigned.to_uint_nonnil p) as Hnil.
  pose proof (DecimalPos.Unsigned.to_uint_nonzero p) as Hzero.
  destruct (Pos.to_uint p) as [|d|d|d|d|d|d|d|d|d|d] eqn:Hd;
    [done| |simpl; eauto..].
  exfalso. unfold Decimal.unorm in Hnorm. cbn [Decimal.nzhead] in Hnorm.
  destruct (Decimal.nzhead d) eqn:Hh;
    by apply (DecimalFacts.nzhead_nonzero d d); rewrite Hh, Hnorm.
Qed.

Lemma digits_of_str_int z :
  (1 ≤ z)%Z →
  ∃ k ds, Xw.digits (Py.str_int z) = Some (S k :: ds) ∧
          Xw.number 10 (S k :: ds) = Z.to_nat z ∧
          match Py.str_int z with
          | String a _ => Xw.is_upper a = false
          | EmptyString => True
          end.
Proof.
  intros Hz. destruct z as [|p|p]; [lia| |lia].
  unfold Py.str_int. cbn [Z.to_int NilZero.string_of_int].
  unfold NilZero.string_of_uint.
  pose proof (DecimalPos.Unsigned.to_uint_nonnil p) as Hnil.
  assert (Hstr : match Pos.to_uint p with
                 | Decimal.Nil => "0"
                 | _ => NilEmpty.string_of_uint (Pos.to_uint p)
                 end = NilEmpty.string_of_uint (Pos.to_uint p))
    by (by destruct (Pos.to_uint p)).
  rewrite Hstr, digits_of_uint.
  destruct (to_uint_head p) as (k & ds & Hk). exists k, ds.
  rewrite <- Hk. split; [done|]. split; [|apply uint_string_head].
  rewrite <- of_uint_digits, DecimalPos.Unsigned.of_to. simpl. lia.
Qed.

Lemma cell_reference_parse_ref row_index col_name column_names j :
  (0 ≤ row_index)%Z →
  column_names !! j = Some col_name →
  (∀ i, i < j → column_names !! i ≠ Some col_name) →
  Xw.parse_ref (get_excel_cell_reference row_index col_name column_names)
  = Some (Z.to_nat row_index, j).
Proof.
  intros Hrow Hj Hfirst.
  assert (Hfind : list_find (λ y, y = col_name) column_names
                  = Some (j, col_name)).
  { apply list_find_Some. split; [done|]. split; [done|].
    intros i y Hy Hi ->. by apply (Hfirst i). }
  unfold get_excel_cell_reference, list_index.
  rewrite Hfind, cell_ref_loop_col_name.
  replace (S (Z.to_nat (Z.of_nat j))) with (Z.to_nat (Z.of_nat j + 1)) by lia.
  fold (_get_excel_col_name (Z.of_nat j + 1)).
  destruct (col_name_decodes (Z.to_nat (Z.of_nat j + 1)) (Z.of_nat j + 1))
    as (ls & Hls & Hne & Hnum); [lia..|].
  destruct (digits_of_str_int (row_index + 1)) as (k & ds & Hds & Hval & Hhead);
    [lia|].
  unfold Xw.parse_ref. rewrite (letters_app _ _ _ Hls Hhead), Hds.
  destruct ls as [|l ls]; [done|]. rewrite Hval, Hnum. f_equal. f_equal; lia.
Qed.

(** X4.  For a row index that is not negative and a column name first
    found at position [j] of the labels, the reference
    [get_excel_cell_reference] builds is an address of the form the
    mapping page expects, and it names exactly row [row_index] and column
    [j] (both counted from 0). *)
Theorem cell_reference_parses row_index col_name column_names j :
  (0 ≤ row_index)%Z →
  column_names !! j = Some col_name →
  (∀ i, i < j → column_names !! i ≠ Some col_name) →
  Xw.parse_ref (get_excel_cell_reference row_index col_name column_names)
  = Some (Z.to_nat row_index, j).
Proof. apply cell_reference_parse_ref. Qed.

Lemma cell_reference_parses_witness :
  Xw.parse_ref (get_excel_cell_reference 104 "c28"
                  (replicate 27 "x" ++ ["c28"])%list)
  = Some (104, 27).
Proof.
  apply (cell_reference_parses 104 "c28" (replicate 27 "x" ++ ["c28"])%list 27).
  - lia.
  - reflexivity.
  - intros i Hi Heq.
    assert (Hx : replicate 27 "x" !! i = Some "c28").
    { rewrite <- Heq. symmetry. apply lookup_app_l.
      rewrite length_replicate. lia. }
    apply lookup_replicate in Hx as [Hx _]. discriminate.
Defined.

(** ** Template dimensions and preview *)

Lemma read_excel_frame path sheet_name w df :
  (read_excel path sheet_name w).2 = Ok df →
  ∃ sh, df = Pd.frame_of_sheet sh.
Proof.
  destruct (disk_table (files w) path) as [df0|] eqn:Hd.
  - unfold disk_table in Hd.
    destruct (files w !! path) as [[|[n sh] ss]|] eqn:Hf; try done.
    destruct sheet_name as [name|].
    + rewrite read_excel_named, Hf.
      destruct (list_find _ ((n, sh) :: ss)) as [[i [n' sh']]|]; simpl;
        [|done]. intros [= <-]. eauto.
    + rewrite (read_excel_first _ _ _ _ _ Hf). simpl. intros [= <-]. eauto.
  - by rewrite read_excel_unparsable.
Qed.

Lemma read_excel_rect path sheet_name w df :
  (read_excel path sheet_name w).2 = Ok df →
  Forall (λ row, length row = length (columns df)) (values df).
Proof.
  intros [sh ->]%read_excel_frame. apply frame_of_sheet_rect.
Qed.

Lemma preview_labels nc e :
  (((λ i, _get_excel_col_name (Z.of_nat i + 1)) <$> seq 0 nc)
   ++ ((λ i, _get_excel_col_name (Z.of_nat nc + Z.of_nat i + 1)) <$> seq 0 e))%list
  = (λ j, _get_excel_col_name (Z.of_nat j + 1)) <$> seq 0 (nc + e).
Proof.
  rewrite seq_app, fmap_app. f_equal. cbn [Nat.add].
  replace (seq nc e) with (Nat.add nc <$> seq 0 e)
    by (rewrite fmap_add_seq; f_equal; lia).
  rewrite <- list_fmap_compose.
  apply list_fmap_ext. intros _ i _. simpl. f_equal. lia.
Qed.

Lemma get_template_preview_eq path sheet_name e w :
  (get_template_preview path sheet_name e w).2 =
  match (read_excel path sheet_name w).2 with
  | Ok df =>
      if Pd.empty df then Ok (mkDataFrame [] [])
      else
        Ok (mkDataFrame
              ((λ j, Str (_get_excel_col_name (Z.of_nat j + 1)))
                 <$> seq 0 (length (columns df) + e))
              (((λ row, row ++ replicate e (Str "")) <$> values df)
               ++ replicate e (replicate (length (columns df) + e) (Str "")))%list)
  | Raise err => Raise (Exception "Error creating template preview: " err)
  end.
Proof.
  unfold get_template_preview, try_except, bind.
  pose proof (read_excel_rect path sheet_name w) as Hrect.
  destruct (read_excel path sheet_name w) as [w' [df|err]]; [|done].
  cbn [snd] in *. specialize (Hrect df eq_refl).
  destruct (Pd.empty df); [done|]. unfold ret. cbn [snd]. f_equal.
  rewrite preview_labels. unfold iloc_assign, full_frame. cbn [columns values].
  rewrite length_fmap, length_seq, <- list_fmap_compose. f_equal.
  set (nc := length (columns df)) in *. set (nr := length (values df)).
  apply list_eq. intros i. rewrite list_lookup_imap.
  destruct (decide (i < nr)) as [Hi|Hi].
  - rewrite lookup_replicate_2 by lia. cbn [fmap option_fmap option_map].
    destruct (lookup_lt_is_Some_2 (values df) i Hi) as [row Hrow].
    rewrite lookup_app_l by (rewrite length_fmap; done).
    rewrite list_lookup_fmap, Hrow. cbn.
    assert (Hlen : length row = nc).
    { eapply Forall_forall in Hrect; [exact Hrect|].
      by eapply list_elem_of_lookup_2. }
    rewrite take_ge by lia. rewrite drop_replicate.
    by replace (nc + e - nc) with e by lia.
  - rewrite lookup_app_r by (rewrite length_fmap; fold nr; lia).
    rewrite length_fmap. fold nr.
    destruct (decide (i < nr + e)) as [Hi'|Hi'].
    + pose proof (lookup_replicate_2 (nr + e)
                    (replicate (nc + e) (Str "")) i Hi') as H1.
      pose proof (lookup_replicate_2 e
                    (replicate (nc + e) (Str "")) (i - nr) ltac:(lia)) as H2.
      fold nc nr in H1. by rewrite H1, H2.
    + pose proof (proj1 (lookup_replicate_None (nr + e)
                    (replicate (nc + e) (Str "")) i) ltac:(lia)) as H1.
      pose proof (proj1 (lookup_replicate_None e
                    (replicate (nc + e) (Str "")) (i - nr)) ltac:(lia)) as H2.
      by rewrite H1, H2.
Qed.

(** X5.  When [read_excel] returns a frame that is not empty for the
    template sheet, the preview holds every row of that frame (the rows of
    the sheet as read, the header row not among them) followed by
    [extra_space] empty strings, and after them [extra_space] rows of empty
    strings; so it has [extra_space] more rows and [extra_space] more cells
    per row than the frame read. *)
Theorem preview_pads_template path sheet_name e w df :
  (read_excel path sheet_name w).2 = Ok df → Pd.empty df = false →
  ∃ prev,
    (get_template_preview path sheet_name e w).2 = Ok prev ∧
    values prev
    = (((λ row, row ++ replicate e (Str "")) <$> values df)
       ++ replicate e (replicate (length (columns df) + e) (Str "")))%list ∧
    length (values prev) = length (values df) + e ∧
    Forall (λ row, length row = length (columns df) + e) (values prev).
Proof.
  intros Hread Hne. pose proof (read_excel_rect _ _ _ _ Hread) as Hrect.
  rewrite get_template_preview_eq, Hread, Hne. eexists. split; [done|].
  cbn [values]. split; [done|]. split.
  - by rewrite length_app, length_fmap, length_replicate.
  - apply Forall_app. split.
    + apply Forall_fmap. eapply Forall_impl; [exact Hrect|]. simpl.
      intros row Hrow. by rewrite length_app, length_replicate, Hrow.
    + apply Forall_replicate. by rewrite length_replicate.
Qed.

Lemma preview_pads_template_witness :
  ∃ prev,
    (get_template_preview "R1.xlsx" None 1 example_world).2 = Ok prev ∧
    values prev = [[Str "FundA"; Int 10; Str ""];
                   [Str "FundB"; Int 20; Str ""];
                   [Str "FundA"; Int 30; Str ""];
                   [Str ""; Str ""; Str ""]].
Proof.
  destruct (preview_pads_template "R1.xlsx" None 1 example_world
              (Pd.frame_of_sheet [[Str "Fund"; Str "Value"];
                                  [Str "FundA"; Int 10];
                                  [Str "FundB"; Int 20];
                                  [Str "FundA"; Int 30]]))
    as (prev & Hprev & Hvalues & _);
    [vm_compute; reflexivity | reflexivity |].
  exists prev. split; [exact Hprev|]. exact Hvalues.
Defined.

Lemma col_label_inj :
  Inj (=) (=) (λ j : nat, Str (_get_excel_col_name (Z.of_nat j + 1))).
Proof.
  intros i j [= Heq].
  destruct (col_name_decodes (Z.to_nat (Z.of_nat i + 1)) (Z.of_nat i + 1))
    as (ls & Hls & _ & Hnum); [lia..|].
  destruct (col_name_decodes (Z.to_nat (Z.of_nat j + 1)) (Z.of_nat j + 1))
    as (ls' & Hls' & _ & Hnum'); [lia..|].
  rewrite Heq, Hls' in Hls. injection Hls as <-. lia.
Qed.

(** X6.  The labels of the preview of a sheet that is not empty are the
    names [_get_excel_col_name] gives to the columns 1, 2, ... in this
    order, one for each cell of a row, and no label occurs twice. *)
Theorem preview_labels_are_column_names path sheet_name e w df :
  (read_excel path sheet_name w).2 = Ok df → Pd.empty df = false →
  ∃ prev,
    (get_template_preview path sheet_name e w).2 = Ok prev ∧
    columns prev
    = (λ j, Str (_get_excel_col_name (Z.of_nat j + 1)))
        <$> seq 0 (length (columns df) + e) ∧
    NoDup (columns prev).
Proof.
  intros Hread Hne. rewrite get_template_preview_eq, Hread, Hne.
  eexists. split; [done|]. cbn [columns]. split; [done|].
  apply (NoDup_fmap_2 _ (Inj0 := col_label_inj)), NoDup_seq.
Qed.

Lemma preview_labels_are_column_names_witness :
  ∃ prev,
    (get_template_preview "R1.xlsx" None 1 example_world).2 = Ok prev ∧
    columns prev = [Str "A"; Str "B"; Str "C"].
Proof.
  destruct (preview_labels_are_column_names "R1.xlsx" None 1 example_world
              (Pd.frame_of_sheet [[Str "Fund"; Str "Value"];
                                  [Str "FundA"; Int 10];
                                  [Str "FundB"; Int 20];
                                  [Str "FundA"; Int 30]]))
    as (prev & Hprev & Hcols & _);
    [vm_compute; reflexivity | reflexivity |].
  exists prev. split; [exact Hprev|]. exact Hcols.
Defined.

Lemma get_template_dimensions_eq path sheet_name w :
  (get_template_dimensions path sheet_name w).2 =
  match (read_excel path sheet_name w).2 with
  | Ok df => Ok (length (values df), length (columns df))
  | Raise err => Raise (Exception "Error getting template dimensions: " err)
  end.
Proof.
  unfold get_template_dimensions, try_except, bind.
  by destruct (read_excel path sheet_name w) as [w' [df|err]].
Qed.

(** X7.  Whenever [get_template_dimensions] returns [(r, c)],
    [get_template_preview] returns too: a frame without rows and labels
    when [r] or [c] is 0, and otherwise one of [r + extra_space] rows and
    [c + extra_space] labels.  Whenever it raises, the preview raises for
    the same underlying reason, each under its own message. *)
Theorem preview_follows_dimensions path sheet_name e w :
  match (get_template_dimensions path sheet_name w).2 with
  | Ok (r, c) =>
      ∃ prev,
        (get_template_preview path sheet_name e w).2 = Ok prev ∧
        (length (values prev), length (columns prev))
        = if decide (r = 0 ∨ c = 0) then (0, 0) else (r + e, c + e)
  | Raise err =>
      ∃ err0,
        err = Exception "Error getting template dimensions: " err0 ∧
        (get_template_preview path sheet_name e w).2
        = Raise (Exception "Error creating template preview: " err0)
  end.
Proof.
  rewrite get_template_dimensions_eq, get_template_preview_eq.
  destruct (read_excel path sheet_name w).2 as [df|err]; [|eauto].
  unfold Pd.empty.
  destruct (values df) as [|row rows] eqn:Hv, (columns df) as [|c cs] eqn:Hc;
    simpl; eexists; (split; [done|]); simpl; try done.
  by rewrite length_app, !length_fmap, length_replicate, length_seq.
Qed.

(** ** The fund codes of all reports *)

#[global] Instance str_le_trans : Transitive Py.str_le.
Proof.
  intros s1 s2 s3 H12 H23. unfold Py.str_le in *.
  apply Is_true_true. apply Is_true_true in H12, H23.
  exact (transitivity (R := String.le) H12 H23).
Qed.

#[global] Instance str_le_antisym : AntiSymm (=) Py.str_le.
Proof. intros s1 s2. apply String.leb_antisym. Qed.

(** A sorted list without duplicates is determined by its elements. *)
Lemma sorted_set_unique (l1 l2 : list string) :
  Sorted Py.str_le l1 → Sorted Py.str_le l2 → NoDup l1 → NoDup l2 →
  (∀ x, x ∈ l1 ↔ x ∈ l2) → l1 = l2.
Proof.
  intros Hs1 Hs2 Hn1 Hn2 Hel.
  apply (Sorted_unique Py.str_le); [done..|]. by apply NoDup_Permutation.
Qed.

Lemma all_codes_loop_spec (files0 : list string) (acc : gset string) w :
  ∃ w', all_codes_loop files0 acc w
        = (w', Ok (acc ∪ list_to_set (concat (extracted w <$> files0))))
        ∧ files w' = files w.
Proof.
  revert acc w. induction files0 as [|f rest IH]; intros acc w;
    cbn [all_codes_loop].
  - exists w. split; [|done]. unfold ret. do 2 f_equal.
    rewrite fmap_nil. cbn [concat].
    by rewrite list_to_set_nil, (right_id_L ∅ (∪)).
  - unfold bind at 1, try_except, bind at 1.
    unfold extracted at 1. rewrite fmap_cons. cbn [concat].
    rewrite get_fund_codes_eq.
    destruct (disk_table (files w) f) as [df|] eqn:Hd; cbn [snd].
    + destruct (codes_of_frame df) as [|c cs] eqn:Hc; cbv beta iota.
      * destruct (IH acc (log (Parsed f) w)) as (w' & Hloop & Hw').
        exists w'. split; [|done]. unfold ret at 1.
        by rewrite Hloop, extracted_log.
      * destruct (IH (acc ∪ list_to_set (c :: cs)) (log (Parsed f) w))
          as (w' & Hloop & Hw').
        exists w'. split; [|done]. unfold ret at 1.
        rewrite Hloop, extracted_log. do 2 f_equal.
        by rewrite list_to_set_app_L, (assoc_L (∪)).
    + cbv beta iota. destruct (IH acc w) as (w' & Hloop & Hw').
      exists w'. split; [|done]. unfold ret at 1. by rewrite Hloop.
Qed.

Lemma get_all_fund_codes_eq (files0 : list string) w :
  (get_all_fund_codes files0 w).2
  = Ok (merge_sort Py.str_le
          (elements (list_to_set (C := gset string)
                       (concat (extracted w <$> files0))))).
Proof.
  unfold get_all_fund_codes, bind.
  destruct (all_codes_loop_spec files0 ∅ w) as (w' & -> & _). unfold ret.
  cbn [snd]. by rewrite (left_id_L ∅ (∪)).
Qed.

Lemma elem_of_all_codes (files0 : list string) w code :
  code ∈ merge_sort Py.str_le
           (elements (list_to_set (C := gset string)
                        (concat (extracted w <$> files0))))
  ↔ ∃ f, f ∈ files0 ∧ reports_code w code f = true.
Proof.
  rewrite merge_sort_Permutation, elem_of_elements, elem_of_list_to_set,
    elem_of_concat. split.
  - intros (l & Hc & Hl). apply list_elem_of_fmap in Hl as (f & -> & Hf).
    exists f. by rewrite reports_code_extracted.
  - intros (f & Hf & Hc). exists (extracted w f).
    rewrite <- reports_code_extracted. split; [done|].
    by apply list_elem_of_fmap_2.
Qed.

(** X9.  [get_all_fund_codes] never raises, whichever report files fail;
    the list it returns is sorted, has no duplicates, and holds exactly the
    codes that the extraction from some report file of the list yields. *)
Theorem all_fund_codes_is_the_union (report_files : list string) w :
  ∃ codes,
    (get_all_fund_codes report_files w).2 = Ok codes ∧
    Sorted Py.str_le codes ∧ NoDup codes ∧
    ∀ code, code ∈ codes ↔
            ∃ f, f ∈ report_files ∧ reports_code w code f = true.
Proof.
  eexists. split; [apply get_all_fund_codes_eq|].
  split; [apply (Sorted_merge_sort Py.str_le)|]. split.
  - rewrite merge_sort_Permutation. apply NoDup_elements.
  - apply elem_of_all_codes.
Qed.

(** X10.  The codes [get_all_fund_codes] offers for selection are exactly
    the keys of the counts [analyze_fund_codes] shows for the same report
    files, and there are as many of the ones as of the others. *)
Theorem all_fund_codes_are_the_counted (report_files : list string)
    sheet_name w :
  ∃ codes counts,
    (get_all_fund_codes report_files w).2 = Ok codes ∧
    (analyze_fund_codes report_files sheet_name w).2 = Ok counts ∧
    (∀ code, code ∈ codes ↔ is_Some (counts !! code)) ∧
    length codes = size counts.
Proof.
  eexists _, _. split; [apply get_all_fund_codes_eq|].
  split; [apply analyze_fund_codes_eq|].
  assert (Hiff : ∀ code,
            code ∈ merge_sort Py.str_le
                     (elements (list_to_set (C := gset string)
                                  (concat (extracted w <$> report_files))))
            ↔ is_Some (Counter (concat (extracted w <$> report_files)) !! code)).
  { intros code.
    by rewrite Counter_is_Some, merge_sort_Permutation, elem_of_elements,
      elem_of_list_to_set. }
  split; [exact Hiff|].
  rewrite merge_sort_Permutation. rewrite <- size_dom.
  change (length (elements ?X)) with (size X). f_equal.
  apply set_eq. intros code. rewrite elem_of_dom, <- Hiff.
  by rewrite merge_sort_Permutation, elem_of_elements.
Qed.

(** X11.  Every count [analyze_fund_codes] reports is at least 1 and at
    most the number of files analysed. *)
Theorem analyze_counts_bounded (files0 : list string) sheet_name w :
  ∃ counts,
    (analyze_fund_codes files0 sheet_name w).2 = Ok counts ∧
    ∀ code n, counts !! code = Some n → 1 ≤ n ≤ length files0.
Proof.
  eexists. split; [apply analyze_fund_codes_eq|]. intros code n Hn.
  pose proof (Counter_count (concat (extracted w <$> files0)) code) as Hc.
  rewrite Hn in Hc. cbn in Hc. subst n.
  assert (Hin : code ∈ concat (extracted w <$> files0)).
  { apply Counter_is_Some. eauto. }
  rewrite count_concat
    by (apply Forall_fmap, Forall_forall; intros f _; apply extracted_NoDup).
  split.
  - apply elem_of_concat in Hin as (l & Hcl & Hl).
    assert (Hf : l ∈ filter (λ l, code ∈ l) (extracted w <$> files0))
      by (by apply list_elem_of_filter).
    destruct (filter _ (extracted w <$> files0)); [by apply elem_of_nil in Hf|].
    simpl. lia.
  - etrans; [apply length_filter|]. by rewrite length_fmap.
Qed.

Lemma Counter_lookup l x :
  Counter l !! x
  = if decide (x ∈ l) then Some (length (filter (x =.) l)) else None.
Proof.
  pose proof (Counter_count l x) as Hc. pose proof (Counter_is_Some l x) as Hs.
  destruct (Counter l !! x) as [n|] eqn:Hl.
  - rewrite decide_True by (apply Hs; eauto). simpl in Hc. by rewrite Hc.
  - rewrite decide_False; [done|]. intros Hin. apply Hs in Hin as [? ?]. done.
Qed.

Lemma concat_extracted_perm w (files1 files2 : list string) :
  files1 ≡ₚ files2 →
  concat (extracted w <$> files1) ≡ₚ concat (extracted w <$> files2).
Proof.
  induction 1 as [|f l1 l2 _ IH|f g l|l1 l2 l3 _ IH1 _ IH2].
  - done.
  - rewrite !fmap_cons. cbn [concat]. by rewrite IH.
  - rewrite !fmap_cons. cbn [concat]. rewrite !app_assoc.
    apply Permutation_app_tail, Permutation_app_comm.
  - by etrans.
Qed.

(** X12.  Neither the counts of [analyze_fund_codes] nor the list of
    [get_all_fund_codes] depend on the order in which the report files are
    given. *)
Theorem analysis_ignores_file_order (files1 files2 : list string) sheet_name w :
  files1 ≡ₚ files2 →
  (analyze_fund_codes files1 sheet_name w).2
  = (analyze_fund_codes files2 sheet_name w).2 ∧
  (get_all_fund_codes files1 w).2 = (get_all_fund_codes files2 w).2.
Proof.
  intros Hperm. pose proof (concat_extracted_perm w _ _ Hperm) as Hc. split.
  - rewrite !analyze_fund_codes_eq. f_equal. apply map_eq. intros x.
    rewrite !Counter_lookup.
    destruct (decide (x ∈ concat (extracted w <$> files1))) as [Hin|Hin].
    + rewrite decide_True by (by rewrite <- Hc). by rewrite Hc.
    + rewrite decide_False by (by rewrite <- Hc). done.
  - rewrite !get_all_fund_codes_eq. do 3 f_equal.
    apply set_eq. intros x. by rewrite !elem_of_list_to_set, Hc.
Qed.

Lemma analysis_ignores_file_order_witness :
  (get_all_fund_codes ["R1.xlsx"; "R2.xlsx"] example_world).2
  = (get_all_fund_codes ["R2.xlsx"; "R1.xlsx"] example_world).2.
Proof.
  apply (analysis_ignores_file_order ["R1.xlsx"; "R2.xlsx"]
           ["R2.xlsx"; "R1.xlsx"] None example_world).
  apply perm_swap.
Defined.

Lemma clean_code_valid c code :
  clean_code c = Some code →
  Py.strip code = code ∧ code ≠ "" ∧ Py.lower code ≠ "nan".
Proof.
  unfold clean_code. destruct (Pd.notna c); [|done].
  destruct (negb (String.eqb (Py.strip (Pd.str c)) "")
            && negb (String.eqb (Py.lower (Py.strip (Pd.str c))) "nan")) eqn:Hok;
    [|done].
  intros [= <-]. apply andb_true_iff in Hok as [H1 H2].
  apply negb_true_iff, String.eqb_neq in H1, H2.
  split; [apply strip_idem|done].
Qed.

(** X13.  Every code [get_fund_codes] returns is a trimmed string that is
    not empty and is not "nan" in any mix of capitals; the codes come
    sorted and without duplicates. *)
Theorem extracted_codes_are_clean path sheet_name w codes :
  (get_fund_codes path sheet_name w).2 = Ok codes →
  Sorted Py.str_le codes ∧ NoDup codes ∧
  ∀ code, code ∈ codes →
          Py.strip code = code ∧ code ≠ "" ∧ Py.lower code ≠ "nan".
Proof.
  intros (df & _ & Hn & Hs & Hmem)%get_fund_codes_result.
  split; [done|]. split; [done|].
  intros code (_ & r & _ & Hclean)%Hmem. by eapply clean_code_valid.
Qed.

Lemma extracted_codes_are_clean_witness :
  (get_fund_codes "R2.xlsx" None example_world).2 = Ok ["10"; "FundA"] ∧
  Py.strip "FundA" = "FundA".
Proof.
  assert (Hcodes : (get_fund_codes "R2.xlsx" None example_world).2
                   = Ok ["10"; "FundA"]) by (vm_compute; reflexivity).
  split; [exact Hcodes|].
  destruct (extracted_codes_are_clean _ _ _ _ Hcodes) as (_ & _ & Hclean).
  apply (Hclean "FundA"). right. left.
Defined.

Lemma codes_of_blank_rows (rows : list (list cell)) :
  Forall (λ r, r = []) rows → omap clean_code (Pd.col0 <$> rows) = [].
Proof.
  induction 1 as [|r rows -> _ IH]; [done|]. rewrite fmap_cons. simpl.
  exact IH.
Qed.

Lemma codes_of_frame_rect df :
  rectangular df →
  codes_of_frame df
  = merge_sort Py.str_le
      (remove_dups (omap clean_code (Pd.col0 <$> drop 1 (values df)))).
Proof.
  intros Hrect. unfold codes_of_frame, Pd.empty.
  destruct (bool_decide (values df = [])) eqn:Hv.
  - apply bool_decide_eq_true in Hv. by rewrite Hv.
  - destruct (bool_decide (columns df = [])) eqn:Hc; [|done].
    apply bool_decide_eq_true in Hc. cbn [orb].
    rewrite codes_of_blank_rows; [done|]. apply Forall_drop.
    eapply Forall_impl; [exact Hrect|]. simpl. rewrite Hc.
    intros r Hr. by destruct r.
Qed.

Lemma read_excel_disk_table path w df :
  (read_excel path None w).2 = Ok df → disk_table (files w) path = Some df.
Proof.
  destruct (disk_table (files w) path) as [df0|] eqn:Hd.
  - unfold disk_table in Hd.
    destruct (files w !! path) as [[|[n sh] ss]|] eqn:Hf; try done.
    rewrite (read_excel_first _ _ _ _ _ Hf). simpl. congruence.
  - by rewrite read_excel_unparsable.
Qed.

(** X15.  The result of [get_fund_codes] depends only on which cleaned
    codes occur in column 0 of the frame read from the file, below its
    first row (which the code skips): not on the order of the rows nor on
    how often a code occurs.  Two files whose frames have the same such
    codes give the same list. *)
Theorem fund_codes_ignore_row_order path1 path2 w1 w2 df1 df2 :
  (read_excel path1 None w1).2 = Ok df1 →
  (read_excel path2 None w2).2 = Ok df2 →
  (∀ code, code ∈ omap clean_code (Pd.col0 <$> drop 1 (values df1))
           ↔ code ∈ omap clean_code (Pd.col0 <$> drop 1 (values df2))) →
  (get_fund_codes path1 None w1).2 = (get_fund_codes path2 None w2).2.
Proof.
  intros Hr1 Hr2 Hsame. rewrite !get_fund_codes_eq.
  rewrite (read_excel_disk_table _ _ _ Hr1), (read_excel_disk_table _ _ _ Hr2).
  cbn [snd]. rewrite !codes_of_frame_rect by (by eapply read_excel_rect).
  f_equal. apply sorted_set_unique.
  - apply (Sorted_merge_sort Py.str_le).
  - apply (Sorted_merge_sort Py.str_le).
  - rewrite merge_sort_Permutation. apply NoDup_remove_dups.
  - rewrite merge_sort_Permutation. apply NoDup_remove_dups.
  - intros x. by rewrite !merge_sort_Permutation, !elem_of_remove_dups.
Qed.

Lemma fund_codes_ignore_row_order_witness :
  (get_fund_codes "a.xlsx" None
     (mkWorld {[ "a.xlsx" := [("S", [[Str "Fund"]; [Str "skipped"];
                                     [Str "B"]; [Str "A"]; [Str "B"]])] ]}
        true [])).2
  = (get_fund_codes "R1.xlsx" None
       (mkWorld {[ "R1.xlsx" := [("S", [[Str "Fund"]; [Str "other"];
                                        [Str "A"]; [Str "B"]])] ]}
          true [])).2.
Proof.
  eapply (fund_codes_ignore_row_order "a.xlsx" "R1.xlsx" _ _
            (mkDataFrame [Str "Fund"]
               [[Str "skipped"]; [Str "B"]; [Str "A"]; [Str "B"]])
            (mkDataFrame [Str "Fund"] [[Str "other"]; [Str "A"]; [Str "B"]])).
  - vm_compute. reflexivity.
  - vm_compute. reflexivity.
  - intros code. vm_compute omap.
    rewrite !elem_of_cons, !elem_of_nil. tauto.
Defined.

(** ** Filtering a report, reading a sheet *)



(** The block generation has for a report that is not in the cache is the
    list of rows [filter_report_by_fund] returns for it. *)
Lemma filter_block_of path F fs w (c : gmap string DataFrame) :
  c !! path = None → fs !! path = files w !! path →
  match (filter_report_by_fund path F w).2 with
  | Ok df' => block_of fs c F path = values df'
  | Raise _ => block_of fs c F path = [] ∨
               ∃ df, table_of fs c path = Some df ∧ columns df = []
  end.
Proof.
  intros Hc Hfs. rewrite filter_report_by_fund_eq. unfold block_of, table_of.
  rewrite Hc. unfold disk_table. rewrite Hfs.
  fold (disk_table (files w) path).
  destruct (disk_table (files w) path) as [df|]; [|by left].
  destruct (columns df) as [|c0 cs] eqn:Hcols; [right; eauto|done].
Qed.

Lemma get_sheet_names_eq path w :
  (get_sheet_names path w).2 =
  match files w !! path with
  | Some (s :: ss) => Ok (fst <$> s :: ss)
  | _ => Raise (Exception "Error getting sheet names: " (CannotOpen path))
  end.
Proof.
  unfold get_sheet_names, try_except, bind, PdIO.ExcelFile.
  by destruct (files w !! path) as [[|s ss]|].
Qed.

(** X18.  Every sheet name [get_sheet_names] lists can be read by
    [read_excel], and reading without a sheet name gives the same frame as
    reading the first name listed.  [get_sheet_names] raises exactly when
    [read_excel] without a sheet name does. *)
Theorem listed_sheets_can_be_read path w :
  match (get_sheet_names path w).2 with
  | Ok names =>
      (∀ name, name ∈ names →
               ∃ df, (read_excel path (Some name) w).2 = Ok df) ∧
      ∃ first others, names = first :: others ∧
        (read_excel path None w).2 = (read_excel path (Some first) w).2
  | Raise _ => ∃ e, (read_excel path None w).2 = Raise e
  end.
Proof.
  rewrite get_sheet_names_eq.
  destruct (files w !! path) as [[|[n sh] ss]|] eqn:Hf.
  - exists (Exception "Error reading Excel file: " (CannotOpen path)).
    rewrite read_excel_unparsable; [done|]. unfold disk_table. by rewrite Hf.
  - split.
    + intros name Hname. rewrite read_excel_named, Hf.
      destruct (list_find (λ ns : string * list (list cell), ns.1 = name)
                  ((n, sh) :: ss)) as [[i [n' sh']]|] eqn:Hfind; [eauto|].
      apply list_find_name_None in Hfind. done.
    + exists n, (fst <$> ss). split; [done|].
      rewrite (read_excel_first _ _ _ _ _ Hf), read_excel_named, Hf.
      cbn [list_find]. rewrite decide_True by done. done.
  - exists (Exception "Error reading Excel file: " (CannotOpen path)).
    rewrite read_excel_unparsable; [done|]. unfold disk_table. by rewrite Hf.
Qed.

(** ** What generation does to the workbook and to the files *)

Lemma pasted_sheets_app evs1 evs2 :
  pasted_sheets (evs1 ++ evs2) = (pasted_sheets evs1 ++ pasted_sheets evs2)%list.
Proof. apply omap_app. Qed.

#[global] Instance touches_refl : Reflexive touches.
Proof.
  intros s. split; [done|]. exists []. rewrite app_nil_r. split; [done|].
  split; [done|]. intros sn cr b Hin. by apply elem_of_nil in Hin.
Qed.

#[global] Instance touches_trans : Transitive touches.
Proof.
  intros s1 s2 s3 (Hn1 & evs1 & Ht1 & Hk1 & Hv1) (Hn2 & evs2 & Ht2 & Hk2 & Hv2).
  split; [congruence|]. exists (evs1 ++ evs2)%list.
  split; [by rewrite Ht2, Ht1, app_assoc|]. split.
  - intros i n sh Hi Hnot. rewrite pasted_sheets_app in Hnot.
    apply not_elem_of_app in Hnot as [Hnot1 Hnot2]. eauto.
  - intros sn cr b [Hin|Hin]%elem_of_app; [eauto|].
    rewrite <- Hn1. eauto.
Qed.

(** The combinators of the monad keep any relation between the state
    before and after that is reflexive and transitive. *)
Section relations.
Context {S : Type} (R : relation S) `{!Reflexive R, !Transitive R}.

Lemma keeps_ret {A} (a : A) : keeps R (ret a).
Proof. by intros s s' r [= <- <-]. Qed.

Lemma keeps_throw {A} e : keeps R (throw (A := A) e).
Proof. by intros s s' r [= <- <-]. Qed.

Lemma keeps_lift_result {A} (x : result A) : keeps R (lift_result x).
Proof. by intros s s' r [= <- <-]. Qed.

Lemma keeps_bind {A B} (m : M S A) (k : A → M S B) :
  keeps R m → (∀ a, keeps R (k a)) → keeps R (bind m k).
Proof.
  intros Hm Hk s s' r. unfold bind. destruct (m s) as [s1 [a|e]] eqn:Hms.
  - intros Hka. etrans; [by eapply Hm|by eapply Hk].
  - intros [= <- <-]. by eapply Hm.
Qed.

Lemma keeps_try_except {A} (m : M S A) (h : exn → M S A) :
  keeps R m → (∀ e, keeps R (h e)) → keeps R (try_except m h).
Proof.
  intros Hm Hh s s' r. unfold try_except.
  destruct (m s) as [s1 [a|e]] eqn:Hms.
  - intros [= <- <-]. by eapply Hm.
  - intros Hhe. etrans; [by eapply Hm|by eapply Hh].
Qed.

Lemma keeps_for_each {A} (l : list A) (body : A → M S unit) :
  (∀ x, keeps R (body x)) → keeps R (for_each l body).
Proof.
  intros Hbody. induction l as [|x l IH]; cbn [for_each].
  - apply keeps_ret.
  - apply keeps_bind; [apply Hbody|]. intros _. apply IH.
Qed.
End relations.

Lemma update_sheet_names sn f (wb : list (string * list (list cell))) :
  fst <$> update_sheet sn f wb = fst <$> wb.
Proof.
  unfold update_sheet.
  destruct (list_find (λ ns : string * list (list cell), ns.1 = sn) wb)
    as [[i [n sh]]|] eqn:Hfind; [|done].
  apply list_find_Some in Hfind as (Hi & _ & _).
  rewrite list_fmap_insert. cbn [fst]. apply list_insert_id.
  by rewrite list_lookup_fmap, Hi.
Qed.

Lemma update_sheet_other sn f (wb : list (string * list (list cell))) i n sh :
  wb !! i = Some (n, sh) → n ≠ sn → update_sheet sn f wb !! i = Some (n, sh).
Proof.
  intros Hi Hne. unfold update_sheet.
  destruct (list_find (λ ns : string * list (list cell), ns.1 = sn) wb)
    as [[j [n' sh']]|] eqn:Hfind; [|done].
  apply list_find_Some in Hfind as (Hj & Hn' & _). cbn [fst] in Hn'.
  rewrite list_lookup_insert_ne; [done|]. intros ->. congruence.
Qed.

Lemma paste_touches sheet_name cv : keeps touches (paste sheet_name cv).
Proof.
  intros s s' r. unfold paste, bind, get_sheet, lift_result.
  destruct (list_find _ (s_book s)) as [[i [n sh]]|] eqn:Hfind;
    [|by intros [= <- <-]].
  destruct (write_block sh cv.1 cv.2) as [sh'|e] eqn:Hw;
    intros [= <- <-]; [|done].
  split; [apply update_sheet_names|].
  exists [Pasted sheet_name cv.1 cv.2]. split; [done|]. split.
  - intros j m shj Hj Hnot. cbn [s_book]. apply update_sheet_other; [done|].
    intros ->. apply Hnot. simpl. left.
  - intros sn cr b Hin. apply list_elem_of_singleton in Hin.
    injection Hin as -> -> ->.
    apply list_find_Some in Hfind as (Hi & Hname & _). cbn [fst] in Hname.
    split; [|split].
    + apply list_elem_of_fmap. exists (n, sh). split; [done|].
      by eapply list_elem_of_lookup_2.
    + unfold write_block in Hw. by destruct (Xw.parse_ref cv.1).
    + unfold write_block in Hw. destruct (Xw.parse_ref cv.1) as [[]|]; [|done].
      by destruct cv.2.
Qed.

Lemma load_report_touches p : keeps touches (load_report p).
Proof.
  intros s s' r. rewrite load_report_eq.
  destruct (s_cache s !! p); [by intros [= <- <-]|].
  destruct (disk_table (files (s_world s)) p); intros [= <- <-]; [|done].
  split; [done|]. exists [Parsed p]. split; [done|]. split; [done|].
  intros sn cr b Hin. apply list_elem_of_singleton in Hin. discriminate.
Qed.

Lemma get_sheet_touches sn : keeps touches (get_sheet sn).
Proof.
  intros s s' r. unfold get_sheet.
  by destruct (list_find _ (s_book s)) as [[i [n sh]]|]; intros [= <- <-].
Qed.

Lemma process_report_touches F item : keeps touches (process_report F item).
Proof.
  destruct item as [p ms]. unfold process_report.
  apply (keeps_try_except touches); [|intros e; apply (keeps_throw touches)].
  apply (keeps_bind touches); [apply load_report_touches|]. intros df.
  apply (keeps_bind touches); [apply (keeps_lift_result touches)|]. intros fdf.
  destruct (Pd.empty fdf); [apply (keeps_ret touches)|].
  apply (keeps_bind touches); [apply (keeps_lift_result touches)|]. intros sms.
  apply (keeps_for_each touches). intros sm.
  apply (keeps_bind touches); [apply get_sheet_touches|]. intros _.
  apply (keeps_for_each touches). intros cv. apply paste_touches.
Qed.

(** The workbook a returning call leaves in the output file, against the
    template. *)
Lemma generate_returned_book t o ms F rc w w' c' rc' :
  generate_populated_template t o ms F rc w = (w', c', Returned rc') →
  ∃ tpl out evs,
    files w !! t = Some tpl ∧ files w' !! o = Some out ∧
    trace w' = (trace w ++ evs)%list ∧
    fst <$> out = fst <$> tpl ∧
    (∀ i n sh, tpl !! i = Some (n, sh) → n ∉ pasted_sheets evs →
               out !! i = Some (n, sh)) ∧
    (∀ sn cr b, Pasted sn cr b ∈ evs →
                sn ∈ fst <$> tpl ∧ is_Some (Xw.parse_ref cr) ∧ b ≠ []).
Proof.
  unfold generate_populated_template.
  destruct (copy2 t o w) as [w1 [u|e]] eqn:Hcopy; [|done].
  apply copy2_returns in Hcopy as (Hw1 & Ho & [tpl Ht]).
  assert (Htr1 : trace w1 = trace w) by (by rewrite Hw1).
  unfold with_app. cbn [fst snd].
  destruct (engine_ok w1); [|done]. rewrite Ho, Ht.
  destruct (for_each (group_by_report ms) (process_report F)
              (mkSession w1 (default ∅ rc) tpl)) as [s [u'|e]] eqn:Hloop;
    [|done].
  apply (keeps_for_each touches) in Hloop;
    [|intros item; apply process_report_touches].
  destruct Hloop as (Hnames & evs & Htr & Hkeep & Hvalid).
  cbn [s_world s_book] in *. intros [= <- <- <-].
  exists tpl, (s_book s), evs. split; [done|].
  split; [cbn [files set_files]; by rewrite lookup_insert_eq|].
  split; [cbn [trace set_files]; congruence|]. done.
Qed.

Lemma copied_other fs t o q : q ≠ o → copied fs t o !! q = fs !! q.
Proof.
  intros Hq. unfold copied. destruct (fs !! t); [|done].
  by rewrite lookup_insert_ne.
Qed.

Lemma generate_files_other t o ms F rc w q :
  q ≠ o →
  files (generate_populated_template t o ms F rc w).1.1 !! q = files w !! q.
Proof.
  intros Hq.
  destruct (generate_populated_template t o ms F rc w) as [[w' c'] out] eqn:Hgen.
  apply generate_spec in Hgen. cbn [fst].
  destruct (copy2 t o w) as [w1 [u|e]] eqn:Hcopy.
  - apply copy2_returns in Hcopy as (-> & _ & _). cbn [files set_files] in Hgen.
    destruct Hgen as (_ & evs & _ & _ & Hout). destruct out as [rc'|e].
    + destruct Hout as (_ & [book ->] & _).
      by rewrite lookup_insert_ne, copied_other.
    + destruct Hout as (-> & _). by rewrite lookup_delete_ne, copied_other.
  - by destruct Hgen as (-> & _).
Qed.

(** X19.  Whatever its outcome, a call of [generate_populated_template]
    leaves every file other than the one at the output path as it was: it
    never changes the template or a report that is not the output. *)
Theorem generate_touches_only_output t o ms F rc w q :
  q ≠ o →
  files (generate_populated_template t o ms F rc w).1.1 !! q = files w !! q.
Proof. apply generate_files_other. Qed.

Lemma generate_touches_only_output_witness :
  files (generate_populated_template "template.xlsx" "out.xlsx"
           example_mappings "FundA" None example_world).1.1 !! "R1.xlsx"
  = Some example_report.
Proof.
  rewrite (generate_touches_only_output "template.xlsx" "out.xlsx"
             example_mappings "FundA" None example_world "R1.xlsx");
    [|discriminate].
  vm_compute. reflexivity.
Defined.

Lemma elem_of_pasted ev evs :
  ev ∈ pasted evs ↔ ev ∈ evs ∧ ∃ sn cr b, ev = Pasted sn cr b.
Proof.
  unfold pasted. rewrite list_elem_of_omap. split.
  - intros (ev' & Hin & Hev). destruct ev'; [done|]. injection Hev as <-. eauto 6.
  - intros (Hin & sn & cr & b & ->). eauto.
Qed.

Lemma elem_of_pasted_sheets sn evs :
  sn ∈ pasted_sheets evs ↔ ∃ cr b, Pasted sn cr b ∈ evs.
Proof.
  unfold pasted_sheets. rewrite list_elem_of_omap. split.
  - intros (ev & Hin & Hev). destruct ev; [done|]. injection Hev as ->. eauto.
  - intros (cr & b & Hin). eauto.
Qed.

Lemma elem_of_planned_writes fs c F (ms : list (string * mapping_info)) sn cr b :
  Pasted sn cr b ∈ ms ≫= planned_writes fs c F ↔
  ∃ km, km ∈ ms ∧ key_parts km.1 = Some (sn, cr) ∧
        b = block_of fs c F (report km.2) ∧ b ≠ [].
Proof.
  rewrite list_elem_of_bind. unfold planned_writes, writes_for. split.
  - intros (km & Hin & Hkm). exists km. split; [done|].
    destruct (block_of fs c F (report km.2)) as [|r rs];
      [by apply elem_of_nil in Hin|].
    destruct (key_parts km.1) as [[sn' cr']|]; [|by apply elem_of_nil in Hin].
    apply list_elem_of_singleton in Hin. injection Hin as -> -> ->. done.
  - intros (km & Hkm & Hkey & -> & Hne). exists km. split; [|done].
    rewrite Hkey. destruct (block_of fs c F (report km.2)); [done|].
    by apply list_elem_of_singleton.
Qed.

(** What a returning call has pasted, and where. *)
Lemma generate_returned_pastes t o ms F rc w w' c' rc' :
  generate_populated_template t o ms F rc w = (w', c', Returned rc') →
  ∃ tpl out evs,
    files w !! t = Some tpl ∧ files w' !! o = Some out ∧
    trace w' = (trace w ++ evs)%list ∧
    fst <$> out = fst <$> tpl ∧
    (∀ i n sh, tpl !! i = Some (n, sh) → n ∉ pasted_sheets evs →
               out !! i = Some (n, sh)) ∧
    (∀ sn cr b, Pasted sn cr b ∈ evs →
                sn ∈ fst <$> tpl ∧ is_Some (Xw.parse_ref cr)) ∧
    (∀ sn cr b, Pasted sn cr b ∈ evs ↔
       ∃ km, km ∈ ms ∧ key_parts km.1 = Some (sn, cr) ∧
             b = block_of (copied (files w) t o) (default ∅ rc) F (report km.2)
             ∧ b ≠ []) ∧
    (∀ km, km ∈ ms →
           report_done (copied (files w) t o) (default ∅ rc) F (report km.2) [km]).
Proof.
  intros Hgen.
  destruct (generate_returned_book _ _ _ _ _ _ _ _ _ Hgen)
    as (tpl & out & evs & Ht & Ho & Htr & Hnames & Hkeep & Hvalid).
  apply generate_spec in Hgen.
  destruct (copy2 t o w) as [w1 [u|e]] eqn:Hcopy;
    [|by destruct Hgen as (_ & _ & ?)].
  apply copy2_returns in Hcopy as (-> & _ & _). cbn [files set_files] in Hgen.
  destruct Hgen as (_ & evs' & Htr' & _ & _ & _ & Hdone & Hperm).
  assert (evs' = evs) as -> by (apply (app_inv_head (trace w)); congruence).
  exists tpl, out, evs. repeat (split; [done|]).
  split; [intros sn cr b Hin; by destruct (Hvalid sn cr b Hin) as (? & ? & _)|].
  split; [|done]. intros sn cr b.
  rewrite <- elem_of_planned_writes, <- Hperm, elem_of_pasted.
  split; [eauto 6|tauto].
Qed.

(** X20.  When [generate_populated_template] returns, the output workbook
    has the sheets of the template, under the same names and in the same
    order, and every sheet that is not the sheet of some mapping key is
    exactly as in the template. *)
Theorem generate_keeps_other_sheets t o ms F rc w w' c' rc' :
  generate_populated_template t o ms F rc w = (w', c', Returned rc') →
  ∃ tpl out,
    files w !! t = Some tpl ∧ files w' !! o = Some out ∧
    fst <$> out = fst <$> tpl ∧
    ∀ i n sh, tpl !! i = Some (n, sh) →
      (∀ km cr, km ∈ ms → key_parts km.1 ≠ Some (n, cr)) →
      out !! i = Some (n, sh).
Proof.
  intros Hgen.
  destruct (generate_returned_pastes _ _ _ _ _ _ _ _ _ Hgen)
    as (tpl & out & evs & Ht & Ho & _ & Hnames & Hkeep & _ & Hpastes & _).
  exists tpl, out. repeat (split; [done|]).
  intros i n sh Hi Hother. apply Hkeep; [done|].
  intros (cr & b & Hin)%elem_of_pasted_sheets.
  apply Hpastes in Hin as (km & Hkm & Hkey & _). by eapply Hother.
Qed.

(** X22.  A mapping to a report for which generation has no table with a
    column 0 (the report is not in the cache and cannot be read, or its
    table has no columns) makes [generate_populated_template] raise,
    whatever the fund code and whatever the other mappings. *)
Theorem generate_raises_on_unreadable_report t o ms F rc w km :
  km ∈ ms →
  (∀ df, table_of (copied (files w) t o) (default ∅ rc) (report km.2) = Some df →
         columns df = []) →
  ∃ e, (generate_populated_template t o ms F rc w).2 = Raised e.
Proof.
  intros Hkm Hbad.
  destruct (generate_populated_template t o ms F rc w) as [[w' c'] out] eqn:Hgen.
  destruct out as [rc'|e]; [|by exists e]. exfalso.
  destruct (generate_returned_pastes _ _ _ _ _ _ _ _ _ Hgen)
    as (tpl & out & evs & _ & _ & _ & _ & _ & _ & _ & Hdone).
  destruct (Hdone km Hkm) as [(df & Hdf & Hcols) _]. by apply Hcols, Hbad.
Qed.

Lemma generate_keeps_other_sheets_witness :
  ∃ tpl out,
    files example_world !! "template.xlsx" = Some tpl ∧
    files (generate_populated_template "template.xlsx" "out.xlsx"
             example_mappings "FundA" None example_world).1.1 !! "out.xlsx"
    = Some out ∧
    fst <$> out = fst <$> tpl ∧
    ∀ i n sh, tpl !! i = Some (n, sh) →
      (∀ km cr, km ∈ example_mappings → key_parts km.1 ≠ Some (n, cr)) →
      out !! i = Some (n, sh).
Proof.
  pose (r := generate_populated_template "template.xlsx" "out.xlsx"
               example_mappings "FundA" None example_world).
  assert (Hgen : generate_populated_template "template.xlsx" "out.xlsx"
                   example_mappings "FundA" None example_world
                 = (r.1.1, r.1.2, Returned r.1.2))
    by (vm_compute; reflexivity).
  exact (generate_keeps_other_sheets _ _ _ _ _ _ _ _ _ Hgen).
Defined.

Lemma generate_raises_on_unreadable_report_witness :
  ∃ e, (generate_populated_template "template.xlsx" "out.xlsx"
          [("Summary!A5", mkMapping "R1.xlsx" "A5");
           ("Summary!D1", mkMapping "absent.xlsx" "D1")]
          "FundA" None example_world).2 = Raised e.
Proof.
  apply (generate_raises_on_unreadable_report _ _ _ _ _ _
           ("Summary!D1", mkMapping "absent.xlsx" "D1")).
  - right. left.
  - intros df. vm_compute. discriminate.
Defined.

(** ** Mapping keys *)

Lemma split_nonnil sep s : Py.split sep s ≠ [].
Proof.
  destruct s as [|a s]; simpl; [done|].
  destruct (Ascii.eqb a sep); [done|]. by destruct (Py.split sep s).
Qed.

Lemma split_app sep a b :
  Py.split sep (a ++ String sep b) = (Py.split sep a ++ Py.split sep b)%list.
Proof.
  induction a as [|c a IH].
  - rewrite string_app_nil_l. simpl. by rewrite Ascii.eqb_refl.
  - rewrite string_app_cons. simpl. destruct (Ascii.eqb c sep).
    + by rewrite IH.
    + rewrite IH. pose proof (split_nonnil sep a).
      by destruct (Py.split sep a).
Qed.

Lemma split_no_sep sep s : has_char sep s = false → Py.split sep s = [s].
Proof.
  induction s as [|c s IH]; simpl; [done|].
  intros [Hc Hs]%orb_false_iff. by rewrite Hc, (IH Hs).
Qed.

Lemma split_parts sep s p : p ∈ Py.split sep s → has_char sep p = false.
Proof.
  revert p. induction s as [|c s IH]; intros p; simpl.
  - by intros ->%list_elem_of_singleton.
  - destruct (Ascii.eqb c sep) eqn:Hc.
    + intros [->|Hp]%elem_of_cons; [done|]. by apply IH.
    + pose proof (split_nonnil sep s).
      destruct (Py.split sep s) as [|q qs]; [done|].
      intros [->|Hp]%elem_of_cons.
      * simpl. rewrite Hc. apply IH. by left.
      * apply IH. by right.
Qed.

Lemma split_one sep s b : Py.split sep s = [b] → s = b.
Proof.
  revert b. induction s as [|c s IH]; intros b; simpl.
  - by intros [= <-].
  - destruct (Ascii.eqb c sep).
    + intros [= <- Hs]. by destruct (split_nonnil sep s).
    + pose proof (split_nonnil sep s).
      destruct (Py.split sep s) as [|q qs]; [done|].
      intros [= <- ->]. by rewrite (IH q eq_refl).
Qed.

Lemma split_two sep s a b : Py.split sep s = [a; b] → s = a ++ String sep b.
Proof.
  revert a. induction s as [|c s IH]; intros a; simpl; [done|].
  destruct (Ascii.eqb c sep) eqn:Hc.
  - intros [= <- Hs]. apply Ascii.eqb_eq in Hc as ->.
    by rewrite string_app_nil_l, (split_one _ _ _ Hs).
  - pose proof (split_nonnil sep s).
    destruct (Py.split sep s) as [|q qs]; [done|].
    intros [= <- ->]. by rewrite string_app_cons, (IH q eq_refl).
Qed.

Lemma key_parts_spec k sn cr :
  key_parts k = Some (sn, cr) ↔
  k = mapping_key sn cr ∧ has_char "!" sn = false ∧ has_char "!" cr = false.
Proof.
  unfold key_parts, mapping_key. split.
  - destruct (Py.split "!" k) as [|a [|b [|c l]]] eqn:Hk; try done.
    intros [= -> ->]. split; [by apply split_two|].
    split; apply (split_parts "!" k); rewrite Hk; [by left|by right; left].
  - intros (-> & Hsn & Hcr).
    change ("!" ++ cr) with (String "!" cr).
    by rewrite split_app, (split_no_sep _ _ Hsn), (split_no_sep _ _ Hcr).
Qed.

Lemma key_parts_join k sn cr :
  key_parts k = Some (sn, cr) → k = sn +:+ "!" +:+ cr.
Proof. by intros (-> & _)%key_parts_spec. Qed.

(** X21.  [generate_populated_template] returns only if the key of every
    mapping whose report has rows for the fund code splits at the
    exclamation mark into exactly two parts: such a key with no
    exclamation mark, or with more than one, makes the call raise. *)
Theorem generate_returns_only_on_two_part_keys t o ms F rc w w' c' rc' km :
  generate_populated_template t o ms F rc w = (w', c', Returned rc') →
  km ∈ ms →
  block_of (copied (files w) t o) (default ∅ rc) F (report km.2) ≠ [] →
  ∃ sheet_name cell_ref,
    km.1 = mapping_key sheet_name cell_ref ∧
    has_char "!" sheet_name = false ∧ has_char "!" cell_ref = false.
Proof.
  intros Hgen Hkm Hblock.
  destruct (generate_returned_pastes _ _ _ _ _ _ _ _ _ Hgen)
    as (tpl & out & evs & _ & _ & _ & _ & _ & _ & _ & Hdone).
  destruct (Hdone km Hkm) as [_ Hkeys]. specialize (Hkeys Hblock).
  inversion Hkeys as [|?? [[sn cr] Hkey] _]; subst.
  exists sn, cr. by apply key_parts_spec.
Qed.

Lemma generate_returns_only_on_two_part_keys_witness :
  ∃ sheet_name cell_ref,
    "Summary!D1" = mapping_key sheet_name cell_ref ∧
    has_char "!" sheet_name = false ∧ has_char "!" cell_ref = false.
Proof.
  pose (r := generate_populated_template "template.xlsx" "out.xlsx"
               example_mappings "FundA" None example_world).
  assert (Hgen : generate_populated_template "template.xlsx" "out.xlsx"
                   example_mappings "FundA" None example_world
                 = (r.1.1, r.1.2, Returned r.1.2))
    by (vm_compute; reflexivity).
  apply (generate_returns_only_on_two_part_keys _ _ _ _ _ _ _ _ _
           ("Summary!D1", mkMapping "R1.xlsx" "D1") Hgen).
  - right. left.
  - vm_compute. discriminate.
Defined.

Lemma split_length sep s :
  has_char sep s = true → 2 ≤ length (Py.split sep s).
Proof.
  induction s as [|c s IH]; simpl; [done|].
  pose proof (split_nonnil sep s) as Hnil.
  destruct (Ascii.eqb c sep); simpl.
  - intros _. destruct (Py.split sep s); [done|simpl; lia].
  - intros Hs. specialize (IH Hs).
    destruct (Py.split sep s); [done|exact IH].
Qed.

(** X23.  A mapping key is split by generation into a sheet name and a
    cell address exactly when it is the key main.py builds from them and
    neither contains an exclamation mark; the key main.py builds from a
    sheet name that contains one is not split into two parts. *)
Theorem mapping_key_round_trip k sheet_name cell_ref :
  (key_parts k = Some (sheet_name, cell_ref) ↔
   k = mapping_key sheet_name cell_ref ∧
   has_char "!" sheet_name = false ∧ has_char "!" cell_ref = false) ∧
  (has_char "!" sheet_name = true →
   key_parts (mapping_key sheet_name cell_ref) = None).
Proof.
  split; [apply key_parts_spec|]. intros Hs.
  unfold key_parts, mapping_key. change ("!" ++ cell_ref) with (String "!" cell_ref).
  rewrite split_app. pose proof (split_length "!" sheet_name Hs) as Hlen.
  pose proof (split_nonnil "!" cell_ref) as Hnil.
  destruct (Py.split "!" sheet_name) as [|a [|b l]]; [simpl in Hlen; lia..|].
  destruct l; [|done]. by destruct (Py.split "!" cell_ref).
Qed.

Lemma mapping_key_round_trip_witness :
  key_parts (mapping_key "Q1!2024" "A1") = None.
Proof.
  apply (proj2 (mapping_key_round_trip "" "Q1!2024" "A1")). reflexivity.
Defined.

(** X17.  Generation and [filter_report_by_fund] agree: when
    [generate_populated_template] is called without a cache, no report is
    the output file and the call returns, every block it pastes is the list
    of rows [filter_report_by_fund] returns for the mapping's report and
    the fund code, and that list is not empty. *)
Theorem filter_agrees_with_generation t o ms F w w' c' rc' evs sn cr b :
  generate_populated_template t o ms F None w = (w', c', Returned rc') →
  (∀ km, km ∈ ms → report km.2 ≠ o) →
  trace w' = (trace w ++ evs)%list →
  Pasted sn cr b ∈ evs →
  ∃ km df',
    km ∈ ms ∧ km.1 = mapping_key sn cr ∧
    (filter_report_by_fund (report km.2) F w).2 = Ok df' ∧
    b = values df' ∧ b ≠ [].
Proof.
  intros Hgen Hout Htr Hin.
  destruct (generate_returned_pastes _ _ _ _ _ _ _ _ _ Hgen)
    as (tpl & out & evs' & _ & _ & Htr' & _ & _ & _ & Hpastes & Hdone).
  assert (evs' = evs) as -> by (apply (app_inv_head (trace w)); congruence).
  apply Hpastes in Hin as (km & Hkm & Hkey & Hb & Hne).
  destruct (Hdone km Hkm) as [(df & Hdf & Hcols) _].
  pose proof (filter_block_of (report km.2) F (copied (files w) t o) w ∅
                (lookup_empty _) (copied_other _ _ _ _ (Hout km Hkm))) as Hf.
  cbn [default] in *.
  destruct ((filter_report_by_fund (report km.2) F w).2) as [df'|e] eqn:Hfil.
  - exists km, df'. split; [done|]. split; [by apply key_parts_join|].
    split; [first [exact Hfil|done]|]. split; congruence.
  - destruct Hf as [Hf|(df0 & Hdf0 & Hcols0)]; [congruence|].
    rewrite Hdf in Hdf0. by injection Hdf0 as <-.
Qed.

Lemma filter_agrees_with_generation_witness :
  ∃ km df',
    km ∈ example_mappings ∧ km.1 = mapping_key "Summary" "A5" ∧
    (filter_report_by_fund (report km.2) "FundA" example_world).2 = Ok df' ∧
    example_block = values df' ∧ example_block ≠ [].
Proof.
  pose (r := generate_populated_template "template.xlsx" "out.xlsx"
               example_mappings "FundA" None example_world).
  assert (Hgen : generate_populated_template "template.xlsx" "out.xlsx"
                   example_mappings "FundA" None example_world
                 = (r.1.1, r.1.2, Returned r.1.2))
    by (vm_compute; reflexivity).
  apply (filter_agrees_with_generation _ _ _ _ _ _ _ _ (trace r.1.1)
           "Summary" "A5" example_block Hgen).
  - intros km [->|[->|[]%elem_of_nil]%elem_of_cons]%elem_of_cons; discriminate.
  - reflexivity.
  - vm_compute. repeat constructor.
Defined.


(** ** The cache and the result of generation *)

Section simulation.
Context {S : Type} (R : relation S).

Lemma respects_ret {A} (a : A) : respects R (ret a).
Proof. by intros s1 s2 HR. Qed.

Lemma respects_throw {A} e : respects R (throw (A := A) e).
Proof. by intros s1 s2 HR. Qed.

Lemma respects_lift_result {A} (x : result A) : respects R (lift_result x).
Proof. by intros s1 s2 HR. Qed.

Lemma respects_bind {A B} (m : M S A) (k : A → M S B) :
  respects R m → (∀ a, respects R (k a)) → respects R (bind m k).
Proof.
  intros Hm Hk s1 s2 HR. unfold bind. destruct (Hm s1 s2 HR) as [HR' Hres].
  destruct (m s1) as [s1' r1], (m s2) as [s2' r2]. cbn [fst snd] in *.
  subst r2. destruct r1 as [a|e]; [by apply Hk|done].
Qed.

Lemma respects_try_except {A} (m : M S A) (h : exn → M S A) :
  respects R m → (∀ e, respects R (h e)) → respects R (try_except m h).
Proof.
  intros Hm Hh s1 s2 HR. unfold try_except.
  destruct (Hm s1 s2 HR) as [HR' Hres].
  destruct (m s1) as [s1' r1], (m s2) as [s2' r2]. cbn [fst snd] in *.
  subst r2. destruct r1 as [a|e]; [done|by apply Hh].
Qed.

Lemma respects_for_each {A} (l : list A) (body : A → M S unit) :
  (∀ x, respects R (body x)) → respects R (for_each l body).
Proof.
  intros Hbody. induction l as [|x l IH]; cbn [for_each].
  - apply respects_ret.
  - apply respects_bind; [apply Hbody|]. intros _. apply IH.
Qed.

End simulation.

Lemma table_of_insert fs (c : gmap string DataFrame) p df q :
  c !! p = None → disk_table fs p = Some df →
  table_of fs (<[p := df]> c) q = table_of fs c q.
Proof.
  intros Hc Hd. unfold table_of. destruct (decide (q = p)) as [->|Hq].
  - by rewrite lookup_insert_eq, Hc.
  - by rewrite lookup_insert_ne.
Qed.

Lemma load_report_respects p : respects alike (load_report p).
Proof.
  intros s1 s2 (Hf & He & Hb & Ht). rewrite !load_report_eq.
  pose proof (Ht p) as Hp. unfold table_of in Hp. rewrite <- Hf.
  destruct (s_cache s1 !! p) as [df1|] eqn:H1,
           (s_cache s2 !! p) as [df2|] eqn:H2; cbn [fst snd].
  - by injection Hp as ->.
  - rewrite <- Hp. cbn [fst snd]. split; [|done].
    split; [done|]. split; [done|]. split; [done|]. intros q. cbn.
    rewrite table_of_insert; [apply Ht|done|done].
  - rewrite Hp. cbn [fst snd]. split; [|done].
    split; [done|]. split; [done|]. split; [done|]. intros q. cbn.
    rewrite table_of_insert; [apply Ht|done|done].
  - destruct (disk_table (files (s_world s1)) p) as [df|] eqn:Hd; cbn [fst snd];
      [|done].
    split; [|done]. split; [done|]. split; [done|]. split; [done|].
    intros q. cbn. unfold table_of. destruct (decide (q = p)) as [->|Hq].
    + by rewrite !lookup_insert_eq.
    + rewrite !lookup_insert_ne by done. apply Ht.
Qed.

Lemma get_sheet_respects sn : respects alike (get_sheet sn).
Proof.
  intros s1 s2 HR. pose proof HR as (_ & _ & Hb & _). unfold get_sheet.
  rewrite <- Hb. by destruct (list_find _ (s_book s1)) as [[i [n sh]]|].
Qed.

Lemma paste_respects sn cv : respects alike (paste sn cv).
Proof.
  intros s1 s2 HR. pose proof HR as (Hf & He & Hb & Ht).
  unfold paste, bind, get_sheet, lift_result. rewrite <- Hb.
  destruct (list_find _ (s_book s1)) as [[i [n sh]]|]; [|done].
  destruct (write_block sh cv.1 cv.2) as [sh'|e]; [|done].
  cbn [fst snd]. split; [|done].
  split; [done|]. split; [done|]. split; [|done]. cbn [s_book]. by rewrite Hb.
Qed.

Lemma process_report_respects F item : respects alike (process_report F item).
Proof.
  destruct item as [p ms]. unfold process_report.
  apply respects_try_except; [|intros e; apply respects_throw].
  apply respects_bind; [apply load_report_respects|]. intros df.
  apply respects_bind; [apply respects_lift_result|]. intros fdf.
  destruct (Pd.empty fdf); [apply respects_ret|].
  apply respects_bind; [apply respects_lift_result|]. intros sms.
  apply respects_for_each. intros sm.
  apply respects_bind; [apply get_sheet_respects|]. intros _.
  apply respects_for_each. intros cv. apply paste_respects.
Qed.

(** Generation from two worlds with the same files after the copy and two
    caches that give the same tables. *)
Lemma generate_alike t o ms F rc1 rc2 w1 w2 :
  files w1 !! t = files w2 !! t →
  copied (files w1) t o = copied (files w2) t o →
  engine_ok w1 = engine_ok w2 →
  same_tables (copied (files w1) t o) (default ∅ rc1) (default ∅ rc2) →
  (is_Some (files w1 !! t) → t ≠ o →
   files (generate_populated_template t o ms F rc1 w1).1.1
   = files (generate_populated_template t o ms F rc2 w2).1.1) ∧
  same_outcome (generate_populated_template t o ms F rc1 w1).2
               (generate_populated_template t o ms F rc2 w2).2.
Proof.
  intros Ht Hcp He Hsame. unfold generate_populated_template.
  rewrite !copy2_eq, <- Ht.
  destruct (files w1 !! t) as [tpl|] eqn:Htpl; cbn [fst snd];
    [|split; [by intros [? ?]|done]].
  destruct (decide (t = o)) as [Hto|Hto]; cbn [fst snd]; [done|].
  unfold with_app. cbn [fst snd engine_ok set_files files]. rewrite <- He, <- Hcp.
  destruct (engine_ok w1) eqn:He1; [|by cbn; rewrite Hcp].
  destruct (copied (files w1) t o !! o) as [wb|] eqn:Hwb;
    [|by cbn; rewrite Hcp].
  set (body := for_each (group_by_report ms) (process_report F)).
  set (s1 := mkSession (set_files (copied (files w1) t o) w1) (default ∅ rc1) wb).
  set (s2 := mkSession (set_files (copied (files w1) t o) w2) (default ∅ rc2) wb).
  assert (Hbody : respects alike body)
    by (apply respects_for_each; intros x; apply process_report_respects).
  destruct (Hbody s1 s2) as [(Hf' & _ & Hb' & _) Hres].
  { split; [done|]. split; [cbn; congruence|]. by split. }
  destruct (body s1) as [s1' r1], (body s2) as [s2' r2]. cbn [fst snd] in *.
  subst r2. destruct r1 as [u|e]; cbn [fst snd files set_files unlink].
  - by rewrite Hf', Hb'.
  - by rewrite Hf'.
Qed.

(** X25.  The files and the outcome of [generate_populated_template]
    depend on the cache only through the tables it gives: called on the
    same files with two caches under which every report has the same table
    (the cached one, or else the one on disk), it leaves the same files
    and ends the same way. *)
Theorem generate_depends_on_tables t o ms F rc1 rc2 w1 w2 :
  files w1 = files w2 → engine_ok w1 = engine_ok w2 →
  same_tables (copied (files w1) t o) (default ∅ rc1) (default ∅ rc2) →
  files (generate_populated_template t o ms F rc1 w1).1.1
  = files (generate_populated_template t o ms F rc2 w2).1.1 ∧
  same_outcome (generate_populated_template t o ms F rc1 w1).2
               (generate_populated_template t o ms F rc2 w2).2.
Proof.
  intros Hf He Hsame.
  destruct (generate_alike t o ms F rc1 rc2 w1 w2) as [Hfiles Hout];
    [by rewrite Hf|by rewrite Hf|done|done|].
  split; [|done].
  destruct (files w1 !! t) as [tpl|] eqn:Htpl.
  - destruct (decide (t = o)) as [->|Hto]; [|by apply Hfiles].
    unfold generate_populated_template. rewrite !copy2_eq, <- Hf, Htpl.
    by rewrite !decide_True.
  - unfold generate_populated_template. rewrite !copy2_eq, <- Hf, Htpl. done.
Qed.

Lemma generate_depends_on_tables_witness :
  files (generate_populated_template "template.xlsx" "out.xlsx" example_mappings
           "FundA"
           (Some {[ "R1.xlsx" := Pd.frame_of_sheet
                                   [[Str "Fund"; Str "Value"];
                                    [Str "FundA"; Int 10];
                                    [Str "FundB"; Int 20];
                                    [Str "FundA"; Int 30]] ]})
           example_world).1.1
  = files (generate_populated_template "template.xlsx" "out.xlsx"
             example_mappings "FundA" None example_world).1.1 ∧
  same_outcome
    (generate_populated_template "template.xlsx" "out.xlsx" example_mappings
       "FundA"
       (Some {[ "R1.xlsx" := Pd.frame_of_sheet
                               [[Str "Fund"; Str "Value"];
                                [Str "FundA"; Int 10];
                                [Str "FundB"; Int 20];
                                [Str "FundA"; Int 30]] ]})
       example_world).2
    (generate_populated_template "template.xlsx" "out.xlsx" example_mappings
       "FundA" None example_world).2.
Proof.
  apply generate_depends_on_tables; [reflexivity..|].
  intros p. cbn [default]. unfold table_of, id.
  destruct (decide (p = "R1.xlsx")) as [->|Hp].
  - vm_compute. reflexivity.
  - rewrite lookup_singleton_ne by done. by rewrite lookup_empty.
Defined.

(** X26.  Generating again is idempotent: after a call of
    [generate_populated_template] that returned, the same call on the
    resulting files with the cache it returned returns too and leaves the
    files as they are; the output file is overwritten with the same
    workbook. *)
Theorem generate_again_changes_nothing t o ms F rc w w' c' rc' :
  generate_populated_template t o ms F rc w = (w', c', Returned rc') →
  files (generate_populated_template t o ms F (Some rc') w').1.1 = files w' ∧
  ∃ rc'', (generate_populated_template t o ms F (Some rc') w').2
          = Returned rc''.
Proof.
  intros Hgen. pose proof Hgen as Hspec. apply generate_spec in Hspec.
  rewrite copy2_eq in Hspec.
  destruct (files w !! t) as [tpl|] eqn:Htpl; [|by destruct Hspec as (_ & _ & ?)].
  destruct (decide (t = o)) as [Hto|Hto]; [by destruct Hspec as (_ & _ & ?)|].
  destruct Hspec as (He & evs & _ & Hstep & -> & [book Hfiles] & _).
  cbn [files set_files] in *.
  assert (Hcopied : copied (files w) t o = <[o := tpl]> (files w))
    by (unfold copied; by rewrite Htpl).
  assert (Htpl' : files w' !! t = files w !! t).
  { by rewrite Hfiles, lookup_insert_ne, copied_other. }
  assert (Hcp : copied (files w') t o = copied (files w) t o).
  { unfold copied at 1. rewrite Htpl', Htpl, Hfiles, Hcopied.
    by rewrite !insert_insert_eq. }
  destruct (generate_alike t o ms F (Some c') rc w' w Htpl' Hcp He)
    as [Hsame Hout].
  { intros p. rewrite Hcp. cbn [default]. by destruct Hstep as (_ & _ & _ & ->). }
  rewrite Hgen in Hsame, Hout. cbn [fst snd] in Hsame, Hout. split.
  - apply Hsame; [by rewrite Htpl', Htpl|done].
  - destruct ((generate_populated_template t o ms F (Some c') w').2)
      as [rc''|e]; [by exists rc''|done].
Qed.

Lemma generate_again_changes_nothing_witness :
  files (generate_populated_template "template.xlsx" "out.xlsx" example_mappings
           "FundA"
           (Some (generate_populated_template "template.xlsx" "out.xlsx"
                    example_mappings "FundA" None example_world).1.2)
           (generate_populated_template "template.xlsx" "out.xlsx"
              example_mappings "FundA" None example_world).1.1).1.1
  = files (generate_populated_template "template.xlsx" "out.xlsx"
             example_mappings "FundA" None example_world).1.1.
Proof.
  pose (r := generate_populated_template "template.xlsx" "out.xlsx"
               example_mappings "FundA" None example_world).
  assert (Hgen : generate_populated_template "template.xlsx" "out.xlsx"
                   example_mappings "FundA" None example_world
                 = (r.1.1, r.1.2, Returned r.1.2))
    by (vm_compute; reflexivity).
  exact (proj1 (generate_again_changes_nothing _ _ _ _ _ _ _ _ _ Hgen)).
Defined.

(** ** The batch loop *)

Lemma generate_all_cons c rest c0 w :
  generate_all (c :: rest) c0 w =
  let r := generate_populated_template (c_template c) (c_output c)
             (c_mappings c) (c_fund c) (Some c0) w in
  let r' := generate_all rest r.1.2 r.1.1 in
  (r'.1.1, r'.1.2, r.2 :: r'.2).
Proof.
  cbn [generate_all].
  destruct (generate_populated_template _ _ _ _ _ w) as [[w1 c1] o1].
  cbn [fst snd]. by destruct (generate_all rest c1 w1) as [[w2 c2] os].
Qed.

Lemma generate_all_files_other calls c0 w q :
  q ∉ c_output <$> calls →
  files (generate_all calls c0 w).1.1 !! q = files w !! q.
Proof.
  revert c0 w. induction calls as [|c rest IH]; intros c0 w Hq; [done|].
  rewrite fmap_cons, not_elem_of_cons in Hq. destruct Hq as [Hc Hrest].
  rewrite generate_all_cons. cbn [fst snd]. rewrite (IH _ _ Hrest).
  by apply generate_files_other.
Qed.

Lemma generate_all_length calls c0 w :
  length (generate_all calls c0 w).2 = length calls.
Proof.
  revert c0 w. induction calls as [|c rest IH]; intros c0 w; [done|].
  rewrite generate_all_cons. cbn [fst snd length]. by rewrite IH.
Qed.

(** The output file after one call whose template can be copied. *)
Lemma generate_output_file t o ms F rc w :
  is_Some (files w !! t) → t ≠ o →
  match (generate_populated_template t o ms F rc w).2 with
  | Returned _ =>
      is_Some (files (generate_populated_template t o ms F rc w).1.1 !! o)
  | Raised _ => files (generate_populated_template t o ms F rc w).1.1 !! o = None
  end.
Proof.
  intros [tpl Htpl] Hto.
  destruct (generate_populated_template t o ms F rc w) as [[w' c'] out] eqn:Hgen.
  apply generate_spec in Hgen. rewrite copy2_eq, Htpl, decide_False in Hgen by done.
  destruct Hgen as (_ & evs & _ & _ & Hout). cbn [fst snd].
  destruct out as [rc'|e].
  - destruct Hout as (_ & [book ->] & _). rewrite lookup_insert_eq. by eexists.
  - destruct Hout as (-> & _). by rewrite lookup_delete_eq.
Qed.

(** X27.  The batch loop makes one attempt for every call, whether or not
    earlier calls raised, and leaves every file that is not the output
    file of one of the calls as it was. *)
Theorem batch_touches_only_outputs calls c0 w :
  length (generate_all calls c0 w).2 = length calls ∧
  ∀ q, q ∉ c_output <$> calls →
       files (generate_all calls c0 w).1.1 !! q = files w !! q.
Proof.
  split; [apply generate_all_length|]. intros q. apply generate_all_files_other.
Qed.

(** X28.  When the calls of a batch write to different output files, none
    of which is a template of the batch, then at the end there is an
    output file for a call whose template exists exactly when the call
    returned: a call that raised has left no file behind, and no later
    call has removed or replaced the file of a call that returned. *)
Theorem batch_leaves_files_of_returned_calls calls c0 w i c out :
  NoDup (c_output <$> calls) →
  (∀ c1 c2, c1 ∈ calls → c2 ∈ calls → c_output c2 ≠ c_template c1) →
  calls !! i = Some c → (generate_all calls c0 w).2 !! i = Some out →
  is_Some (files w !! c_template c) →
  match out with
  | Returned _ => is_Some (files (generate_all calls c0 w).1.1 !! c_output c)
  | Raised _ => files (generate_all calls c0 w).1.1 !! c_output c = None
  end.
Proof.
  revert c0 w i. induction calls as [|c1 rest IH]; intros c0 w i Hnd Hsep Hi;
    [done|].
  rewrite fmap_cons in Hnd. apply NoDup_cons in Hnd as [Hfresh Hnd].
  rewrite generate_all_cons. cbn [fst snd]. destruct i as [|i].
  - injection Hi as ->. intros [= <-] Ht.
    rewrite (generate_all_files_other rest _ _ _ Hfresh).
    apply generate_output_file; [done|].
    intros Heq. apply (Hsep c c); [by left..|done].
  - cbn [lookup list_lookup] in Hi |- *. intros Hout Ht.
    apply (IH _ _ i Hnd); [|done|done|].
    + intros ca cb Ha Hb. apply Hsep; by right.
    + rewrite generate_files_other; [done|].
      intros Heq. apply (Hsep c c1); [|by left|done].
      right. by eapply list_elem_of_lookup_2.
Qed.

Lemma batch_leaves_files_of_returned_calls_witness :
  is_Some (files (generate_all example_calls ∅ example_world).1.1 !! "outA.xlsx") ∧
  files (generate_all example_calls ∅ example_world).1.1 !! "outB.xlsx" = None.
Proof.
  assert (Hnd : NoDup (c_output <$> example_calls)).
  { apply NoDup_cons. split; [|apply NoDup_singleton].
    intros H%list_elem_of_singleton. discriminate. }
  assert (Hsep : ∀ c1 c2, c1 ∈ example_calls → c2 ∈ example_calls →
                          c_output c2 ≠ c_template c1).
  { intros c1 c2 [->|[->|[]%elem_of_nil]%elem_of_cons]%elem_of_cons
                 [->|[->|[]%elem_of_nil]%elem_of_cons]%elem_of_cons;
      discriminate. }
  assert (Htpl : is_Some (files example_world !! "template.xlsx"))
    by (vm_compute; eauto).
  pose (r := generate_all example_calls ∅ example_world).
  assert (H0 : r.2 !! 0 = Some (Returned (default ∅ (r.2 !! 0 ≫= λ o,
                 match o with Returned rc => Some rc | _ => None end))))
    by (vm_compute; reflexivity).
  assert (H1 : r.2 !! 1 = Some (Raised (default ValueError (r.2 !! 1 ≫= λ o,
                 match o with Raised e => Some e | _ => None end))))
    by (vm_compute; reflexivity).
  split.
  - exact (batch_leaves_files_of_returned_calls example_calls ∅ example_world 0
             (mkCall "template.xlsx" "outA.xlsx" example_mappings "FundA") _
             Hnd Hsep eq_refl H0 Htpl).
  - exact (batch_leaves_files_of_returned_calls example_calls ∅ example_world 1
             (mkCall "template.xlsx" "outB.xlsx" example_bad_mappings "FundA") _
             Hnd Hsep eq_refl H1 Htpl).
Defined.

(** ** Failures of generation *)

Lemma process_report_body F p mappings :
  process_report F (p, mappings)
  = try_except (report_body F p mappings)
      (λ e, throw (Exception ("Error processing report " ++ p ++ ": ") e)).
Proof. reflexivity. Qed.

Lemma generate_with_block t o ms F rc w :
  generate_populated_template t o ms F rc w
  = generate_with t o rc
      (with_app o (for_each (group_by_report ms) (process_report F))) w.
Proof. reflexivity. Qed.

(** A loop that raises has run its body without exception on the items
    before the one on which the body raised. *)
Lemma for_each_raises {S A} (l : list A) (body : A → M S unit) s s' e :
  for_each l body s = (s', Raise e) →
  ∃ l1 x l2 s1,
    l = (l1 ++ x :: l2)%list ∧
    for_each l1 body s = (s1, Ok tt) ∧ body x s1 = (s', Raise e).
Proof.
  revert s. induction l as [|x l IH]; intros s; cbn [for_each]; [done|].
  unfold bind. destruct (body x s) as [s1 [[]|e1]] eqn:Hx.
  - intros Hl. apply IH in Hl as (l1 & y & l2 & s2 & -> & Hl1 & Hy).
    exists (x :: l1), y, l2, s2. split; [done|]. split; [|done].
    cbn [for_each]. unfold bind. by rewrite Hx.
  - intros [= <- <-]. by exists [], x, l, s.
Qed.

Lemma generate_with_raises t o rc block w w1 u w' c' e :
  copy2 t o w = (w1, Ok u) →
  generate_with t o rc block w = (w', c', Raised e) →
  files w' !! o = None ∧
  ∃ e' st, block (w1, default ∅ rc) = (st, Raise e') ∧
           files w' = delete o (files st.1) ∧
           e = Exception "Error generating populated template: " e'.
Proof.
  intros Hcopy. unfold generate_with. rewrite Hcopy.
  destruct (block (w1, default ∅ rc)) as [[w2 c2] [u'|e']] eqn:Hb; [done|].
  intros [= <- <- <-]. cbn [files unlink set_files].
  split; [by rewrite lookup_delete_eq|]. by exists e', (w2, c2).
Qed.

(** C3.  When [generate_populated_template] raises: if it was the copy
    that failed, the exception is the one of the copy and the world is
    untouched, nothing being removed.  If the copy had succeeded, the
    output file is gone, the other files are as the copy left them, and
    the exception is the function's own; it carries either the failure to
    start the engine, or an exception that names a report [p] and carries
    the exception [e''] such that: the reports grouped before [p] were
    processed without exception, and it is the processing of [p], in the
    state they left, that raised [e''].  Lastly, whatever the block inside
    the [try] is and wherever it raises (opening, saving and closing the
    workbook included), the output file is gone afterwards and the
    exception of the block is the one carried. *)
Theorem generate_failure_cleans_up t o ms F rc w w' c' e :
  generate_populated_template t o ms F rc w = (w', c', Raised e) →
  (∀ w0 e0, copy2 t o w = (w0, Raise e0) → e = e0 ∧ w' = w) ∧
  (∀ w1 u, copy2 t o w = (w1, Ok u) →
     files w' !! o = None ∧
     (∀ q, q ≠ o → files w' !! q = files w1 !! q) ∧
     ∃ e', e = Exception "Error generating populated template: " e' ∧
       ((e' = EngineError ∧ engine_ok w = false) ∨
        ∃ book before p mappings after s s' e'',
          files w1 !! o = Some book ∧
          group_by_report ms = (before ++ (p, mappings) :: after)%list ∧
          for_each before (process_report F)
            (mkSession w1 (default ∅ rc) book) = (s, Ok tt) ∧
          report_body F p mappings s = (s', Raise e'') ∧
          e' = Exception ("Error processing report " ++ p ++ ": ") e'' ∧
          ∃ km, km ∈ ms ∧ report km.2 = p)) ∧
  (generate_populated_template t o ms F rc w
   = generate_with t o rc
       (with_app o (for_each (group_by_report ms) (process_report F))) w ∧
   ∀ block w1 u w2 c2 e2,
     copy2 t o w = (w1, Ok u) →
     generate_with t o rc block w = (w2, c2, Raised e2) →
     files w2 !! o = None ∧
     ∃ e' st, block (w1, default ∅ rc) = (st, Raise e') ∧
              e2 = Exception "Error generating populated template: " e').
Proof.
  intros Hgen. pose proof (generate_spec _ _ _ _ _ _ _ _ _ Hgen) as Hspec.
  split; [|split].
  - intros w0 e0 Hcopy. rewrite Hcopy in Hspec.
    destruct Hspec as (-> & _ & [= ->]). done.
  - intros w1 u Hcopy. rewrite Hcopy in Hspec.
    destruct Hspec as (_ & evs & _ & _ & Hf & _).
    rewrite Hf, lookup_delete_eq. split; [done|]. split.
    { intros q Hq. by rewrite lookup_delete_ne. }
    rewrite generate_with_block in Hgen.
    destruct (generate_with_raises _ _ _ _ _ _ _ _ _ _ Hcopy Hgen)
      as (_ & e' & st & Hblock & _ & ->).
    exists e'. split; [done|].
    apply copy2_returns in Hcopy as (Hw1 & Ho & [tpl Ht]).
    assert (He : engine_ok w1 = engine_ok w) by (by rewrite Hw1).
    unfold with_app in Hblock. cbn [fst snd] in Hblock. rewrite He in Hblock.
    destruct (engine_ok w) eqn:Hengine;
      [|left; by injection Hblock as _ <-].
    rewrite Ho, Ht in Hblock.
    destruct (for_each (group_by_report ms) (process_report F)
                (mkSession w1 (default ∅ rc) tpl)) as [s1 [u'|e1]] eqn:Hloop;
      [done|].
    injection Hblock as _ <-. right.
    apply for_each_raises in Hloop
      as (before & [p mappings] & after & s & Hgroups & Hbefore & Hp).
    rewrite process_report_body in Hp. unfold try_except in Hp.
    destruct (report_body F p mappings s) as [s' [u'|e'']] eqn:Hbody; [done|].
    injection Hp as _ <-.
    exists tpl, before, p, mappings, after, s, s', e''.
    split; [by rewrite Ho|]. split; [done|]. split; [done|].
    split; [done|]. split; [done|].
    apply group_by_report_reports. rewrite Hgroups, fmap_app, fmap_cons.
    apply elem_of_app. right. by left.
  - split; [reflexivity|]. intros block w1 u w2 c2 e2 Hcopy Hraise.
    destruct (generate_with_raises _ _ _ _ _ _ _ _ _ _ Hcopy Hraise)
      as (Hgone & e' & st & Hblock & _ & ->).
    split; [done|]. by exists e', st.
Qed.

Lemma generate_failure_cleans_up_witness :
  ∃ w' c',
    generate_populated_template "template.xlsx" "out.xlsx"
      [("Summary!A5", mkMapping "R1.xlsx" "A5");
       ("Summary!D1", mkMapping "absent.xlsx" "D1")]
      "FundA" None example_world
    = (w', c',
       Raised (Exception "Error generating populated template: "
                 (Exception "Error processing report absent.xlsx: "
                    (CannotOpen "absent.xlsx")))) ∧
    files w' !! "out.xlsx" = None ∧
    ∃ before p mappings after s s' e'',
      group_by_report [("Summary!A5", mkMapping "R1.xlsx" "A5");
                       ("Summary!D1", mkMapping "absent.xlsx" "D1")]
      = (before ++ (p, mappings) :: after)%list ∧
      report_body "FundA" p mappings s = (s', Raise e'') ∧
      Exception "Error processing report absent.xlsx: "
        (CannotOpen "absent.xlsx")
      = Exception ("Error processing report " ++ p ++ ": ") e''.
Proof.
  pose (ms := [("Summary!A5", mkMapping "R1.xlsx" "A5");
               ("Summary!D1", mkMapping "absent.xlsx" "D1")]).
  pose (r := generate_populated_template "template.xlsx" "out.xlsx" ms
               "FundA" None example_world).
  assert (Hgen : generate_populated_template "template.xlsx" "out.xlsx" ms
                   "FundA" None example_world
                 = (r.1.1, r.1.2,
                    Raised (Exception "Error generating populated template: "
                              (Exception "Error processing report absent.xlsx: "
                                 (CannotOpen "absent.xlsx")))))
    by (vm_compute; reflexivity).
  exists r.1.1, r.1.2. split; [exact Hgen|].
  destruct (generate_failure_cleans_up _ _ _ _ _ _ _ _ _ Hgen) as (_ & Hafter & _).
  assert (Hcopy : copy2 "template.xlsx" "out.xlsx" example_world
                  = ((copy2 "template.xlsx" "out.xlsx" example_world).1, Ok tt))
    by (vm_compute; reflexivity).
  destruct (Hafter _ _ Hcopy) as (Hgone & _ & e' & He' & Hwhy).
  split; [exact Hgone|]. injection He' as <-.
  destruct Hwhy as [[Hengine _]|
    (book & before & p & mappings & after & s & s' & e'' & _ & Hgroups & _
     & Hbody & Hnames & _)]; [discriminate Hengine|].
  by exists before, p, mappings, after, s, s', e''.
Defined.

(** ** The cells of the output workbook *)

Lemma replay_app evs1 evs2 wb :
  replay (evs1 ++ evs2) wb = replay evs2 (replay evs1 wb).
Proof. apply foldl_app. Qed.

#[global] Instance replays_refl : Reflexive replays.
Proof. intros s. exists []. by rewrite app_nil_r. Qed.

#[global] Instance replays_trans : Transitive replays.
Proof.
  intros s1 s2 s3 (evs1 & Ht1 & Hb1) (evs2 & Ht2 & Hb2).
  exists (evs1 ++ evs2)%list. split; [by rewrite Ht2, Ht1, app_assoc|].
  by rewrite pasted_app, replay_app, <- Hb1.
Qed.

Lemma paste_replays sheet_name cv : keeps replays (paste sheet_name cv).
Proof.
  intros s s' r. unfold paste, bind, get_sheet, lift_result.
  destruct (list_find _ (s_book s)) as [[i [n sh]]|] eqn:Hfind;
    [|intros [= <- <-]; reflexivity].
  destruct (write_block sh cv.1 cv.2) as [sh'|e] eqn:Hw;
    intros [= <- <-]; [|reflexivity].
  exists [Pasted sheet_name cv.1 cv.2]. split; [done|].
  destruct cv as [cr b]. cbn [fst snd s_book] in *.
  unfold write_block in Hw.
  destruct (Xw.parse_ref cr) as [[r0 c0]|] eqn:Hp; [|done].
  destruct b as [|row0 rows]; [done|]. injection Hw as <-.
  change (pasted [Pasted sheet_name cr (row0 :: rows)])
    with [Pasted sheet_name cr (row0 :: rows)].
  unfold replay. cbn [foldl apply_paste]. unfold paste_range.
  rewrite Hp. unfold update_sheet. by rewrite Hfind.
Qed.

Lemma load_report_replays p : keeps replays (load_report p).
Proof.
  intros s s' r. rewrite load_report_eq.
  destruct (s_cache s !! p); [intros [= <- <-]; reflexivity|].
  destruct (disk_table (files (s_world s)) p); intros [= <- <-];
    [|reflexivity].
  by exists [Parsed p].
Qed.

Lemma get_sheet_replays sn : keeps replays (get_sheet sn).
Proof.
  intros s s' r. unfold get_sheet.
  destruct (list_find _ (s_book s)) as [[i [n sh]]|]; intros [= <- <-];
    reflexivity.
Qed.

Lemma process_report_replays F item : keeps replays (process_report F item).
Proof.
  destruct item as [p ms]. unfold process_report.
  apply (keeps_try_except replays); [|intros e; apply (keeps_throw replays)].
  apply (keeps_bind replays); [apply load_report_replays|]. intros df.
  apply (keeps_bind replays); [apply (keeps_lift_result replays)|]. intros fdf.
  destruct (Pd.empty fdf); [apply (keeps_ret replays)|].
  apply (keeps_bind replays); [apply (keeps_lift_result replays)|]. intros sms.
  apply (keeps_for_each replays). intros sm.
  apply (keeps_bind replays); [apply get_sheet_replays|]. intros _.
  apply (keeps_for_each replays). intros cv. apply paste_replays.
Qed.

(** The workbook a returning call saves is the template with the pastes
    of the call made on it. *)
Lemma generate_returned_replay t o ms F rc w w' c' rc' :
  generate_populated_template t o ms F rc w = (w', c', Returned rc') →
  ∃ tpl out evs,
    files w !! t = Some tpl ∧ files w' !! o = Some out ∧
    trace w' = (trace w ++ evs)%list ∧
    out = replay (pasted evs) tpl.
Proof.
  unfold generate_populated_template.
  destruct (copy2 t o w) as [w1 [u|e]] eqn:Hcopy; [|done].
  apply copy2_returns in Hcopy as (Hw1 & Ho & [tpl Ht]).
  assert (Htr1 : trace w1 = trace w) by (by rewrite Hw1).
  unfold with_app. cbn [fst snd].
  destruct (engine_ok w1); [|done]. rewrite Ho, Ht.
  destruct (for_each (group_by_report ms) (process_report F)
              (mkSession w1 (default ∅ rc) tpl)) as [s [u'|e]] eqn:Hloop;
    [|done].
  apply (keeps_for_each replays) in Hloop;
    [|intros item; apply process_report_replays].
  destruct Hloop as (evs & Htr & Hbook).
  cbn [s_world s_book] in *. intros [= <- <- <-].
  exists tpl, (s_book s), evs. split; [done|].
  split; [cbn [files set_files]; by rewrite lookup_insert_eq|].
  split; [cbn [trace set_files]; congruence|]. done.
Qed.

Lemma sheet_named_cons n (sh : list (list cell)) wb name :
  sheet_named ((n, sh) :: wb) name
  = if decide (n = name) then Some sh else sheet_named wb name.
Proof.
  unfold sheet_named. cbn [list_find fst]. destruct (decide (n = name)); [done|].
  by destruct (list_find _ wb) as [[i [n' sh']]|].
Qed.

Lemma update_sheet_cons sn f n (sh : list (list cell)) wb :
  update_sheet sn f ((n, sh) :: wb)
  = if decide (n = sn) then (n, f sh) :: wb else (n, sh) :: update_sheet sn f wb.
Proof.
  unfold update_sheet. cbn [list_find fst]. destruct (decide (n = sn)); [done|].
  by destruct (list_find _ wb) as [[i [n' sh']]|].
Qed.

Lemma sheet_named_update sn f (wb : list (string * list (list cell))) name :
  sheet_named (update_sheet sn f wb) name
  = (if decide (sn = name) then f else id) <$> sheet_named wb name.
Proof.
  induction wb as [|[n sh] wb IH]; [done|].
  rewrite update_sheet_cons, sheet_named_cons.
  destruct (decide (n = sn)) as [->|Hn].
  - rewrite sheet_named_cons. destruct (decide (sn = name)); [done|].
    by destruct (sheet_named wb name).
  - rewrite sheet_named_cons. destruct (decide (n = name)) as [->|Hname].
    + by rewrite decide_False by done.
    + exact IH.
Qed.

(** The cells of a sheet after the range of a block of rows of equal
    length has been cleared and the block assigned. *)
Lemma cell_at_pasted sh cell_ref (values : list (list cell)) m rng r c :
  Forall (λ row, length row = m) values →
  paste_range cell_ref values = Some rng →
  Xw.cell_at (Xw.set_value (Xw.clear_contents sh rng) rng values) r c
  = if Xw.inside rng r c
    then block_cell values (r - Xw.top rng) (c - Xw.left rng)
    else Xw.cell_at sh r c.
Proof.
  intros Hrect. unfold paste_range.
  destruct (Xw.parse_ref cell_ref) as [[r0 c0]|] eqn:Hp; [|done].
  destruct values as [|row0 rows] eqn:Hvalues; [done|]. rewrite <- Hvalues in *.
  assert (Hm : length row0 = m).
  { rewrite Hvalues in Hrect. by inversion Hrect. }
  unfold Xw.resize. cbn [Xw.top Xw.left]. rewrite Hm. intros [= <-].
  assert (Hne : values ≠ []) by (by rewrite Hvalues).
  destruct (write_block_range sh cell_ref values r0 c0 m Hp Hne Hrect)
    as (_ & _ & Hin & Hout).
  destruct (Xw.inside _ r c) eqn:Hinside; [|by apply Hout].
  apply bool_decide_eq_true in Hinside. cbn in Hinside.
  replace r with (r0 + (r - r0)) at 1 by lia.
  replace c with (c0 + (c - c0)) at 1 by lia.
  cbn [Xw.top Xw.left]. apply Hin; lia.
Qed.

Lemma apply_paste_cells ev wb name sh :
  (∀ sn cr b, ev = Pasted sn cr b → ∃ m, Forall (λ row, length row = m) b) →
  sheet_named wb name = Some sh →
  ∃ sh', sheet_named (apply_paste ev wb) name = Some sh' ∧
    ∀ r c, Xw.cell_at sh' r c = paste_cell ev name r c (Xw.cell_at sh r c).
Proof.
  intros Hrect Hsh. destruct ev as [p|sn cr b]; [by exists sh|].
  cbn [apply_paste paste_cell].
  destruct (paste_range cr b) as [rng|] eqn:Hrng; [|by exists sh].
  destruct (Hrect sn cr b eq_refl) as [m Hm].
  rewrite sheet_named_update, Hsh. cbn [fmap option_fmap option_map].
  destruct (decide (sn = name)) as [->|Hne]; [|by exists sh].
  eexists. split; [done|]. intros r c. by eapply cell_at_pasted.
Qed.

Lemma replay_cells evs wb name sh :
  (∀ sn cr b, Pasted sn cr b ∈ evs → ∃ m, Forall (λ row, length row = m) b) →
  sheet_named wb name = Some sh →
  ∃ sh', sheet_named (replay evs wb) name = Some sh' ∧
    ∀ r c, Xw.cell_at sh' r c = final_cell evs name r c (Xw.cell_at sh r c).
Proof.
  revert wb sh. induction evs as [|ev evs IH]; intros wb sh Hrect Hsh.
  - by exists sh.
  - destruct (apply_paste_cells ev wb name sh) as (sh1 & Hsh1 & Hcells1);
      [intros sn cr b ->; apply (Hrect sn cr b); by left|done|].
    destruct (IH (apply_paste ev wb) sh1) as (sh' & Hsh' & Hcells);
      [intros sn cr b Hin; apply (Hrect sn cr b); by right|done|].
    exists sh'. split; [done|]. intros r c.
    rewrite Hcells, Hcells1. done.
Qed.

Lemma block_of_rectangular fs (c : gmap string DataFrame) F p :
  (∀ q df, c !! q = Some df → rectangular df) →
  ∃ m, Forall (λ row, length row = m) (block_of fs c F p).
Proof.
  intros Hcache. unfold block_of, table_of.
  assert (Hdf : ∀ df, rectangular df →
    ∃ m, Forall (λ row, length row = m)
           (filter (λ r, Pd.eq_str (Pd.col0 r) F = true) (values df))).
  { intros df Hrect. exists (length (columns df)).
    unfold rectangular in Hrect. rewrite Forall_forall in Hrect |- *.
    intros r [_ Hr]%list_elem_of_filter. by apply Hrect. }
  destruct (c !! p) as [df|] eqn:Hc; [by eapply Hdf, Hcache|].
  unfold disk_table. destruct (fs !! p) as [[|[n sh] wb]|];
    [by exists 0..| |by exists 0].
  apply Hdf, frame_of_sheet_rect.
Qed.

(** C5.  Every write of a returning call of
    [generate_populated_template] belongs to a mapping; its block is the
    filtered rows of the mapping's report, a non-empty list of rows of one
    length [m].  For the cell position [(r0, c0)] the key names, the range
    resolved has this top-left corner, [length b] rows and [m] columns;
    lines 230-232 clear the contents of exactly this range and leave the
    value [b[i][j]] at row [r0 + i], column [c0 + j], the cells outside
    the range keeping their contents.  The workbook saved to the output
    file is the template with these writes made, in the order of the
    trace, on the sheets they name; cell by cell, a cell of the output
    holds the entry of the last block written over it, and the value it
    has in the template when no write covers it.  The frames of the cache
    passed in are taken to have rows of the length of their labels, as
    frames do. *)
Theorem generate_writes_blocks t o ms F rc w w' c' rc' :
  (∀ p df, default ∅ rc !! p = Some df → rectangular df) →
  generate_populated_template t o ms F rc w = (w', c', Returned rc') →
  ∃ tpl out evs,
    files w !! t = Some tpl ∧ files w' !! o = Some out ∧
    trace w' = (trace w ++ evs)%list ∧
    (∀ sn cr b, Pasted sn cr b ∈ evs →
       ∃ km m,
         km ∈ ms ∧ key_parts km.1 = Some (sn, cr) ∧
         b = block_of (copied (files w) t o) (default ∅ rc) F (report km.2) ∧
         b ≠ [] ∧ Forall (λ row, length row = m) b ∧
         ∀ r0 c0, Xw.parse_ref cr = Some (r0, c0) →
           let rng := Xw.mkRange r0 c0 (length b) m in
           paste_range cr b = Some rng ∧
           ∀ sh : sheet,
             write_block sh cr b
             = Ok (Xw.set_value (Xw.clear_contents sh rng) rng b) ∧
             (∀ r c, Xw.cell_at (Xw.clear_contents sh rng) r c
                     = if Xw.inside rng r c then NaN else Xw.cell_at sh r c) ∧
             (∀ i j, i < length b → j < m →
                Xw.cell_at (Xw.set_value (Xw.clear_contents sh rng) rng b)
                           (r0 + i) (c0 + j)
                = block_cell b i j) ∧
             (∀ r c, Xw.inside rng r c = false →
                Xw.cell_at (Xw.set_value (Xw.clear_contents sh rng) rng b) r c
                = Xw.cell_at sh r c)) ∧
    out = replay (pasted evs) tpl ∧
    ∀ name sh, sheet_named tpl name = Some sh →
      ∃ sh', sheet_named out name = Some sh' ∧
        ∀ r c, Xw.cell_at sh' r c
               = final_cell (pasted evs) name r c (Xw.cell_at sh r c).
Proof.
  intros Hcache Hgen.
  destruct (generate_returned_replay _ _ _ _ _ _ _ _ _ Hgen)
    as (tpl & out & evs & Ht & Ho & Htr & Hout).
  destruct (generate_returned_pastes _ _ _ _ _ _ _ _ _ Hgen)
    as (tpl' & out' & evs' & _ & _ & Htr' & _ & _ & _ & Hpastes & _).
  assert (evs' = evs) as -> by (apply (app_inv_head (trace w)); congruence).
  assert (Hblocks : ∀ sn cr b, Pasted sn cr b ∈ evs →
            ∃ m, Forall (λ row, length row = m) b).
  { intros sn cr b (km & _ & _ & -> & _)%Hpastes.
    by apply block_of_rectangular. }
  exists tpl, out, evs. split; [done|]. split; [done|]. split; [done|].
  split; [|split; [done|]].
  - intros sn cr b Hin. destruct (Hblocks sn cr b Hin) as [m Hm].
    apply Hpastes in Hin as (km & Hkm & Hkey & Hb & Hne).
    exists km, m. split; [done|]. split; [done|]. split; [done|].
    split; [done|]. split; [done|]. intros r0 c0 Hp rng.
    split.
    { unfold paste_range. rewrite Hp. destruct b as [|row0 rows]; [done|].
      inversion Hm; subst. done. }
    intros sh. apply (write_block_range sh cr b r0 c0 m Hp Hne Hm).
  - intros name sh Hsh. rewrite Hout. apply replay_cells; [|done].
    intros sn cr b [Hin _]%elem_of_pasted. by eapply Hblocks.
Qed.

Lemma generate_writes_blocks_witness :
  ∃ out sh',
    files (generate_populated_template "template.xlsx" "out.xlsx"
             example_mappings "FundA" None example_world).1.1 !! "out.xlsx"
    = Some out ∧
    sheet_named out "Summary" = Some sh' ∧
    Xw.cell_at sh' 0 0 = Str "Title" ∧
    Xw.cell_at sh' 4 0 = Str "FundA" ∧ Xw.cell_at sh' 4 1 = Int 10 ∧
    Xw.cell_at sh' 5 0 = Str "FundA" ∧ Xw.cell_at sh' 5 1 = Int 30 ∧
    Xw.cell_at sh' 0 3 = Str "FundA" ∧ Xw.cell_at sh' 1 4 = Int 30 ∧
    Xw.cell_at sh' 2 3 = NaN.
Proof.
  pose (r := generate_populated_template "template.xlsx" "out.xlsx"
               example_mappings "FundA" None example_world).
  assert (Hgen : generate_populated_template "template.xlsx" "out.xlsx"
                   example_mappings "FundA" None example_world
                 = (r.1.1, r.1.2, Returned r.1.2))
    by (vm_compute; reflexivity).
  destruct (generate_writes_blocks _ _ _ _ None _ _ _ _
              ltac:(intros p df; cbn [default]; rewrite lookup_empty;
                    discriminate) Hgen)
    as (tpl & out & evs & Ht & Ho & Htr & _ & _ & Hcells).
  assert (Htpl : tpl = example_template).
  { assert (Hf : files example_world !! "template.xlsx" = Some example_template)
      by (vm_compute; reflexivity).
    congruence. }
  assert (Hevs : evs = trace r.1.1) by (rewrite Htr; reflexivity).
  subst tpl evs.
  destruct (Hcells "Summary" [[Str "Title"]] eq_refl) as (sh' & Hsh' & Hc).
  exists out, sh'. split; [exact Ho|]. split; [exact Hsh'|].
  rewrite !Hc. vm_compute. repeat split.
Defined.
